(** * google-sheets-mcp: the request/response translation layer of [sheets.py]

    The development embeds the Python module [src/sheets.py] together with
    the parts of the Python standard library it calls
    ([urllib.parse.quote], [str.split], [str.strip], [json.dumps],
    [json.loads] for reading results back) and states the properties of the
    encoder, the request builders and the result normaliser over that
    embedding.

    Conventions.
    - A Python [str] is a sequence of Unicode code points and is modelled as
      [list Z]; a [bytes] object is a [list Z] of values below 256.  Code
      points outside [0, 0x10FFFF] do not exist in Python; surrogates
      (0xD800-0xDFFF) do, and they are what [str.encode] rejects.
    - JSON-like Python values ([None], [bool], [int], [str], [list],
      [dict]) are the inductive type [Json.value]; [dict] keeps insertion
      order, as Python's does.  Floats are outside the embedding.
    - [await ctx.dispatch(...)] is the single effect of the module; it is an
      explicit node of the [Async] type, whose continuation receives the
      dispatcher's outcome. *)

From Stdlib Require Import ZArith String Ascii List Bool Lia.
From Stdlib Require Import DecimalString.
From Stdlib Require DecimalPos DecimalFacts.
Import ListNotations.
Open Scope Z_scope.

(** ** Python values: strings, bytes, exceptions *)

Module Py.

Definition str := list Z.
Definition bytes := list Z.

(** An ASCII literal of the source, as a [str]. *)
Definition lit (s : string) : str :=
  map (fun a => Z.of_N (N_of_ascii a)) (list_ascii_of_string s).
Arguments lit s%_string.

Inductive exn : Type :=
| UnicodeEncodeError
| UnicodeDecodeError
| AttributeError.

Inductive result (A : Type) : Type :=
| Ok (a : A)
| Err (e : exn).
Arguments Ok {A} a.
Arguments Err {A} e.

Definition memb (c : Z) (l : list Z) : bool := existsb (Z.eqb c) l.

Fixpoint str_eqb (a b : str) : bool :=
  match a, b with
  | [], [] => true
  | x :: a', y :: b' => (x =? y) && str_eqb a' b'
  | _, _ => false
  end.

(** [sep.join(parts)] *)
Fixpoint join (sep : str) (parts : list str) : str :=
  match parts with
  | [] => []
  | [p] => p
  | p :: rest => p ++ sep ++ join sep rest
  end.

(** [s.split(sep)] for a separator of one character (the source only
    splits on [","]).  The result is never empty: [''.split(',')] is
    [['']]. *)
Fixpoint split (sep : Z) (s : str) : list str :=
  match s with
  | [] => [[]]
  | c :: s' =>
      if c =? sep then [] :: split sep s'
      else match split sep s' with
           | seg :: segs => (c :: seg) :: segs
           | [] => [[c]]
           end
  end.

(** [str.isspace] on one character: the code points CPython's
    [_PyUnicode_IsWhitespace] accepts. *)
Definition isspace (c : Z) : bool :=
  ((0x09 <=? c) && (c <=? 0x0D)) || ((0x1C <=? c) && (c <=? 0x20))
  || (c =? 0x85) || (c =? 0xA0) || (c =? 0x1680)
  || ((0x2000 <=? c) && (c <=? 0x200A))
  || (c =? 0x2028) || (c =? 0x2029) || (c =? 0x202F)
  || (c =? 0x205F) || (c =? 0x3000).

Fixpoint dropwhile (p : Z -> bool) (s : list Z) : list Z :=
  match s with
  | [] => []
  | c :: s' => if p c then dropwhile p s' else s
  end.

Definition lstrip (s : str) : str := dropwhile isspace s.
Definition rstrip (s : str) : str := rev (dropwhile isspace (rev s)).
(** [s.strip()] *)
Definition strip (s : str) : str := rstrip (lstrip s).

(** [bs.rstrip(chars)] on bytes: drop the trailing bytes that occur in
    [chars]. *)
Definition bytes_rstrip (chars : bytes) (bs : bytes) : bytes :=
  rev (dropwhile (fun b => memb b chars) (rev bs)).

(** [str(b)] for a [bool] *)
Definition str_of_bool (b : bool) : str :=
  if b then lit "True" else lit "False".

(** [s.lower()]; the source applies it to [str(bool)] only, so the
    embedding lowers the ASCII letters and leaves every other code point
    as it is. *)
Definition lower_char (c : Z) : Z :=
  if (0x41 <=? c) && (c <=? 0x5A) then c + 32 else c.
Definition lower (s : str) : str := map lower_char s.

(** Truth value of a [str] in [if s:] *)
Definition str_truthy (s : str) : bool :=
  match s with [] => false | _ => true end.

(** *** UTF-8, as [str.encode('utf-8', 'strict')] and [bytes.decode()] *)

Definition is_surrogate (c : Z) : bool := (0xD800 <=? c) && (c <=? 0xDFFF).

(** Unicode scalar values: the code points UTF-8 can encode. *)
Definition is_scalar (c : Z) : bool :=
  (0 <=? c) && (c <=? 0x10FFFF) && negb (is_surrogate c).

Definition utf8_char (c : Z) : option bytes :=
  if negb (is_scalar c) then None
  else if c <? 0x80 then Some [c]
  else if c <? 0x800 then
    Some [Z.lor 0xC0 (Z.shiftr c 6); Z.lor 0x80 (Z.land c 0x3F)]
  else if c <? 0x10000 then
    Some [Z.lor 0xE0 (Z.shiftr c 12);
          Z.lor 0x80 (Z.land (Z.shiftr c 6) 0x3F);
          Z.lor 0x80 (Z.land c 0x3F)]
  else
    Some [Z.lor 0xF0 (Z.shiftr c 18);
          Z.lor 0x80 (Z.land (Z.shiftr c 12) 0x3F);
          Z.lor 0x80 (Z.land (Z.shiftr c 6) 0x3F);
          Z.lor 0x80 (Z.land c 0x3F)].

Fixpoint utf8_encode (s : str) : result bytes :=
  match s with
  | [] => Ok []
  | c :: s' =>
      match utf8_char c with
      | None => Err UnicodeEncodeError
      | Some bs =>
          match utf8_encode s' with
          | Ok rest => Ok (bs ++ rest)
          | Err e => Err e
          end
      end
  end.

Definition is_cont (b : Z) : bool := (0x80 <=? b) && (b <=? 0xBF).

Fixpoint utf8_decode (bs : bytes) : option str :=
  match bs with
  | [] => Some []
  | b0 :: r0 =>
      if (0 <=? b0) && (b0 <? 0x80) then option_map (cons b0) (utf8_decode r0)
      else if (0xC2 <=? b0) && (b0 <? 0xE0) then
        match r0 with
        | b1 :: r1 =>
            let c := Z.lor (Z.shiftl (Z.land b0 0x1F) 6) (Z.land b1 0x3F) in
            if is_cont b1 then option_map (cons c) (utf8_decode r1) else None
        | _ => None
        end
      else if (0xE0 <=? b0) && (b0 <? 0xF0) then
        match r0 with
        | b1 :: b2 :: r2 =>
            let c := Z.lor (Z.shiftl (Z.land b0 0x0F) 12)
                       (Z.lor (Z.shiftl (Z.land b1 0x3F) 6) (Z.land b2 0x3F)) in
            if is_cont b1 && is_cont b2 && (0x800 <=? c) && negb (is_surrogate c)
            then option_map (cons c) (utf8_decode r2) else None
        | _ => None
        end
      else if (0xF0 <=? b0) && (b0 <? 0xF5) then
        match r0 with
        | b1 :: b2 :: b3 :: r3 =>
            let c := Z.lor (Z.shiftl (Z.land b0 0x07) 18)
                       (Z.lor (Z.shiftl (Z.land b1 0x3F) 12)
                          (Z.lor (Z.shiftl (Z.land b2 0x3F) 6) (Z.land b3 0x3F))) in
            if is_cont b1 && is_cont b2 && is_cont b3
               && (0x10000 <=? c) && (c <=? 0x10FFFF)
            then option_map (cons c) (utf8_decode r3) else None
        | _ => None
        end
      else None
  end.

End Py.
Import Py.

(** ** [urllib.parse.quote] *)

Module Urllib.

(** [_ALWAYS_SAFE]: the unreserved characters of RFC 3986. *)
Definition _ALWAYS_SAFE : bytes :=
  lit "ABCDEFGHIJKLMNOPQRSTUVWXYZabcdefghijklmnopqrstuvwxyz0123456789_.-~".

Definition hex_upper (d : Z) : Z :=
  nth (Z.to_nat d) (lit "0123456789ABCDEF") 0x30.

(** ['%{:02X}'.format(b)] for a byte [b] *)
Definition format_02X (b : Z) : str :=
  [0x25; hex_upper (Z.shiftr b 4); hex_upper (Z.land b 0xF)].

(** [_Quoter(safe)[b]] *)
Definition quoter (safe : bytes) (b : Z) : str :=
  if memb b (_ALWAYS_SAFE ++ safe) then [b] else format_02X b.

Definition quote_from_bytes (bs : bytes) (safe : str) : result str :=
  match bs with
  | [] => Ok []
  | _ =>
      (* safe.encode('ascii', 'ignore') *)
      let safe := filter (fun c => (0 <=? c) && (c <? 128)) safe in
      match bytes_rstrip (_ALWAYS_SAFE ++ safe) bs with
      | [] =>
          match utf8_decode bs with
          | Some s => Ok s
          | None => Err UnicodeDecodeError
          end
      | _ => Ok (flat_map (quoter safe) bs)
      end
  end.

Definition quote (string : str) (safe : str) : result str :=
  match string with
  | [] => Ok string
  | _ =>
      match utf8_encode string with
      | Ok bs => quote_from_bytes bs safe
      | Err e => Err e
      end
  end.

End Urllib.

(** ** [sheets.py]: the identifier encoder *)

Definition _encode_range (range_a1 : str) : result str :=
  Urllib.quote range_a1 (lit "!:$'(),-._~").

(** ** [json]: values, [json.dumps(obj, indent=n)] and [json.loads] *)

Module Json.

#[local] Set Warnings "-register-all".

(** The Python objects [json] maps to and from JSON.  [JNull] is [None].
    A [dict] is the list of its items in insertion order, with [str] keys.
    Integers are those whose decimal form stays within the interpreter's
    limit on integer/string conversion. *)
Inductive value : Type :=
| JNull
| JBool (b : bool)
| JInt (n : Z)
| JStr (s : str)
| JList (items : list value)
| JDict (items : list (str * value)).

(** [d[k] = v] on an insertion-ordered dict *)
Fixpoint dict_set (k : str) (v : value) (d : list (str * value))
  : list (str * value) :=
  match d with
  | [] => [(k, v)]
  | (k', v') :: d' =>
      if str_eqb k k' then (k, v) :: d' else (k', v') :: dict_set k v d'
  end.

(** [d.get(k)] *)
Fixpoint dict_get (k : str) (d : list (str * value)) : option value :=
  match d with
  | [] => None
  | (k', v') :: d' => if str_eqb k k' then Some v' else dict_get k d'
  end.

(** [dict(pairs)] *)
Definition dict_of_pairs (pairs : list (str * value)) : list (str * value) :=
  fold_left (fun d kv => dict_set (fst kv) (snd kv) d) pairs [].

(** Truth value of an object, as [bool(x)] and [x or y] see it. *)
Definition truthy (x : value) : bool :=
  match x with
  | JNull => false
  | JBool b => b
  | JInt n => negb (n =? 0)
  | JStr s => str_truthy s
  | JList l => match l with [] => false | _ => true end
  | JDict d => match d with [] => false | _ => true end
  end.

(** [x or y] *)
Definition py_or (x y : value) : value := if truthy x then x else y.

(** *** Encoding *)

Definition hex_lower (d : Z) : Z :=
  nth (Z.to_nat d) (lit "0123456789abcdef") 0x30.

(** ['\\u{0:04x}'.format(n)] for [n < 0x10000] *)
Definition format_u04x (n : Z) : str :=
  [0x5C; 0x75; hex_lower (Z.land (Z.shiftr n 12) 0xF);
   hex_lower (Z.land (Z.shiftr n 8) 0xF);
   hex_lower (Z.land (Z.shiftr n 4) 0xF); hex_lower (Z.land n 0xF)].

(** The replacement of one character by [encode_basestring_ascii]:
    [ESCAPE_ASCII] selects the backslash, the double quote and everything
    outside [' '..'~']. *)
Definition escape_char (c : Z) : str :=
  if c =? 0x5C then lit "\\"
  else if c =? 0x22 then [0x5C; 0x22]
  else if (0x20 <=? c) && (c <=? 0x7E) then [c]
  else if c =? 0x08 then lit "\b"
  else if c =? 0x0C then lit "\f"
  else if c =? 0x0A then lit "\n"
  else if c =? 0x0D then lit "\r"
  else if c =? 0x09 then lit "\t"
  else if c <? 0x10000 then format_u04x c
  else
    let n := c - 0x10000 in
    let s1 := Z.lor 0xD800 (Z.land (Z.shiftr n 10) 0x3FF) in
    let s2 := Z.lor 0xDC00 (Z.land n 0x3FF) in
    format_u04x s1 ++ format_u04x s2.

Definition encode_basestring_ascii (s : str) : str :=
  [0x22] ++ flat_map escape_char s ++ [0x22].

(** [int.__repr__] *)
Definition int_repr (n : Z) : str :=
  map (fun a => Z.of_N (N_of_ascii a))
    (list_ascii_of_string (NilZero.string_of_int (Z.to_int n))).

Definition spaces (n : nat) : str := repeat 0x20 n.

(** ['\\n' + indent * level] *)
Definition newline_indent (indent level : nat) : str :=
  [0x0A] ++ spaces (indent * level).

(** The text [_make_iterencode] yields for [o] at nesting level [level],
    with item separator [','], key separator [': '] and an indent of
    [indent] spaces; the chunks are already joined. *)
Fixpoint iterencode (indent level : nat) (o : value) : str :=
  match o with
  | JStr s => encode_basestring_ascii s
  | JNull => lit "null"
  | JBool true => lit "true"
  | JBool false => lit "false"
  | JInt n => int_repr n
  | JList [] => lit "[]"
  | JList (v :: lst) =>
      let nl := newline_indent indent (S level) in
      let separator := [0x2C] ++ nl in
      ([0x5B] ++ nl) ++ iterencode indent (S level) v
      ++ (fix rest (l : list value) : str :=
            match l with
            | [] => []
            | w :: l' => separator ++ iterencode indent (S level) w ++ rest l'
            end) lst
      ++ newline_indent indent level ++ [0x5D]
  | JDict [] => lit "{}"
  | JDict ((k, v) :: dct) =>
      let nl := newline_indent indent (S level) in
      let item_separator := [0x2C] ++ nl in
      ([0x7B] ++ nl)
      ++ encode_basestring_ascii k ++ lit ": " ++ iterencode indent (S level) v
      ++ (fix rest (l : list (str * value)) : str :=
            match l with
            | [] => []
            | (k', w) :: l' =>
                item_separator ++ encode_basestring_ascii k' ++ lit ": "
                ++ iterencode indent (S level) w ++ rest l'
            end) dct
      ++ newline_indent indent level ++ [0x7D]
  end.

(** [json.dumps(obj, indent=indent)] *)
Definition dumps (obj : value) (indent : nat) : str :=
  iterencode indent 0 obj.

(** *** Decoding *)

Definition is_ws (c : Z) : bool :=
  (c =? 0x20) || (c =? 0x09) || (c =? 0x0A) || (c =? 0x0D).

(** [WHITESPACE.match(s, end).end()], as the text left after it *)
Definition skip_ws (s : str) : str := dropwhile is_ws s.

Definition is_digit (c : Z) : bool := (0x30 <=? c) && (c <=? 0x39).

Definition hex_value (c : Z) : option Z :=
  if is_digit c then Some (c - 0x30)
  else if (0x61 <=? c) && (c <=? 0x66) then Some (c - 0x61 + 10)
  else if (0x41 <=? c) && (c <=? 0x46) then Some (c - 0x41 + 10)
  else None.

(** [_decode_uXXXX] on the four characters after [\u] *)
Definition decode_uXXXX (h1 h2 h3 h4 : Z) : option Z :=
  match hex_value h1, hex_value h2, hex_value h3, hex_value h4 with
  | Some a, Some b, Some c, Some d => Some (((a * 16 + b) * 16 + c) * 16 + d)
  | _, _, _, _ => None
  end.

(** The [BACKSLASH] table *)
Definition BACKSLASH (esc : Z) : option Z :=
  if esc =? 0x22 then Some 0x22
  else if esc =? 0x5C then Some 0x5C
  else if esc =? 0x2F then Some 0x2F
  else if esc =? 0x62 then Some 0x08
  else if esc =? 0x66 then Some 0x0C
  else if esc =? 0x6E then Some 0x0A
  else if esc =? 0x72 then Some 0x0D
  else if esc =? 0x74 then Some 0x09
  else None.

Definition cons_fst (c : Z) (r : option (str * str)) : option (str * str) :=
  match r with
  | Some (content, rest) => Some (c :: content, rest)
  | None => None
  end.

(** [scanstring(s, end, strict=True)], started after the opening quote:
    the decoded content and the text after the closing quote. *)
Fixpoint scanstring (s : str) : option (str * str) :=
  match s with
  | [] => None
  | c :: s1 =>
      if c =? 0x22 then Some ([], s1)
      else if c =? 0x5C then
        match s1 with
        | [] => None
        | esc :: s2 =>
            if esc =? 0x75 then
              match s2 with
              | h1 :: h2 :: h3 :: h4 :: s6 =>
                  match decode_uXXXX h1 h2 h3 h4 with
                  | None => None
                  | Some uni =>
                      if (0xD800 <=? uni) && (uni <=? 0xDBFF) then
                        match s6 with
                        | b :: u :: s8 =>
                            if (b =? 0x5C) && (u =? 0x75) then
                              match s8 with
                              | g1 :: g2 :: g3 :: g4 :: s12 =>
                                  match decode_uXXXX g1 g2 g3 g4 with
                                  | None => None
                                  | Some uni2 =>
                                      if (0xDC00 <=? uni2) && (uni2 <=? 0xDFFF) then
                                        cons_fst
                                          (0x10000 +
                                           Z.lor (Z.shiftl (uni - 0xD800) 10)
                                             (uni2 - 0xDC00))
                                          (scanstring s12)
                                      else cons_fst uni (scanstring s6)
                                  end
                              | _ => None
                              end
                            else cons_fst uni (scanstring s6)
                        | _ => cons_fst uni (scanstring s6)
                        end
                      else cons_fst uni (scanstring s6)
                  end
              | _ => None
              end
            else
              match BACKSLASH esc with
              | Some ch => cons_fst ch (scanstring s2)
              | None => None
              end
        end
      else if (0 <=? c) && (c <? 0x20) then None
      else cons_fst c (scanstring s1)
  end.

Fixpoint strip_prefix (p s : str) : option str :=
  match p, s with
  | [], _ => Some s
  | a :: p', b :: s' => if a =? b then strip_prefix p' s' else None
  | _ :: _, [] => None
  end.

Fixpoint span_digits (s : str) : str * str :=
  match s with
  | [] => ([], [])
  | c :: s' =>
      if is_digit c then let (ds, r) := span_digits s' in (c :: ds, r)
      else ([], s)
  end.

(** [int(digits)] *)
Definition digits_value (ds : str) : Z :=
  fold_left (fun acc d => acc * 10 + (d - 0x30)) ds 0.

(** The first group of [NUMBER_RE]: an optional minus sign, then either
    a single zero or a non-zero digit followed by digits. *)
Definition match_integer (s : str) : option (Z * str) :=
  let (neg, s1) :=
    match s with
    | c :: s' => if c =? 0x2D then (true, s') else (false, s)
    | [] => (false, s)
    end in
  match s1 with
  | [] => None
  | c :: s2 =>
      if c =? 0x30 then Some (0, s2)
      else if is_digit c then
        let (ds, r) := span_digits s2 in
        let n := digits_value (c :: ds) in
        Some (if neg then - n else n, r)
      else None
  end.

(** Whether the second group (a dot and at least one digit) matches at
    [s]. *)
Definition has_frac (s : str) : bool :=
  match s with
  | c :: d :: _ => (c =? 0x2E) && is_digit d
  | _ => false
  end.

(** Whether the third group (e or E, an optional sign, at least one
    digit) matches at [s]. *)
Definition has_exp (s : str) : bool :=
  match s with
  | c :: d :: r =>
      ((c =? 0x65) || (c =? 0x45))
      && (is_digit d
          || (((d =? 0x2B) || (d =? 0x2D))
              && match r with d' :: _ => is_digit d' | [] => false end))
  | _ => false
  end.

(** [scan_once], with [JSONArray] and [JSONObject] inlined.  [None] is a
    [JSONDecodeError], or a number with a fraction or an exponent (also
    [NaN] and the infinities), which [value] does not hold.  Every call
    uses one unit of [fuel]. *)
Fixpoint scan_once (fuel : nat) (s : str) {struct fuel}
  : option (value * str) :=
  match fuel with
  | O => None
  | S fuel' =>
      match s with
      | [] => None
      | c :: s' =>
          if c =? 0x22 then
            match scanstring s' with
            | Some (content, r) => Some (JStr content, r)
            | None => None
            end
          else if c =? 0x7B then
            (* JSONObject *)
            match skip_ws s' with
            | q :: r =>
                if q =? 0x22 then
                  match object_items fuel' r with
                  | Some (pairs, r') => Some (JDict (dict_of_pairs pairs), r')
                  | None => None
                  end
                else if q =? 0x7D then Some (JDict [], r)
                else None
            | [] => None
            end
          else if c =? 0x5B then
            (* JSONArray *)
            match skip_ws s' with
            | q :: r =>
                if q =? 0x5D then Some (JList [], r)
                else
                  match array_items fuel' (q :: r) with
                  | Some (values, r') => Some (JList values, r')
                  | None => None
                  end
            | [] => None
            end
          else if c =? 0x6E then
            match strip_prefix (lit "null") s with
            | Some r => Some (JNull, r)
            | None => None
            end
          else if c =? 0x74 then
            match strip_prefix (lit "true") s with
            | Some r => Some (JBool true, r)
            | None => None
            end
          else if c =? 0x66 then
            match strip_prefix (lit "false") s with
            | Some r => Some (JBool false, r)
            | None => None
            end
          else
            match match_integer s with
            | Some (n, r) =>
                if has_frac r || has_exp r then None else Some (JInt n, r)
            | None => None
            end
      end
  end

(** The loop of [JSONArray], entered at the first character of a value. *)
with array_items (fuel : nat) (s : str) {struct fuel}
  : option (list value * str) :=
  match fuel with
  | O => None
  | S fuel' =>
      match scan_once fuel' s with
      | None => None
      | Some (v, r) =>
          match skip_ws r with
          | c :: r1 =>
              if c =? 0x5D then Some ([v], r1)
              else if c =? 0x2C then
                match array_items fuel' (skip_ws r1) with
                | Some (values, r2) => Some (v :: values, r2)
                | None => None
                end
              else None
          | [] => None
          end
      end
  end

(** The loop of [JSONObject], entered after the opening quote of a key. *)
with object_items (fuel : nat) (s : str) {struct fuel}
  : option (list (str * value) * str) :=
  match fuel with
  | O => None
  | S fuel' =>
      match scanstring s with
      | None => None
      | Some (key, r) =>
          match skip_ws r with
          | c :: r1 =>
              if c =? 0x3A then
                match scan_once fuel' (skip_ws r1) with
                | None => None
                | Some (v, r2) =>
                    match skip_ws r2 with
                    | d :: r3 =>
                        if d =? 0x7D then Some ([(key, v)], r3)
                        else if d =? 0x2C then
                          match skip_ws r3 with
                          | q :: r4 =>
                              if q =? 0x22 then
                                match object_items fuel' r4 with
                                | Some (pairs, r5) => Some ((key, v) :: pairs, r5)
                                | None => None
                                end
                              else None
                          | [] => None
                          end
                        else None
                    | [] => None
                    end
                end
              else None
          | [] => None
          end
      end
  end.

(** [JSONDecoder.decode]: one value between optional whitespace, and
    nothing after it. *)
Definition decode (fuel : nat) (s : str) : option value :=
  match scan_once fuel (skip_ws s) with
  | Some (obj, r) =>
      match skip_ws r with
      | [] => Some obj
      | _ => None
      end
  | None => None
  end.

(** [json.loads(s)].  No call chain of the scanner is longer than twice
    the text plus one, since between two nested calls at least one
    character is consumed every second call. *)
Definition loads (s : str) : option value :=
  decode (2 * length s + 2) s.

End Json.
Import Json.

(** ** The host framework, at its interface *)

Module Dedalus.

(** Modelled from the spec: the methods a built request uses, "one of
    GET/POST/PUT" (the framework's [HttpMethod] enumeration is not part of
    this repository). *)
Inductive HttpMethod : Type := GET | POST | PUT.

Module HttpRequest.
(** [body] is [None] ([JNull]) when the request has none. *)
Record t : Type := mk { method : HttpMethod; path : str; body : value }.
End HttpRequest.

Module HttpResponse.
(** Modelled from the spec: the [response: {body}] part of a dispatch
    outcome; [body] is [None] ([JNull]) when absent. *)
Record t : Type := mk { body : value }.
End HttpResponse.

(** Modelled from the spec: the [error: {message}] part of a dispatch
    outcome. *)
Record DispatchError : Type := { message : str }.

(** Modelled from the spec: the outcome of
    [dispatch(serviceName, {method, path, body})], namely
    [{success, response: {body}, error: {message}}]; [response] and
    [error] are [None] when the dispatcher does not supply them. *)
Record DispatchResponse : Type :=
  { success : bool;
    response : option HttpResponse.t;
    error : option DispatchError }.

(** [mcp.types.TextContent] *)
Record TextContent : Type := { type : str; text : str }.

(** A coroutine of the module: it returns, raises, or awaits
    [ctx.dispatch(connection, request)] and goes on with the outcome. *)
Inductive Async (A : Type) : Type :=
| Return (a : A)
| Raise (e : exn)
| Await (connection : str) (request : HttpRequest.t)
    (k : DispatchResponse -> Async A).
Arguments Return {A} a.
Arguments Raise {A} e.
Arguments Await {A} connection request k.

(** A dispatcher answers every request of a connection. *)
Definition Dispatcher : Type := str -> HttpRequest.t -> DispatchResponse.

(** Running a coroutine to completion against a dispatcher. *)
Fixpoint run {A : Type} (dispatch : Dispatcher) (p : Async A) : result A :=
  match p with
  | Return a => Ok a
  | Raise e => Err e
  | Await connection request k =>
      run dispatch (k (dispatch connection request))
  end.

(** The request a coroutine hands to the dispatcher first, if any. *)
Definition built_request {A : Type} (p : Async A) : option HttpRequest.t :=
  match p with
  | Await _ request _ => Some request
  | _ => None
  end.

(** The requests dispatched during a run, in order. *)
Fixpoint requests {A : Type} (dispatch : Dispatcher) (p : Async A)
  : list (str * HttpRequest.t) :=
  match p with
  | Await connection request k =>
      (connection, request) :: requests dispatch (k (dispatch connection request))
  | _ => []
  end.

End Dedalus.
Import Dedalus.

(** ** Reading a request path back: its query parameters *)

Module Url.

(** The text before and after the first [sep], if [sep] occurs. *)
Fixpoint partition (sep : Z) (s : str) : option (str * str) :=
  match s with
  | [] => None
  | c :: s' =>
      if c =? sep then Some ([], s')
      else match partition sep s' with
           | Some (before, after) => Some (c :: before, after)
           | None => None
           end
  end.

(** The part of a path before its query string. *)
Definition path_part (path : str) : str :=
  match partition 0x3F path with
  | Some (before, _) => before
  | None => path
  end.

Definition key_value (field : str) : str * str :=
  match partition 0x3D field with
  | Some kv => kv
  | None => (field, [])
  end.

(** The query parameters of a path, in order: the fields between [&]
    after the first [?], each cut at its first [=]. *)
Definition query_pairs (path : str) : list (str * str) :=
  match partition 0x3F path with
  | Some (_, query) => map key_value (split 0x26 query)
  | None => []
  end.

(** The values given for [key], in order. *)
Definition query_values (key : str) (path : str) : list str :=
  map snd (filter (fun kv => str_eqb (fst kv) key) (query_pairs path)).

End Url.

(** ** [sheets.py]: helpers and tools *)

Definition SheetsResult : Type := list TextContent.

(** An argument left out by the caller takes the default of the signature. *)
Definition default {A : Type} (d : A) (arg : option A) : A :=
  match arg with
  | Some a => a
  | None => d
  end.

(** Going on with the value of a call that may raise; an exception ends the
    coroutine. *)
Definition await_result {A : Type} (r : result str) (k : str -> Async A) : Async A :=
  match r with
  | Ok s => k s
  | Err e => Raise e
  end.

(** [_req]: one dispatch on the connection of the module, then the
    normalisation of its outcome.  [get_context()] is taken to succeed, the
    tools being run inside a request. *)
Definition _req (method : HttpMethod) (path : str) (body : value)
  : Async SheetsResult :=
  Await (lit "google-sheets-mcp") (HttpRequest.mk method path body)
    (fun resp =>
       if success resp then
         match response resp with
         | None => Raise AttributeError
         | Some r =>
             let data := py_or (HttpResponse.body r) (JDict []) in
             Return [ {| type := lit "text"; text := dumps data 2 |} ]
         end
       else
         let error :=
           match error resp with
           | Some e => JStr (message e)
           | None => JStr (lit "Request failed")
           end in
         Return [ {| type := lit "text";
                     text := dumps (JDict [(lit "error", error)]) 2 |} ]).

(** [for r in ranges.split(","): params.append(f"ranges={r.strip()}")] *)
Definition append_ranges (params : list str) (ranges : str) : list str :=
  fold_left (fun params r => params ++ [lit "ranges=" ++ strip r])
    (split 0x2C ranges) params.

Definition sheets_get_spreadsheet (spreadsheet_id : str)
  (include_grid_data : option bool) (ranges fields : option str)
  : Async SheetsResult :=
  let include_grid_data := default false include_grid_data in
  let ranges := default (lit "") ranges in
  let fields := default (lit "") fields in
  let params := [lit "includeGridData=" ++ lower (str_of_bool include_grid_data)] in
  let params := if str_truthy ranges then append_ranges params ranges else params in
  let params := if str_truthy fields then params ++ [lit "fields=" ++ fields] else params in
  let query_string := join (lit "&") params in
  _req GET (lit "/v4/spreadsheets/" ++ spreadsheet_id ++ lit "?" ++ query_string) JNull.

Definition sheets_list_sheets (spreadsheet_id : str) : Async SheetsResult :=
  let fields :=
    lit "spreadsheetId,properties(title),sheets(properties(sheetId,title,index,gridProperties))" in
  _req GET (lit "/v4/spreadsheets/" ++ spreadsheet_id ++ lit "?fields=" ++ fields) JNull.

Definition sheets_get_values (spreadsheet_id range : str)
  (major_dimension value_render_option date_time_render_option : option str)
  : Async SheetsResult :=
  let major_dimension := default (lit "ROWS") major_dimension in
  let value_render_option := default (lit "FORMATTED_VALUE") value_render_option in
  let date_time_render_option := default (lit "SERIAL_NUMBER") date_time_render_option in
  await_result (_encode_range range) (fun encoded_range =>
  let params :=
    [lit "majorDimension=" ++ major_dimension;
     lit "valueRenderOption=" ++ value_render_option;
     lit "dateTimeRenderOption=" ++ date_time_render_option] in
  let query_string := join (lit "&") params in
  _req GET
    (lit "/v4/spreadsheets/" ++ spreadsheet_id ++ lit "/values/" ++ encoded_range
     ++ lit "?" ++ query_string) JNull).

Definition sheets_batch_get_values (spreadsheet_id ranges : str)
  (major_dimension value_render_option date_time_render_option : option str)
  : Async SheetsResult :=
  let major_dimension := default (lit "ROWS") major_dimension in
  let value_render_option := default (lit "FORMATTED_VALUE") value_render_option in
  let date_time_render_option := default (lit "SERIAL_NUMBER") date_time_render_option in
  let params :=
    [lit "majorDimension=" ++ major_dimension;
     lit "valueRenderOption=" ++ value_render_option;
     lit "dateTimeRenderOption=" ++ date_time_render_option] in
  let params := append_ranges params ranges in
  let query_string := join (lit "&") params in
  _req GET
    (lit "/v4/spreadsheets/" ++ spreadsheet_id ++ lit "/values:batchGet?" ++ query_string)
    JNull.

Definition sheets_update_values (spreadsheet_id range : str)
  (values : list (list value))
  (value_input_option : option str) (include_values_in_response : option bool)
  : Async SheetsResult :=
  let value_input_option := default (lit "USER_ENTERED") value_input_option in
  let include_values_in_response := default false include_values_in_response in
  await_result (_encode_range range) (fun encoded_range =>
  let params :=
    [lit "valueInputOption=" ++ value_input_option;
     lit "includeValuesInResponse=" ++ lower (str_of_bool include_values_in_response)] in
  let query_string := join (lit "&") params in
  let body := JDict [(lit "values", JList (map JList values))] in
  _req PUT
    (lit "/v4/spreadsheets/" ++ spreadsheet_id ++ lit "/values/" ++ encoded_range
     ++ lit "?" ++ query_string) body).

Definition sheets_batch_update_values (spreadsheet_id : str) (data : list value)
  (value_input_option : option str) (include_values_in_response : option bool)
  : Async SheetsResult :=
  let value_input_option := default (lit "USER_ENTERED") value_input_option in
  let include_values_in_response := default false include_values_in_response in
  let body :=
    JDict [(lit "valueInputOption", JStr value_input_option);
           (lit "includeValuesInResponse", JBool include_values_in_response);
           (lit "data", JList data)] in
  _req POST (lit "/v4/spreadsheets/" ++ spreadsheet_id ++ lit "/values:batchUpdate") body.

Definition sheets_append_values (spreadsheet_id range : str)
  (values : list (list value))
  (value_input_option insert_data_option : option str)
  (include_values_in_response : option bool)
  : Async SheetsResult :=
  let value_input_option := default (lit "USER_ENTERED") value_input_option in
  let insert_data_option := default (lit "INSERT_ROWS") insert_data_option in
  let include_values_in_response := default false include_values_in_response in
  await_result (_encode_range range) (fun encoded_range =>
  let params :=
    [lit "valueInputOption=" ++ value_input_option;
     lit "insertDataOption=" ++ insert_data_option;
     lit "includeValuesInResponse=" ++ lower (str_of_bool include_values_in_response)] in
  let query_string := join (lit "&") params in
  let body := JDict [(lit "values", JList (map JList values))] in
  _req POST
    (lit "/v4/spreadsheets/" ++ spreadsheet_id ++ lit "/values/" ++ encoded_range
     ++ lit ":append?" ++ query_string) body).

Definition sheets_clear_values (spreadsheet_id range : str) : Async SheetsResult :=
  await_result (_encode_range range) (fun encoded_range =>
  _req POST
    (lit "/v4/spreadsheets/" ++ spreadsheet_id ++ lit "/values/" ++ encoded_range
     ++ lit ":clear") (JDict [])).

Definition sheets_batch_update (spreadsheet_id : str) (requests : list value)
  (include_spreadsheet_in_response : option bool) : Async SheetsResult :=
  let include_spreadsheet_in_response := default false include_spreadsheet_in_response in
  let body :=
    JDict [(lit "requests", JList requests);
           (lit "includeSpreadsheetInResponse", JBool include_spreadsheet_in_response)] in
  _req POST (lit "/v4/spreadsheets/" ++ spreadsheet_id ++ lit ":batchUpdate") body.

Definition sheets_create (title : str) (sheet_titles : option str)
  : Async SheetsResult :=
  let sheet_titles := default (lit "") sheet_titles in
  let body := [(lit "properties", JDict [(lit "title", JStr title)])] in
  let body :=
    if str_truthy sheet_titles then
      dict_set (lit "sheets")
        (JList (map (fun t => JDict [(lit "properties",
                                      JDict [(lit "title", JStr (strip t))])])
                  (split 0x2C sheet_titles)))
        body
    else body in
  _req POST (lit "/v4/spreadsheets") (JDict body).

(** ** [sheets.py]: the connection *)

Module Connection.
(** [Connection(name=..., secrets=SecretKeys(token=...), base_url=...,
    auth_header_format=...)] *)
Record t : Type :=
  mk { name : str; token : str; base_url : str; auth_header_format : str }.
End Connection.

Definition sheets : Connection.t :=
  Connection.mk (lit "google-sheets-mcp") (lit "SHEETS_ACCESS_TOKEN")
    (lit "https://sheets.googleapis.com") (lit "Bearer {api_key}").

(** ** [sheets.py]: the decorators and the export *)

(** What [@tool(description=..., tags=..., annotations=ToolAnnotations(
    readOnlyHint=...))] records for a function; [name] is the name of the
    decorated function. *)
Record Tool : Type :=
  { name : str; description : str; tags : list str; readOnlyHint : bool }.

Definition sheets_get_spreadsheet_tool : Tool :=
  {| name := lit "sheets_get_spreadsheet";
     description :=
       lit "Get spreadsheet metadata including title, locale, sheets, and named ranges.";
     tags := [lit "spreadsheet"; lit "read"];
     readOnlyHint := true |}.

Definition sheets_list_sheets_tool : Tool :=
  {| name := lit "sheets_list_sheets";
     description :=
       lit "List all sheets/tabs in a spreadsheet with their properties (ID, title, index, grid size).";
     tags := [lit "spreadsheet"; lit "read"];
     readOnlyHint := true |}.

Definition sheets_get_values_tool : Tool :=
  {| name := lit "sheets_get_values";
     description :=
       lit "Read values from a single range in A1 notation (e.g., 'Sheet1!A1:B10').";
     tags := [lit "values"; lit "read"];
     readOnlyHint := true |}.

Definition sheets_batch_get_values_tool : Tool :=
  {| name := lit "sheets_batch_get_values";
     description :=
       lit "Read values from multiple ranges at once. More efficient than multiple single-range calls.";
     tags := [lit "values"; lit "read"];
     readOnlyHint := true |}.

Definition sheets_update_values_tool : Tool :=
  {| name := lit "sheets_update_values";
     description :=
       lit "Write values to a single range. Values are parsed as if typed by user (USER_ENTERED).";
     tags := [lit "values"; lit "write"];
     readOnlyHint := false |}.

Definition sheets_batch_update_values_tool : Tool :=
  {| name := lit "sheets_batch_update_values";
     description :=
       lit "Write values to multiple ranges at once. More efficient than multiple single-range updates.";
     tags := [lit "values"; lit "write"];
     readOnlyHint := false |}.

Definition sheets_append_values_tool : Tool :=
  {| name := lit "sheets_append_values";
     description :=
       lit "Append values after the last row of data in a range. Useful for adding new rows.";
     tags := [lit "values"; lit "write"];
     readOnlyHint := false |}.

Definition sheets_clear_values_tool : Tool :=
  {| name := lit "sheets_clear_values";
     description := lit "Clear values from a range while keeping formatting.";
     tags := [lit "values"; lit "write"];
     readOnlyHint := false |}.

Definition sheets_batch_update_tool : Tool :=
  {| name := lit "sheets_batch_update";
     description :=
       lit "Execute batch updates on a spreadsheet (add sheets, format cells, create charts, etc.).";
     tags := [lit "spreadsheet"; lit "write"];
     readOnlyHint := false |}.

Definition sheets_create_tool : Tool :=
  {| name := lit "sheets_create";
     description := lit "Create a new spreadsheet with optional title and sheets.";
     tags := [lit "spreadsheet"; lit "write"];
     readOnlyHint := false |}.

(** [sheets_tools], in the order of the source. *)
Definition sheets_tools : list Tool :=
  [sheets_get_spreadsheet_tool; sheets_list_sheets_tool; sheets_create_tool;
   sheets_batch_update_tool;
   sheets_get_values_tool; sheets_batch_get_values_tool;
   sheets_update_values_tool; sheets_batch_update_values_tool;
   sheets_append_values_tool; sheets_clear_values_tool].

(** An invocation of one of the exported tools, with its arguments; an
    argument the caller leaves out is [None]. *)
Inductive ToolCall : Type :=
| CallGetSpreadsheet (spreadsheet_id : str) (include_grid_data : option bool)
    (ranges fields : option str)
| CallListSheets (spreadsheet_id : str)
| CallCreate (title : str) (sheet_titles : option str)
| CallBatchUpdate (spreadsheet_id : str) (requests : list value)
    (include_spreadsheet_in_response : option bool)
| CallGetValues (spreadsheet_id range : str)
    (major_dimension value_render_option date_time_render_option : option str)
| CallBatchGetValues (spreadsheet_id ranges : str)
    (major_dimension value_render_option date_time_render_option : option str)
| CallUpdateValues (spreadsheet_id range : str) (values : list (list value))
    (value_input_option : option str) (include_values_in_response : option bool)
| CallBatchUpdateValues (spreadsheet_id : str) (data : list value)
    (value_input_option : option str) (include_values_in_response : option bool)
| CallAppendValues (spreadsheet_id range : str) (values : list (list value))
    (value_input_option insert_data_option : option str)
    (include_values_in_response : option bool)
| CallClearValues (spreadsheet_id range : str).

(** The coroutine an invocation runs. *)
Definition call (c : ToolCall) : Async SheetsResult :=
  match c with
  | CallGetSpreadsheet i g r f => sheets_get_spreadsheet i g r f
  | CallListSheets i => sheets_list_sheets i
  | CallCreate t s => sheets_create t s
  | CallBatchUpdate i r f => sheets_batch_update i r f
  | CallGetValues i r m v d => sheets_get_values i r m v d
  | CallBatchGetValues i r m v d => sheets_batch_get_values i r m v d
  | CallUpdateValues i r vs o f => sheets_update_values i r vs o f
  | CallBatchUpdateValues i d o f => sheets_batch_update_values i d o f
  | CallAppendValues i r vs o n f => sheets_append_values i r vs o n f
  | CallClearValues i r => sheets_clear_values i r
  end.

(** The registered tool an invocation belongs to. *)
Definition tool_of (c : ToolCall) : Tool :=
  match c with
  | CallGetSpreadsheet _ _ _ _ => sheets_get_spreadsheet_tool
  | CallListSheets _ => sheets_list_sheets_tool
  | CallCreate _ _ => sheets_create_tool
  | CallBatchUpdate _ _ _ => sheets_batch_update_tool
  | CallGetValues _ _ _ _ _ => sheets_get_values_tool
  | CallBatchGetValues _ _ _ _ _ => sheets_batch_get_values_tool
  | CallUpdateValues _ _ _ _ _ => sheets_update_values_tool
  | CallBatchUpdateValues _ _ _ _ => sheets_batch_update_values_tool
  | CallAppendValues _ _ _ _ _ _ => sheets_append_values_tool
  | CallClearValues _ _ => sheets_clear_values_tool
  end.

(** ** Vocabulary of the statements *)

(** A character the encoder leaves alone: an unreserved URL character or
    one of the characters of the allow-list [! : $ ' ( ) , - . _ ~]. *)
Definition unencoded (c : Z) : bool :=
  memb c (Urllib._ALWAYS_SAFE ++ lit "!:$'(),-._~").

(** [c] does not occur in [s]. *)
Definition lacks (c : Z) (s : str) : bool := negb (memb c s).

(** [sep] does not occur in an optional argument (nor in its default, which
    is checked where the default is known). *)
Definition opt_lacks (sep : Z) (arg : option str) : bool :=
  match arg with
  | Some v => lacks sep v
  | None => true
  end.

(** A string with no whitespace at either end. *)
Definition trimmed (s : str) : Prop :=
  (forall c t, s = c :: t -> isspace c = false)
  /\ (forall c t, s = t ++ [c] -> isspace c = false).

(** The sheet-properties object the create operation makes for a title. *)
Definition sheet_properties (t : str) : value :=
  JDict [(lit "properties", JDict [(lit "title", JStr (strip t))])].

(** The text of the spec for the body [{"values": [["x"]]}]: seven lines,
    indented by two spaces per level. *)
Definition values_x_text : str :=
  lit "{" ++ [0x0A]
  ++ lit "  " ++ [0x22] ++ lit "values" ++ [0x22] ++ lit ": [" ++ [0x0A]
  ++ lit "    [" ++ [0x0A]
  ++ lit "      " ++ [0x22] ++ lit "x" ++ [0x22] ++ [0x0A]
  ++ lit "    ]" ++ [0x0A]
  ++ lit "  ]" ++ [0x0A]
  ++ lit "}".

Definition values_x : value := JDict [(lit "values", JList [JList [JStr (lit "x")]])].

(** The text for [{"error": "Request failed"}]. *)
Definition request_failed_text : str :=
  lit "{" ++ [0x0A]
  ++ lit "  " ++ [0x22] ++ lit "error" ++ [0x22] ++ lit ": "
  ++ [0x22] ++ lit "Request failed" ++ [0x22] ++ [0x0A]
  ++ lit "}".

(** A literal of the source between double quotes. *)
Definition dq (s : string) : str := [0x22] ++ lit s ++ [0x22].
Arguments dq s%_string.

(** *** Reading serialised objects back *)

(** No two keys are equal. *)
Fixpoint distinct (keys : list str) : bool :=
  match keys with
  | [] => true
  | k :: ks => negb (existsb (str_eqb k) ks) && distinct ks
  end.

(** The objects [json.loads] can give back as they were: text made of
    Unicode scalar values, and dicts without repeated keys. *)
Fixpoint wellformed (v : value) : bool :=
  match v with
  | JStr s => forallb is_scalar s
  | JList l =>
      (fix all (l : list value) : bool :=
         match l with
         | [] => true
         | w :: l' => wellformed w && all l'
         end) l
  | JDict d =>
      (fix all (d : list (str * value)) : bool :=
         match d with
         | [] => true
         | (k, w) :: d' => forallb is_scalar k && wellformed w && all d'
         end) d
      && distinct (map fst d)
  | _ => true
  end.

(** The text [iterencode] yields for the items after the first. *)
Definition list_tail (indent level : nat) : list value -> str :=
  fix tail (l : list value) : str :=
    match l with
    | [] => []
    | w :: l' =>
        ([0x2C] ++ newline_indent indent (S level))
        ++ iterencode indent (S level) w ++ tail l'
    end.

(** The same for the items of a dict. *)
Definition dict_tail (indent level : nat) : list (str * value) -> str :=
  fix tail (l : list (str * value)) : str :=
    match l with
    | [] => []
    | (k, w) :: l' =>
        ([0x2C] ++ newline_indent indent (S level))
        ++ encode_basestring_ascii k ++ lit ": "
        ++ iterencode indent (S level) w ++ tail l'
    end.

(** Calls of the scanner that reading an object back takes, nested. *)
Fixpoint fuel_of (v : value) : nat :=
  match v with
  | JList l =>
      S ((fix items (l : list value) : nat :=
            match l with
            | [] => O
            | w :: l' => S (Nat.max (fuel_of w) (items l'))
            end) l)
  | JDict d =>
      S ((fix items (d : list (str * value)) : nat :=
            match d with
            | [] => O
            | (_, w) :: d' => S (Nat.max (fuel_of w) (items d'))
            end) d)
  | _ => 1%nat
  end.

(** The same for the loop over the items of a list, and of a dict. *)
Fixpoint items_fuel (l : list value) : nat :=
  match l with
  | [] => O
  | w :: l' => S (Nat.max (fuel_of w) (items_fuel l'))
  end.

Fixpoint pairs_fuel (d : list (str * value)) : nat :=
  match d with
  | [] => O
  | (_, w) :: d' => S (Nat.max (fuel_of w) (pairs_fuel d'))
  end.

(** The value of a decimal numeral, most significant digit first, on top
    of an accumulator. *)
Fixpoint uint_val (d : Decimal.uint) (acc : Z) : Z :=
  match d with
  | Decimal.Nil => acc
  | Decimal.D0 d => uint_val d (acc * 10 + 0)
  | Decimal.D1 d => uint_val d (acc * 10 + 1)
  | Decimal.D2 d => uint_val d (acc * 10 + 2)
  | Decimal.D3 d => uint_val d (acc * 10 + 3)
  | Decimal.D4 d => uint_val d (acc * 10 + 4)
  | Decimal.D5 d => uint_val d (acc * 10 + 5)
  | Decimal.D6 d => uint_val d (acc * 10 + 6)
  | Decimal.D7 d => uint_val d (acc * 10 + 7)
  | Decimal.D8 d => uint_val d (acc * 10 + 8)
  | Decimal.D9 d => uint_val d (acc * 10 + 9)
  end.

(** What may follow a number for it to be read whole: no digit, no dot and
    no exponent mark. *)
Definition number_end (rest : str) : bool :=
  match rest with
  | [] => true
  | c :: _ => negb (is_digit c) && negb (c =? 0x2E) && negb (c =? 0x65) && negb (c =? 0x45)
  end.

(** Reading back what [iterencode] wrote, with enough fuel and in front of
    any text that cannot continue a number. *)
Definition reads_back (indent : nat) (v : value) : Prop :=
  forall level fuel rest,
    wellformed v = true -> (fuel_of v <= fuel)%nat -> number_end rest = true ->
    scan_once fuel (iterencode indent level v ++ rest) = Some (v, rest).

(** *** Vocabulary of the further properties *)

(** The encoding of one character: its UTF-8 bytes through the quoter of
    [_encode_range]. *)
Definition encoded_char (c : Z) : str :=
  flat_map (Urllib.quoter (lit "!:$'(),-._~"))
    (match utf8_char c with Some bs => bs | None => [] end).

(** Reading a path segment back into bytes, as
    [urllib.parse.unquote_to_bytes] does: [%] and two hexadecimal digits
    are one byte, everything else stands for itself. *)
Fixpoint percent_decode (s : str) : bytes :=
  match s with
  | [] => []
  | c :: s1 =>
      if c =? 0x25 then
        match s1 with
        | h :: l :: s3 =>
            match hex_value h, hex_value l with
            | Some a, Some b => (a * 16 + b) :: percent_decode s3
            | _, _ => c :: percent_decode s1
            end
        | _ => c :: percent_decode s1
        end
      else c :: percent_decode s1
  end.

(** The number of occurrences of [c] in [s]. *)
Definition count (c : Z) (s : str) : nat := length (filter (Z.eqb c) s).

(** [s] begins with [p]. *)
Definition starts_with (p s : str) : bool :=
  match strip_prefix p s with
  | Some _ => true
  | None => false
  end.

(** The characters of an envelope text: printable ASCII and the newline. *)
Definition ascii_text (c : Z) : Prop := c = 0x0A \/ 0x20 <= c <= 0x7E.

(** The argument of an invocation that goes through [_encode_range], if
    the tool has one. *)
Definition range_of (c : ToolCall) : option str :=
  match c with
  | CallGetValues _ range _ _ _ => Some range
  | CallUpdateValues _ range _ _ _ => Some range
  | CallAppendValues _ range _ _ _ _ => Some range
  | CallClearValues _ range => Some range
  | _ => None
  end.

(** The invocations whose range, if any, is text of Unicode scalar values. *)
Definition encodable (c : ToolCall) : bool :=
  match range_of c with
  | Some range => forallb is_scalar range
  | None => true
  end.

(** The spreadsheet an invocation addresses; a create addresses none. *)
Definition spreadsheet_id_of (c : ToolCall) : option str :=
  match c with
  | CallGetSpreadsheet spreadsheet_id _ _ _ => Some spreadsheet_id
  | CallListSheets spreadsheet_id => Some spreadsheet_id
  | CallCreate _ _ => None
  | CallBatchUpdate spreadsheet_id _ _ => Some spreadsheet_id
  | CallGetValues spreadsheet_id _ _ _ _ => Some spreadsheet_id
  | CallBatchGetValues spreadsheet_id _ _ _ _ => Some spreadsheet_id
  | CallUpdateValues spreadsheet_id _ _ _ _ => Some spreadsheet_id
  | CallBatchUpdateValues spreadsheet_id _ _ _ => Some spreadsheet_id
  | CallAppendValues spreadsheet_id _ _ _ _ _ => Some spreadsheet_id
  | CallClearValues spreadsheet_id _ => Some spreadsheet_id
  end.

(** * Properties *)

(** ** Concrete runs *)

Example encode_space : _encode_range (lit "Sheet 1!A1:B2") = Ok (lit "Sheet%201!A1:B2").
Proof. vm_compute. reflexivity. Qed.

Example encode_quote_hash :
  _encode_range (lit "'My Sheet'!A1#x") = Ok (lit "'My%20Sheet'!A1%23x").
Proof. vm_compute. reflexivity. Qed.

(** e-acute, the euro sign and an emoji: two, three and four bytes. *)
Example encode_unicode :
  _encode_range [0xE9; 0x20AC; 0x1F600] = Ok (lit "%C3%A9%E2%82%AC%F0%9F%98%80").
Proof. vm_compute. reflexivity. Qed.

Example encode_lone_surrogate : _encode_range [0xD800] = Err UnicodeEncodeError.
Proof. reflexivity. Qed.

Example split_empty : split 0x2C (lit "") = [lit ""].
Proof. reflexivity. Qed.

Example split_strip :
  map strip (split 0x2C (lit " Jan , Feb,,Mar ")) = [lit "Jan"; lit "Feb"; lit ""; lit "Mar"].
Proof. reflexivity. Qed.

Example dumps_values_x : dumps values_x 2 = values_x_text.
Proof. vm_compute. reflexivity. Qed.

Example dumps_empty : dumps (JDict []) 2 = lit "{}" /\ dumps (JList []) 2 = lit "[]".
Proof. split; reflexivity. Qed.

Example dumps_escapes :
  dumps (JStr [0x22; 0x0A; 0xE9; 0x1F600]) 2
  = [0x22] ++ [0x5C; 0x22] ++ lit "\n" ++ lit "\u00e9" ++ lit "\ud83d\ude00" ++ [0x22].
Proof. vm_compute. reflexivity. Qed.

Example loads_mixed :
  loads (lit "  [1, -20, true, null, {}, []] ")
  = Some (JList [JInt 1; JInt (-20); JBool true; JNull; JDict []; JList []]).
Proof. vm_compute. reflexivity. Qed.

Example loads_rejects_trailing : loads (lit "[1,]") = None /\ loads (lit "{} x") = None.
Proof. split; vm_compute; reflexivity. Qed.

Example loads_rejects_numbers :
  loads (lit "01") = None /\ loads (lit "-") = None /\ loads (lit "1.5") = None.
Proof. repeat split; vm_compute; reflexivity. Qed.

(** A repeated key keeps its first place and its last value. *)
Example loads_repeated_key :
  loads (lit "{" ++ dq "a" ++ lit ":1," ++ dq "b" ++ lit ":2," ++ dq "a" ++ lit ":3}")
  = Some (JDict [(lit "a", JInt 3); (lit "b", JInt 2)]).
Proof. vm_compute. reflexivity. Qed.

Example dumps_nested :
  dumps (JDict [(lit "a", JList [JInt 1; JDict [(lit "b", JNull)]]); (lit "c", JDict [])]) 2
  = lit "{" ++ [0x0A]
    ++ lit "  " ++ dq "a" ++ lit ": [" ++ [0x0A]
    ++ lit "    1," ++ [0x0A]
    ++ lit "    {" ++ [0x0A]
    ++ lit "      " ++ dq "b" ++ lit ": null" ++ [0x0A]
    ++ lit "    }" ++ [0x0A]
    ++ lit "  ]," ++ [0x0A]
    ++ lit "  " ++ dq "c" ++ lit ": {}" ++ [0x0A]
    ++ lit "}".
Proof. vm_compute. reflexivity. Qed.

(** An adjacent pair of surrogates is read back as one character. *)
Example loads_merges_surrogates :
  loads (dumps (JStr [0xD83D; 0xDE00]) 2) = Some (JStr [0x1F600]).
Proof. vm_compute. reflexivity. Qed.

Example create_default :
  built_request (sheets_create (lit "Budget") None)
  = Some (HttpRequest.mk POST (lit "/v4/spreadsheets")
            (JDict [(lit "properties", JDict [(lit "title", JStr (lit "Budget"))])])).
Proof. reflexivity. Qed.

Example clear_request :
  built_request (sheets_clear_values (lit "abc123") (lit "Sheet 1!A:A"))
  = Some (HttpRequest.mk POST (lit "/v4/spreadsheets/abc123/values/Sheet%201!A:A:clear")
            (JDict [])).
Proof. vm_compute. reflexivity. Qed.

Example clear_raises :
  run (fun _ _ => {| success := true; response := None; error := None |})
    (sheets_clear_values (lit "abc123") [0xDC00])
  = Err UnicodeEncodeError.
Proof. reflexivity. Qed.

(** ** Lists of characters *)

Section CharLists.

Lemma memb_In c l : memb c l = true <-> In c l.
Proof.
  unfold memb. rewrite existsb_exists. split.
  - intros (x & Hx & E). apply Z.eqb_eq in E. now subst.
  - intros H. exists c. split; [assumption | apply Z.eqb_refl].
Qed.

Lemma memb_false_In c l : memb c l = false <-> ~ In c l.
Proof.
  rewrite <- memb_In. destruct (memb c l); split; congruence.
Qed.

Lemma dropwhile_nil p l : dropwhile p l = [] <-> forallb p l = true.
Proof.
  induction l as [|a l IH]; simpl; [tauto|].
  destruct (p a); simpl; [exact IH | split; discriminate].
Qed.

Lemma forallb_rev (p : Z -> bool) l : forallb p (rev l) = forallb p l.
Proof.
  induction l as [|a l IH]; simpl; [reflexivity|].
  rewrite forallb_app, IH. simpl. rewrite andb_true_r. apply andb_comm.
Qed.

Lemma bytes_rstrip_nil chars bs :
  bytes_rstrip chars bs = [] <-> forallb (fun b => memb b chars) bs = true.
Proof.
  unfold bytes_rstrip. rewrite <- (forallb_rev _ bs), <- dropwhile_nil.
  split; intros H.
  - apply (f_equal (@rev Z)) in H. now rewrite rev_involutive in H.
  - now rewrite H.
Qed.

End CharLists.

(** ** The identifier encoder *)

Section Encoder.

Let safe : bytes := filter (fun c => (0 <=? c) && (c <? 128)) (lit "!:$'(),-._~").

Lemma safe_ascii : safe = lit "!:$'(),-._~".
Proof. reflexivity. Qed.

Lemma unencoded_ascii c : unencoded c = true -> 0 <= c < 128.
Proof.
  unfold unencoded. rewrite memb_In.
  assert (H : Forall (fun c => 0 <= c < 128) (Urllib._ALWAYS_SAFE ++ lit "!:$'(),-._~")).
  { vm_compute app. repeat constructor; lia. }
  rewrite Forall_forall in H. apply H.
Qed.

Lemma hex_upper_unencoded d : unencoded (Urllib.hex_upper d) = true.
Proof.
  unfold Urllib.hex_upper.
  assert (H : forall n, unencoded (nth n (lit "0123456789ABCDEF") 48) = true).
  { intros n. do 17 (destruct n as [|n]; [reflexivity|]). reflexivity. }
  apply H.
Qed.

Lemma utf8_encode_ascii s :
  Forall (fun c => 0 <= c < 128) s -> utf8_encode s = Ok s.
Proof.
  induction 1 as [|c s Hc Hs IH]; simpl; [reflexivity|].
  unfold utf8_char, is_scalar, is_surrogate.
  replace (0 <=? c) with true by (symmetry; apply Z.leb_le; lia).
  replace (c <=? 1114111) with true by (symmetry; apply Z.leb_le; lia).
  replace (55296 <=? c) with false by (symmetry; apply Z.leb_gt; lia).
  replace (c <? 128) with true by (symmetry; apply Z.ltb_lt; lia).
  simpl. now rewrite IH.
Qed.

Lemma utf8_decode_ascii s :
  Forall (fun c => 0 <= c < 128) s -> utf8_decode s = Some s.
Proof.
  induction 1 as [|c s Hc Hs IH]; simpl; [reflexivity|].
  replace (0 <=? c) with true by (symmetry; apply Z.leb_le; lia).
  replace (c <? 128) with true by (symmetry; apply Z.ltb_lt; lia).
  simpl. now rewrite IH.
Qed.

(** Strings of unencoded characters come back as they are. *)
Lemma encode_range_unencoded s :
  forallb unencoded s = true -> _encode_range s = Ok s.
Proof.
  intros H. unfold _encode_range, Urllib.quote.
  destruct s as [|c s]; [reflexivity|].
  assert (Ha : Forall (fun c => 0 <= c < 128) (c :: s)).
  { rewrite forallb_forall in H. apply Forall_forall. intros x Hx.
    apply unencoded_ascii, H, Hx. }
  rewrite (utf8_encode_ascii _ Ha). unfold Urllib.quote_from_bytes.
  fold safe. rewrite safe_ascii.
  assert (E : bytes_rstrip (Urllib._ALWAYS_SAFE ++ lit "!:$'(),-._~") (c :: s) = []).
  { apply bytes_rstrip_nil. exact H. }
  rewrite E, (utf8_decode_ascii _ Ha). reflexivity.
Qed.

End Encoder.

Section EncoderScalar.

Let allowed : bytes := Urllib._ALWAYS_SAFE ++ lit "!:$'(),-._~".

(** The bytes of one character. *)
Let utf8_bytes (c : Z) : bytes :=
  match utf8_char c with Some bs => bs | None => [] end.

Lemma small_bit7 n : 0 <= n < 128 -> Z.testbit n 7 = false.
Proof.
  intros H. apply Z.testbit_false; [lia|].
  change (2 ^ 7) with 128. now rewrite Z.div_small.
Qed.

Lemma lead_byte_high a x :
  0 <= a -> Z.testbit a 7 = true -> 0 <= x -> 128 <= Z.lor a x.
Proof.
  intros Ha Hb Hx.
  assert (H0 : 0 <= Z.lor a x) by (apply Z.lor_nonneg; lia).
  destruct (Z_lt_le_dec (Z.lor a x) 128) as [Hlt|]; [|assumption].
  pose proof (small_bit7 (Z.lor a x) (conj H0 Hlt)) as E.
  rewrite Z.lor_spec, Hb in E. discriminate.
Qed.

Lemma is_scalar_nonneg c : is_scalar c = true -> 0 <= c.
Proof.
  unfold is_scalar. rewrite !andb_true_iff. intros [[H _] _].
  now apply Z.leb_le.
Qed.

(** What [str.encode] produces for one scalar value. *)
Lemma utf8_char_scalar c :
  is_scalar c = true ->
  exists bs, utf8_char c = Some bs
    /\ ((0 <= c < 128 /\ bs = [c])
        \/ (128 <= c /\ exists b0 b1 rest, bs = b0 :: b1 :: rest /\ 128 <= b0)).
Proof.
  intros Hs. pose proof (is_scalar_nonneg c Hs) as H0.
  unfold utf8_char. rewrite Hs. cbn [negb].
  destruct (c <? 128) eqn:E1.
  { apply Z.ltb_lt in E1. eexists. split; [reflexivity|]. left. split; [lia|reflexivity]. }
  apply Z.ltb_ge in E1.
  assert (Hsh : forall n, 0 <= Z.shiftr c n) by (intros n; apply Z.shiftr_nonneg; lia).
  destruct (c <? 2048); [|destruct (c <? 65536)];
    (eexists; split; [reflexivity|]; right; split; [lia|];
     do 3 eexists; split; [reflexivity|];
     apply lead_byte_high; [lia | reflexivity | apply Hsh]).
Qed.

Lemma utf8_encode_scalar s :
  forallb is_scalar s = true -> utf8_encode s = Ok (flat_map utf8_bytes s).
Proof.
  induction s as [|c s IH]; simpl; [reflexivity|].
  rewrite andb_true_iff. intros [Hc Hs].
  destruct (utf8_char_scalar c Hc) as (bs & E & _).
  unfold utf8_bytes at 1. rewrite E, (IH Hs). reflexivity.
Qed.

Lemma utf8_encode_not_scalar s :
  forallb is_scalar s = false -> utf8_encode s = Err UnicodeEncodeError.
Proof.
  induction s as [|c s IH]; simpl; [discriminate|].
  destruct (is_scalar c) eqn:Hc; simpl.
  - intros Hs. destruct (utf8_char_scalar c Hc) as (bs & E & _).
    rewrite E, (IH Hs). reflexivity.
  - intros _. unfold utf8_char. rewrite Hc. reflexivity.
Qed.

Lemma not_unencoded_high b : 128 <= b -> memb b allowed = false.
Proof.
  intros H. destruct (memb b allowed) eqn:E; [|reflexivity].
  apply unencoded_ascii in E. lia.
Qed.

(** The encoding of one character: its bytes through the quoter. *)
Let quoted (c : Z) : str := flat_map (Urllib.quoter (lit "!:$'(),-._~")) (utf8_bytes c).

Lemma quoter_chars b :
  Forall (fun d => d = 0x25 \/ unencoded d = true)
    (Urllib.quoter (lit "!:$'(),-._~") b).
Proof.
  unfold Urllib.quoter. fold allowed.
  destruct (memb b allowed) eqn:E.
  - constructor; [right; exact E | constructor].
  - unfold Urllib.format_02X.
    apply Forall_cons; [now left|].
    apply Forall_cons; [right; apply hex_upper_unencoded|].
    apply Forall_cons; [right; apply hex_upper_unencoded|].
    apply Forall_nil.
Qed.

Lemma quoter_length b : (1 <= length (Urllib.quoter (lit "!:$'(),-._~") b))%nat.
Proof.
  unfold Urllib.quoter. destruct (memb _ _); simpl; lia.
Qed.

Lemma quoted_length c :
  is_scalar c = true ->
  (1 <= length (quoted c))%nat
  /\ (unencoded c = false -> (2 <= length (quoted c))%nat).
Proof.
  intros Hs. unfold quoted, utf8_bytes.
  destruct (utf8_char_scalar c Hs) as (bs & E & [[Hc ->] | (Hc & b0 & b1 & rest & -> & Hb)]);
    rewrite E.
  - simpl. rewrite app_nil_r. split; [apply quoter_length|].
    intros Hn. unfold Urllib.quoter. fold allowed.
    unfold unencoded in Hn. fold allowed in Hn. rewrite Hn. simpl. lia.
  - simpl. rewrite !length_app.
    pose proof (quoter_length b0). pose proof (quoter_length b1). split; lia.
Qed.

Lemma flat_map_quoted s :
  flat_map (Urllib.quoter (lit "!:$'(),-._~")) (flat_map utf8_bytes s)
  = flat_map quoted s.
Proof.
  induction s as [|c s IH]; simpl; [reflexivity|].
  now rewrite flat_map_app, IH.
Qed.

Lemma flat_map_quoted_length s :
  forallb is_scalar s = true ->
  (length s <= length (flat_map quoted s))%nat
  /\ (forallb unencoded s = false -> (length s < length (flat_map quoted s))%nat).
Proof.
  induction s as [|c s IH]; simpl.
  - intros _. split; [lia | discriminate].
  - rewrite andb_true_iff. intros [Hc Hs].
    destruct (IH Hs) as [IH1 IH2]. destruct (quoted_length c Hc) as [Q1 Q2].
    rewrite length_app. split; [lia|].
    destruct (unencoded c) eqn:Eu; simpl; intros Hn.
    + specialize (IH2 Hn). lia.
    + specialize (Q2 eq_refl). lia.
Qed.

(** A character that has to be encoded leaves a byte that has to. *)
Lemma bytes_not_all_unencoded s :
  forallb is_scalar s = true -> forallb unencoded s = false ->
  forallb (fun b => memb b allowed) (flat_map utf8_bytes s) = false.
Proof.
  induction s as [|c s IH]; [discriminate|].
  cbn [forallb flat_map].
  rewrite andb_true_iff. intros [Hc Hs] Hn. rewrite forallb_app.
  destruct (unencoded c) eqn:Eu; cbn [andb] in Hn.
  - rewrite (IH Hs Hn). apply andb_false_r.
  - unfold utf8_bytes at 1.
    destruct (utf8_char_scalar c Hc) as (bs & E & [[_ ->] | (_ & b0 & b1 & rest & -> & Hb)]);
      rewrite E; cbn [forallb].
    + unfold unencoded in Eu. fold allowed in Eu. now rewrite Eu.
    + now rewrite (not_unencoded_high b0 Hb).
Qed.

(** On a string of scalar values with a character to encode, the encoder
    is the character-wise quoting of the UTF-8 bytes. *)
Lemma encode_range_quoted s :
  forallb is_scalar s = true -> forallb unencoded s = false ->
  _encode_range s = Ok (flat_map quoted s).
Proof.
  intros Hs Hn. unfold _encode_range, Urllib.quote.
  destruct s as [|c s]; [discriminate|].
  rewrite (utf8_encode_scalar _ Hs). unfold Urllib.quote_from_bytes.
  pose proof (bytes_not_all_unencoded _ Hs Hn) as Hb.
  destruct (flat_map utf8_bytes (c :: s)) as [|b bs] eqn:Eb; [discriminate|].
  change (filter (fun c => (0 <=? c) && (c <? 128)) (lit "!:$'(),-._~"))
    with (lit "!:$'(),-._~").
  fold allowed.
  destruct (bytes_rstrip allowed (b :: bs)) eqn:Er.
  - apply bytes_rstrip_nil in Er. congruence.
  - rewrite <- Eb, flat_map_quoted. reflexivity.
Qed.

Lemma quoted_chars s :
  Forall (fun d => d = 0x25 \/ unencoded d = true) (flat_map quoted s).
Proof.
  rewrite <- flat_map_quoted. generalize (flat_map utf8_bytes s). intros bs.
  induction bs as [|b bs IH]; simpl; [constructor|].
  apply Forall_app. split; [apply quoter_chars | exact IH].
Qed.

(** The encoder on strings of scalar values: it returns; what it returns
    is made of [%] and unencoded characters; and when something had to be
    encoded the output is longer than the input. *)
Lemma encode_range_scalar s :
  forallb is_scalar s = true ->
  exists out, _encode_range s = Ok out
    /\ Forall (fun d => d = 0x25 \/ unencoded d = true) out
    /\ (forallb unencoded s = false -> (length s < length out)%nat).
Proof.
  intros Hs. destruct (forallb unencoded s) eqn:Hu.
  - exists s. split; [now apply encode_range_unencoded|]. split; [|discriminate].
    rewrite forallb_forall in Hu. apply Forall_forall. intros x Hx. right. now apply Hu.
  - exists (flat_map quoted s). split; [now apply encode_range_quoted|].
    split; [apply quoted_chars|]. intros _.
    now apply (flat_map_quoted_length s Hs).
Qed.

Lemma encode_range_not_scalar s :
  forallb is_scalar s = false -> _encode_range s = Err UnicodeEncodeError.
Proof.
  intros Hs. unfold _encode_range, Urllib.quote.
  destruct s as [|c s]; [discriminate|].
  now rewrite (utf8_encode_not_scalar _ Hs).
Qed.

End EncoderScalar.

Lemma encode_range_total (s : str) :
  (forallb unencoded s = true -> _encode_range s = Ok s)
  /\ (forallb is_scalar s = true ->
      exists out, _encode_range s = Ok out
        /\ Forall (fun d => d = 0x25 \/ unencoded d = true) out).
Proof.
  split; [apply encode_range_unencoded|].
  intros Hs. destruct (encode_range_scalar s Hs) as (out & E & Hout & _).
  now exists out.
Qed.

(** C1 (amended).  A string made only of allow-listed and unreserved
    characters is returned unchanged.  On every string of Unicode scalar
    values (no lone surrogate) the encoder returns an output made of [%] and
    unencoded characters only; when the string contains a character [c]
    outside the safe and unreserved sets, the output differs from the input
    and, unless [c] is the percent sign itself, contains no occurrence of
    [c]. *)
Theorem encode_range_spec (s : str) :
  (forallb unencoded s = true -> _encode_range s = Ok s)
  /\ (forallb is_scalar s = true ->
      exists out, _encode_range s = Ok out
        /\ Forall (fun d => d = 0x25 \/ unencoded d = true) out
        /\ forall c, In c s -> unencoded c = false ->
             out <> s /\ (c <> 0x25 -> ~ In c out)).
Proof.
  split; [apply encode_range_unencoded|].
  intros Hs. destruct (encode_range_scalar s Hs) as (out & E & Hout & Hlen).
  exists out. split; [exact E|]. split; [exact Hout|].
  intros c Hin Hc. split.
  - intros ->. assert (Hn : forallb unencoded s = false).
    { destruct (forallb unencoded s) eqn:Hu; [|reflexivity].
      rewrite forallb_forall in Hu. rewrite (Hu c Hin) in Hc. discriminate. }
    specialize (Hlen Hn). lia.
  - intros Hp Hc'. rewrite Forall_forall in Hout.
    destruct (Hout c Hc') as [Hd|Hd]; congruence.
Qed.

Lemma encode_range_spec_witness :
  _encode_range (lit "Sheet1!A1:B2") = Ok (lit "Sheet1!A1:B2")
  /\ exists out, _encode_range (lit "My Sheet#1!A1") = Ok out
       /\ Forall (fun d => d = 0x25 \/ unencoded d = true) out
       /\ forall c, In c (lit "My Sheet#1!A1") -> unencoded c = false ->
            out <> lit "My Sheet#1!A1" /\ (c <> 0x25 -> ~ In c out).
Proof.
  split.
  - apply (proj1 (encode_range_spec (lit "Sheet1!A1:B2"))). reflexivity.
  - apply (proj2 (encode_range_spec (lit "My Sheet#1!A1"))). reflexivity.
Defined.

(** C1 as stated fails twice: the percent sign is outside the safe and
    unreserved sets, and the output for it contains a percent sign; and on a
    lone surrogate the encoder raises instead of producing an output. *)
Lemma encode_range_percent_and_surrogate :
  (In 0x25 (lit "%") /\ unencoded 0x25 = false
   /\ _encode_range (lit "%") = Ok (lit "%25") /\ In 0x25 (lit "%25"))
  /\ (_encode_range [0xD800] = Err UnicodeEncodeError
      /\ forall out, _encode_range [0xD800] <> Ok out).
Proof.
  split.
  - split; [now left|]. split; [reflexivity|]. split; [reflexivity | now left].
  - split; [reflexivity|]. intros out H. vm_compute in H. discriminate.
Qed.

(** ** Paths and query strings *)

Section Paths.

Lemma partition_app sep a b :
  lacks sep a = true -> Url.partition sep (a ++ sep :: b) = Some (a, b).
Proof.
  unfold lacks. induction a as [|c a IH]; simpl.
  - intros _. now rewrite Z.eqb_refl.
  - rewrite Z.eqb_sym. destruct (c =? sep); simpl; [discriminate|].
    intros H. now rewrite (IH H).
Qed.

Lemma partition_none sep a :
  lacks sep a = true -> Url.partition sep a = None.
Proof.
  unfold lacks. induction a as [|c a IH]; simpl; [reflexivity|].
  rewrite Z.eqb_sym. destruct (c =? sep); simpl; [discriminate|].
  intros H. now rewrite (IH H).
Qed.

Lemma lacks_app sep a b : lacks sep (a ++ b) = lacks sep a && lacks sep b.
Proof.
  unfold lacks, memb. rewrite existsb_app. apply negb_orb.
Qed.

Lemma split_lacks sep a : lacks sep a = true -> split sep a = [a].
Proof.
  unfold lacks. induction a as [|c a IH]; simpl; [reflexivity|].
  rewrite Z.eqb_sym. destruct (c =? sep); simpl; [discriminate|].
  intros H. now rewrite (IH H).
Qed.

Lemma split_app sep a b :
  lacks sep a = true -> split sep (a ++ sep :: b) = a :: split sep b.
Proof.
  unfold lacks. induction a as [|c a IH]; simpl.
  - intros _. now rewrite Z.eqb_refl.
  - rewrite Z.eqb_sym. destruct (c =? sep); simpl; [discriminate|].
    intros H. now rewrite (IH H).
Qed.

(** Splitting undoes joining when no part holds the separator. *)
Lemma split_join sep parts :
  parts <> [] -> forallb (lacks sep) parts = true ->
  split sep (join [sep] parts) = parts.
Proof.
  induction parts as [|p parts IH]; [congruence|].
  intros _. simpl forallb. rewrite andb_true_iff. intros [Hp Hps].
  destruct parts as [|q parts].
  - simpl. now apply split_lacks.
  - change (join [sep] (p :: q :: parts)) with (p ++ sep :: join [sep] (q :: parts)).
    rewrite (split_app _ _ _ Hp), IH; [reflexivity | discriminate | exact Hps].
Qed.

Lemma split_nonempty sep s : split sep s <> [].
Proof.
  destruct s as [|c s]; simpl; [discriminate|].
  destruct (c =? sep); [discriminate|]. destruct (split sep s); discriminate.
Qed.

(** One segment per separator, plus one. *)
Lemma split_length sep s :
  length (split sep s) = S (length (filter (Z.eqb sep) s)).
Proof.
  induction s as [|c s IH]; simpl; [reflexivity|].
  rewrite (Z.eqb_sym sep c). destruct (c =? sep); simpl.
  - now rewrite IH.
  - destruct (split sep s); simpl in *; [discriminate | exact IH].
Qed.

Lemma split_segments_lack sep s : forallb (lacks sep) (split sep s) = true.
Proof.
  induction s as [|c s IH]; simpl; [reflexivity|].
  destruct (c =? sep) eqn:E; simpl; [exact IH|].
  destruct (split sep s) as [|seg segs]; simpl in *.
  - unfold lacks. simpl. rewrite Z.eqb_sym, E. reflexivity.
  - rewrite andb_true_iff in IH. destruct IH as [H1 H2].
    rewrite H2, andb_true_r. unfold lacks in *. simpl.
    rewrite Z.eqb_sym, E. exact H1.
Qed.

(** The loop that appends the ranges, as a map over the segments. *)
Lemma append_ranges_map params ranges :
  append_ranges params ranges
  = params ++ map (fun r => lit "ranges=" ++ strip r) (split 0x2C ranges).
Proof.
  unfold append_ranges. generalize (split 44 ranges). intros segs.
  revert params. induction segs as [|r segs IH]; intros params; simpl.
  - now rewrite app_nil_r.
  - rewrite IH, <- app_assoc. reflexivity.
Qed.

Lemma lacks_dropwhile sep p s :
  lacks sep s = true -> lacks sep (dropwhile p s) = true.
Proof.
  induction s as [|c s IH]; simpl; [trivial|].
  destruct (p c); [|trivial]. intros H. apply IH.
  unfold lacks in *. simpl in H. rewrite negb_orb in H.
  apply andb_true_iff in H. apply H.
Qed.

Lemma lacks_rev sep s : lacks sep (rev s) = lacks sep s.
Proof.
  unfold lacks. f_equal. destruct (memb sep s) eqn:E.
  - apply memb_In. apply -> in_rev. now apply memb_In.
  - apply memb_false_In. intros H. apply in_rev in H.
    apply memb_false_In in E. contradiction.
Qed.

Lemma lacks_strip sep s : lacks sep s = true -> lacks sep (strip s) = true.
Proof.
  intros H. unfold strip, rstrip, lstrip.
  rewrite lacks_rev. apply lacks_dropwhile. rewrite lacks_rev.
  now apply lacks_dropwhile.
Qed.

End Paths.

Section Queries.

Lemma query_pairs_built prefix params :
  lacks 0x3F prefix = true -> params <> [] ->
  forallb (lacks 0x26) params = true ->
  Url.query_pairs (prefix ++ lit "?" ++ join (lit "&") params)
  = map Url.key_value params.
Proof.
  intros Hp Hne Hamp. unfold Url.query_pairs.
  change (prefix ++ lit "?" ++ join (lit "&") params)
    with (prefix ++ 0x3F :: join [0x26] params).
  rewrite (partition_app _ _ _ Hp), (split_join _ _ Hne Hamp). reflexivity.
Qed.

Lemma path_part_built prefix query :
  lacks 0x3F prefix = true -> Url.path_part (prefix ++ lit "?" ++ query) = prefix.
Proof.
  intros Hp. unfold Url.path_part.
  change (prefix ++ lit "?" ++ query) with (prefix ++ 0x3F :: query).
  now rewrite (partition_app _ _ _ Hp).
Qed.

Lemma key_value_field k v :
  lacks 0x3D k = true -> Url.key_value (k ++ 0x3D :: v) = (k, v).
Proof.
  intros Hk. unfold Url.key_value. now rewrite (partition_app _ _ _ Hk).
Qed.

Lemma default_lacks sep d arg :
  lacks sep d = true -> opt_lacks sep arg = true ->
  lacks sep (default d arg) = true.
Proof. destruct arg; simpl; trivial. Qed.

Lemma lower_str_of_bool b :
  lower (str_of_bool b) = if b then lit "true" else lit "false".
Proof. destruct b; reflexivity. Qed.

Lemma lower_str_of_bool_lacks sep b :
  sep = 0x26 \/ sep = 0x3F -> lacks sep (lower (str_of_bool b)) = true.
Proof. intros [-> | ->]; destruct b; reflexivity. Qed.

(** What the encoder returns holds neither [?] nor [&]. *)
Lemma encoded_lacks sep s out :
  _encode_range s = Ok out -> sep <> 0x25 -> unencoded sep = false ->
  lacks sep out = true.
Proof.
  intros E Hp Hu. unfold lacks. apply negb_true_iff, memb_false_In.
  intros Hin. destruct (forallb is_scalar s) eqn:Hs.
  - destruct (proj2 (encode_range_total s) Hs) as (out' & E' & Hout).
    rewrite E in E'. injection E' as <-. rewrite Forall_forall in Hout.
    destruct (Hout sep Hin); congruence.
  - rewrite (encode_range_not_scalar s Hs) in E. discriminate.
Qed.

End Queries.

(** ** The request builders *)

Section Builders.

Let ranges_field (r : str) : str := lit "ranges=" ++ strip r.

Lemma ranges_fields_lack segs :
  forallb (lacks 0x26) segs = true ->
  forallb (lacks 0x26) (map ranges_field segs) = true.
Proof.
  induction segs as [|r segs IH]; simpl; [trivial|].
  rewrite !andb_true_iff. intros [Hr Hs]. split; [|now apply IH].
  unfold ranges_field. rewrite lacks_app. now rewrite (lacks_strip _ _ Hr).
Qed.

Lemma ranges_fields_pairs segs :
  map Url.key_value (map ranges_field segs)
  = map (fun r => (lit "ranges", strip r)) segs.
Proof.
  rewrite map_map. apply map_ext. intros r. unfold ranges_field.
  change (lit "ranges=" ++ strip r) with (lit "ranges" ++ 0x3D :: strip r).
  now apply key_value_field.
Qed.

Lemma ranges_pairs_values segs :
  map snd (filter (fun kv => str_eqb (fst kv) (lit "ranges"))
             (map (fun r => (lit "ranges", strip r)) segs))
  = map strip segs.
Proof.
  induction segs as [|r segs IH]; simpl; [reflexivity|].
  change (str_eqb (lit "ranges") (lit "ranges")) with true.
  cbn [map snd]. now rewrite IH.
Qed.

Lemma segments_lack sep ranges :
  lacks sep ranges = true -> forallb (lacks sep) (split 0x2C ranges) = true.
Proof.
  induction ranges as [|c s IH]; simpl; [reflexivity|].
  intros H. assert (Hc : lacks sep [c] = true /\ lacks sep s = true).
  { change (c :: s) with ([c] ++ s) in H. rewrite lacks_app in H.
    now apply andb_true_iff in H. }
  destruct Hc as [Hc Hs]. specialize (IH Hs).
  destruct (c =? 44); simpl; [exact IH|].
  destruct (split 44 s) as [|seg segs]; simpl in *.
  - now rewrite Hc.
  - apply andb_true_iff in IH. destruct IH as [H1 H2]. rewrite H2, andb_true_r.
    change (c :: seg) with ([c] ++ seg). rewrite lacks_app, Hc. exact H1.
Qed.

(** The path of the batch read, with the loop over the ranges as a map. *)
Let batch_get_path (spreadsheet_id ranges : str) (md vro dtro : option str) : str :=
  (lit "/v4/spreadsheets/" ++ spreadsheet_id ++ lit "/values:batchGet")
  ++ lit "?"
  ++ join (lit "&")
       ([lit "majorDimension=" ++ default (lit "ROWS") md;
         lit "valueRenderOption=" ++ default (lit "FORMATTED_VALUE") vro;
         lit "dateTimeRenderOption=" ++ default (lit "SERIAL_NUMBER") dtro]
        ++ map (fun r => lit "ranges=" ++ strip r) (split 0x2C ranges)).

Lemma batch_get_values_request spreadsheet_id ranges md vro dtro :
  built_request (sheets_batch_get_values spreadsheet_id ranges md vro dtro)
  = Some (HttpRequest.mk GET (batch_get_path spreadsheet_id ranges md vro dtro) JNull).
Proof.
  unfold sheets_batch_get_values, _req, built_request, batch_get_path.
  rewrite append_ranges_map. rewrite <- !app_assoc. reflexivity.
Qed.

(** Its query parameters, when the spreadsheet id holds no [?] and no
    argument holds an [&]. *)
Lemma batch_get_values_query spreadsheet_id ranges md vro dtro :
  lacks 0x3F spreadsheet_id = true ->
  opt_lacks 0x26 md = true -> opt_lacks 0x26 vro = true ->
  opt_lacks 0x26 dtro = true -> lacks 0x26 ranges = true ->
  Url.query_pairs (batch_get_path spreadsheet_id ranges md vro dtro)
  = [(lit "majorDimension", default (lit "ROWS") md);
     (lit "valueRenderOption", default (lit "FORMATTED_VALUE") vro);
     (lit "dateTimeRenderOption", default (lit "SERIAL_NUMBER") dtro)]
    ++ map (fun r => (lit "ranges", strip r)) (split 0x2C ranges).
Proof.
  intros Hid Hmd Hvro Hdtro Hr. unfold batch_get_path. fold ranges_field.
  rewrite query_pairs_built.
  - rewrite map_app, ranges_fields_pairs. cbn [map].
    change (lit "majorDimension=" ++ default (lit "ROWS") md)
      with (lit "majorDimension" ++ 0x3D :: default (lit "ROWS") md).
    change (lit "valueRenderOption=" ++ default (lit "FORMATTED_VALUE") vro)
      with (lit "valueRenderOption" ++ 0x3D :: default (lit "FORMATTED_VALUE") vro).
    change (lit "dateTimeRenderOption=" ++ default (lit "SERIAL_NUMBER") dtro)
      with (lit "dateTimeRenderOption" ++ 0x3D :: default (lit "SERIAL_NUMBER") dtro).
    rewrite !key_value_field by reflexivity. reflexivity.
  - rewrite !lacks_app, Hid. reflexivity.
  - discriminate.
  - rewrite forallb_app. cbn [forallb]. rewrite !lacks_app.
    rewrite (default_lacks _ _ md), (default_lacks _ _ vro), (default_lacks _ _ dtro)
      by (reflexivity || assumption).
    cbn [andb]. rewrite ranges_fields_lack; [reflexivity|].
    now apply segments_lack.
Qed.

Lemma batch_get_ranges_read_back spreadsheet_id ranges md vro dtro :
  lacks 0x3F spreadsheet_id = true ->
  opt_lacks 0x26 md = true -> opt_lacks 0x26 vro = true ->
  opt_lacks 0x26 dtro = true -> lacks 0x26 ranges = true ->
  Url.query_values (lit "ranges") (batch_get_path spreadsheet_id ranges md vro dtro)
  = map strip (split 0x2C ranges).
Proof.
  intros Hid Hmd Hvro Hdtro Hr.
  unfold Url.query_values.
  rewrite (batch_get_values_query _ _ _ _ _ Hid Hmd Hvro Hdtro Hr).
  cbn [app filter fst].
  change (str_eqb (lit "majorDimension") (lit "ranges")) with false.
  change (str_eqb (lit "valueRenderOption") (lit "ranges")) with false.
  change (str_eqb (lit "dateTimeRenderOption") (lit "ranges")) with false.
  apply ranges_pairs_values.
Qed.

End Builders.

Section Strip.

Lemma dropwhile_head p s c t : dropwhile p s = c :: t -> p c = false.
Proof.
  induction s as [|a s IH]; simpl; [discriminate|].
  destruct (p a) eqn:E; [exact IH|]. intros H. injection H as <- _. exact E.
Qed.

Lemma dropwhile_suffix p s : exists pre, s = pre ++ dropwhile p s.
Proof.
  induction s as [|a s [pre IH]]; simpl.
  - now exists [].
  - destruct (p a).
    + exists (a :: pre). simpl. now rewrite <- IH.
    + now exists [].
Qed.

Lemma rstrip_prefix s : exists post, s = rstrip s ++ post.
Proof.
  unfold rstrip. destruct (dropwhile_suffix isspace (rev s)) as [pre E].
  exists (rev pre). rewrite <- rev_app_distr, <- E. now rewrite rev_involutive.
Qed.

(** [strip] leaves no whitespace at either end. *)
Lemma strip_trimmed s : trimmed (strip s).
Proof.
  split; intros c t E.
  - unfold strip in E. destruct (rstrip_prefix (lstrip s)) as [post Hp].
    rewrite E in Hp. simpl in Hp. apply (dropwhile_head isspace s c (t ++ post)).
    exact Hp.
  - unfold strip, rstrip in E.
    apply (f_equal (@rev Z)) in E. rewrite rev_involutive, rev_app_distr in E.
    simpl in E. now apply dropwhile_head in E.
Qed.

End Strip.

(** C2.  Updating the values of range ["Sheet 1!A1:B2"] of spreadsheet
    ["abc123"] builds a PUT request whose path, before the query string, is
    exactly [/v4/spreadsheets/abc123/values/Sheet%201!A1:B2]: the space is
    [%20], and [!] and [:] stay as they are.  This holds whatever the values
    and the options. *)
Theorem update_values_path (values : list (list value))
  (value_input_option : option str) (include_values_in_response : option bool) :
  _encode_range (lit "Sheet 1!A1:B2") = Ok (lit "Sheet%201!A1:B2")
  /\ exists req,
      built_request
        (sheets_update_values (lit "abc123") (lit "Sheet 1!A1:B2") values
           value_input_option include_values_in_response) = Some req
      /\ HttpRequest.method req = PUT
      /\ Url.path_part (HttpRequest.path req)
         = lit "/v4/spreadsheets/abc123/values/Sheet%201!A1:B2"
      /\ HttpRequest.path req
         = lit "/v4/spreadsheets/abc123/values/Sheet%201!A1:B2"
           ++ lit "?valueInputOption=" ++ default (lit "USER_ENTERED") value_input_option
           ++ lit "&includeValuesInResponse="
           ++ (if default false include_values_in_response then lit "true" else lit "false")
      /\ HttpRequest.body req = JDict [(lit "values", JList (map JList values))].
Proof.
  assert (E : _encode_range (lit "Sheet 1!A1:B2") = Ok (lit "Sheet%201!A1:B2"))
    by (vm_compute; reflexivity).
  split; [exact E|].
  unfold sheets_update_values. rewrite E. cbn [await_result _req built_request].
  eexists. split; [reflexivity|]. cbn [HttpRequest.method HttpRequest.path HttpRequest.body].
  split; [reflexivity|]. rewrite lower_str_of_bool.
  split; [|split; [|reflexivity]].
  - change (lit "/v4/spreadsheets/" ++ lit "abc123" ++ lit "/values/"
            ++ lit "Sheet%201!A1:B2" ++ lit "?" ++ ?q)
      with (lit "/v4/spreadsheets/abc123/values/Sheet%201!A1:B2" ++ lit "?" ++ q).
    now apply path_part_built.
  - destruct (default false include_values_in_response); reflexivity.
Qed.

(** C5.  The batch read emits, after the three options, one [ranges=]
    pair per comma-separated segment of [ranges], in the caller's order,
    each segment stripped of surrounding whitespace; for
    ["Sheet1!A1,Sheet1!B2"] these are exactly the two pairs [Sheet1!A1] and
    [Sheet1!B2].  (Where the query is read back from the path, the
    spreadsheet id is taken without [?] and the arguments without [&].) *)
Theorem batch_get_values_ranges (spreadsheet_id ranges : str)
  (major_dimension value_render_option date_time_render_option : option str) :
  exists req,
    built_request
      (sheets_batch_get_values spreadsheet_id ranges major_dimension
         value_render_option date_time_render_option) = Some req
    /\ HttpRequest.method req = GET
    /\ HttpRequest.path req
       = (lit "/v4/spreadsheets/" ++ spreadsheet_id ++ lit "/values:batchGet")
         ++ lit "?"
         ++ join (lit "&")
              ([lit "majorDimension=" ++ default (lit "ROWS") major_dimension;
                lit "valueRenderOption="
                ++ default (lit "FORMATTED_VALUE") value_render_option;
                lit "dateTimeRenderOption="
                ++ default (lit "SERIAL_NUMBER") date_time_render_option]
               ++ map (fun r => lit "ranges=" ++ strip r) (split 0x2C ranges))
    /\ Forall trimmed (map strip (split 0x2C ranges))
    /\ (lacks 0x3F spreadsheet_id = true ->
        opt_lacks 0x26 major_dimension = true ->
        opt_lacks 0x26 value_render_option = true ->
        opt_lacks 0x26 date_time_render_option = true ->
        (lacks 0x26 ranges = true ->
         Url.query_values (lit "ranges") (HttpRequest.path req)
         = map strip (split 0x2C ranges))
        /\ (ranges = lit "Sheet1!A1,Sheet1!B2" ->
            Url.query_values (lit "ranges") (HttpRequest.path req)
            = [lit "Sheet1!A1"; lit "Sheet1!B2"])).
Proof.
  eexists. split; [apply batch_get_values_request|]. split; [reflexivity|].
  cbn [HttpRequest.path]. split; [reflexivity|]. split.
  - apply Forall_forall. intros v Hv. apply in_map_iff in Hv.
    destruct Hv as (r & <- & _). apply strip_trimmed.
  - intros Hid Hmd Hvro Hdtro.
    pose proof (batch_get_ranges_read_back spreadsheet_id ranges
                  major_dimension value_render_option date_time_render_option
                  Hid Hmd Hvro Hdtro) as H.
    split; [exact H|]. intros ->. rewrite (H eq_refl). reflexivity.
Qed.

Lemma batch_get_values_ranges_witness :
  exists req,
    built_request
      (sheets_batch_get_values (lit "abc123") (lit "Sheet1!A1,Sheet1!B2")
         None None None) = Some req
    /\ Url.query_values (lit "ranges") (HttpRequest.path req)
       = [lit "Sheet1!A1"; lit "Sheet1!B2"].
Proof.
  destruct (batch_get_values_ranges (lit "abc123") (lit "Sheet1!A1,Sheet1!B2")
              None None None) as (req & E & _ & _ & _ & H).
  exists req. split; [exact E|].
  exact (proj2 (H eq_refl eq_refl eq_refl eq_refl) eq_refl).
Defined.

(** C6.  A single-range read with only the spreadsheet id and the range
    set carries the three options with their defaults, literally:
    [majorDimension=ROWS], [valueRenderOption=FORMATTED_VALUE] and
    [dateTimeRenderOption=SERIAL_NUMBER]. *)
Theorem get_values_defaults (spreadsheet_id range encoded_range : str) :
  _encode_range range = Ok encoded_range ->
  exists req,
    built_request (sheets_get_values spreadsheet_id range None None None) = Some req
    /\ HttpRequest.method req = GET
    /\ HttpRequest.path req
       = lit "/v4/spreadsheets/" ++ spreadsheet_id ++ lit "/values/" ++ encoded_range
         ++ lit "?majorDimension=ROWS&valueRenderOption=FORMATTED_VALUE&dateTimeRenderOption=SERIAL_NUMBER"
    /\ (lacks 0x3F spreadsheet_id = true ->
        Url.query_pairs (HttpRequest.path req)
        = [(lit "majorDimension", lit "ROWS");
           (lit "valueRenderOption", lit "FORMATTED_VALUE");
           (lit "dateTimeRenderOption", lit "SERIAL_NUMBER")]).
Proof.
  intros E. unfold sheets_get_values. rewrite E.
  cbn [await_result _req built_request default].
  eexists. split; [reflexivity|].
  cbn [HttpRequest.method HttpRequest.path]. split; [reflexivity|].
  split; [reflexivity|]. intros Hid.
  rewrite !app_assoc. rewrite <- (app_assoc _ (lit "?")).
  rewrite query_pairs_built.
  - reflexivity.
  - rewrite !lacks_app, Hid, (encoded_lacks 0x3F range encoded_range E)
      by (reflexivity || discriminate).
    reflexivity.
  - discriminate.
  - reflexivity.
Qed.

Lemma get_values_defaults_witness :
  exists req,
    built_request
      (sheets_get_values (lit "abc123") (lit "Sheet 1!A1:B2") None None None) = Some req
    /\ HttpRequest.path req
       = lit "/v4/spreadsheets/abc123/values/Sheet%201!A1:B2?majorDimension=ROWS&valueRenderOption=FORMATTED_VALUE&dateTimeRenderOption=SERIAL_NUMBER"
    /\ Url.query_pairs (HttpRequest.path req)
       = [(lit "majorDimension", lit "ROWS");
          (lit "valueRenderOption", lit "FORMATTED_VALUE");
          (lit "dateTimeRenderOption", lit "SERIAL_NUMBER")].
Proof.
  destruct (get_values_defaults (lit "abc123") (lit "Sheet 1!A1:B2")
              (lit "Sheet%201!A1:B2") eq_refl) as (req & E & _ & Hp & Hq).
  exists req. split; [exact E|]. split; [exact Hp | exact (Hq eq_refl)].
Defined.

(** C7.  Creating ["Budget"] with sheet titles ["Jan, Feb"] posts the body
    [{"properties": {"title": "Budget"}, "sheets": [{"properties": {"title":
    "Jan"}}, {"properties": {"title": "Feb"}}]}]; in general a non-empty
    [sheet_titles] is split on [,] and yields one sheet-properties object
    per segment, with the segment stripped. *)
Theorem create_with_sheets :
  built_request (sheets_create (lit "Budget") (Some (lit "Jan, Feb")))
  = Some (HttpRequest.mk POST (lit "/v4/spreadsheets")
            (JDict [(lit "properties", JDict [(lit "title", JStr (lit "Budget"))]);
                    (lit "sheets",
                     JList [JDict [(lit "properties", JDict [(lit "title", JStr (lit "Jan"))])];
                            JDict [(lit "properties", JDict [(lit "title", JStr (lit "Feb"))])]])]))
  /\ forall title sheet_titles,
      sheet_titles <> [] ->
      built_request (sheets_create title (Some sheet_titles))
      = Some (HttpRequest.mk POST (lit "/v4/spreadsheets")
                (JDict [(lit "properties", JDict [(lit "title", JStr title)]);
                        (lit "sheets",
                         JList (map sheet_properties (split 0x2C sheet_titles)))]))
      /\ length (map sheet_properties (split 0x2C sheet_titles))
         = S (length (filter (Z.eqb 0x2C) sheet_titles)).
Proof.
  split; [reflexivity|]. intros title sheet_titles Hne. split.
  - unfold sheets_create. cbn [default].
    destruct sheet_titles as [|c s]; [congruence|]. reflexivity.
  - rewrite length_map. apply split_length.
Qed.

Lemma create_with_sheets_witness :
  built_request (sheets_create (lit "Q3") (Some (lit " Jan ,Feb,Mar")))
  = Some (HttpRequest.mk POST (lit "/v4/spreadsheets")
            (JDict [(lit "properties", JDict [(lit "title", JStr (lit "Q3"))]);
                    (lit "sheets",
                     JList (map sheet_properties (split 0x2C (lit " Jan ,Feb,Mar"))))]))
  /\ length (map sheet_properties (split 0x2C (lit " Jan ,Feb,Mar"))) = 3%nat.
Proof.
  apply (proj2 create_with_sheets (lit "Q3") (lit " Jan ,Feb,Mar")). discriminate.
Defined.

(** C8.  The batch write posts the body [{valueInputOption,
    includeValuesInResponse, data}] in which [data] is the caller's list as
    it was given: every item is at its place, unchanged, whatever its range
    string, also where the encoder would have changed that string. *)
Theorem batch_update_values_body (spreadsheet_id : str) (data : list value)
  (value_input_option : option str) (include_values_in_response : option bool) :
  exists req,
    built_request
      (sheets_batch_update_values spreadsheet_id data value_input_option
         include_values_in_response) = Some req
    /\ (forall dispatch,
          requests dispatch
            (sheets_batch_update_values spreadsheet_id data value_input_option
               include_values_in_response)
          = [(lit "google-sheets-mcp", req)])
    /\ HttpRequest.method req = POST
    /\ HttpRequest.path req
       = lit "/v4/spreadsheets/" ++ spreadsheet_id ++ lit "/values:batchUpdate"
    /\ HttpRequest.body req
       = JDict [(lit "valueInputOption",
                 JStr (default (lit "USER_ENTERED") value_input_option));
                (lit "includeValuesInResponse",
                 JBool (default false include_values_in_response));
                (lit "data", JList data)]
    /\ (exists items,
          match HttpRequest.body req with
          | JDict d => dict_get (lit "data") d = Some (JList items)
          | _ => False
          end
          /\ forall i, nth_error items i = nth_error data i).
Proof.
  eexists. split; [reflexivity|]. split.
  { intros dispatch. unfold sheets_batch_update_values, _req. cbn [requests].
    destruct (success _); [destruct (response _)|]; reflexivity. }
  split; [reflexivity|]. split; [reflexivity|]. split; [reflexivity|].
  exists data. split; [reflexivity | reflexivity].
Qed.

(** An item whose range the encoder would rewrite is posted as it is. *)
Example batch_update_values_keeps_range :
  let item := JDict [(lit "range", JStr (lit "Sheet 1!A1")); (lit "values", JList [JList [JStr (lit "x")]])] in
  _encode_range (lit "Sheet 1!A1") = Ok (lit "Sheet%201!A1")
  /\ option_map HttpRequest.body
       (built_request (sheets_batch_update_values (lit "abc123") [item] None None))
     = Some (JDict [(lit "valueInputOption", JStr (lit "USER_ENTERED"));
                    (lit "includeValuesInResponse", JBool false);
                    (lit "data", JList [item])]).
Proof. split; reflexivity. Qed.

(** C9.  With [ranges] the empty string, the batch read still emits one
    [ranges=] pair, with an empty value, while the metadata read emits no
    [ranges=] pair at all.  (Where the query is read back from the path, the
    spreadsheet id is taken without [?] and the arguments without [&].) *)
Theorem empty_ranges (spreadsheet_id : str)
  (major_dimension value_render_option date_time_render_option : option str)
  (include_grid_data : option bool) (fields : option str) :
  (exists req,
      built_request
        (sheets_batch_get_values spreadsheet_id (lit "") major_dimension
           value_render_option date_time_render_option) = Some req
      /\ HttpRequest.path req
         = lit "/v4/spreadsheets/" ++ spreadsheet_id ++ lit "/values:batchGet"
           ++ lit "?majorDimension=" ++ default (lit "ROWS") major_dimension
           ++ lit "&valueRenderOption=" ++ default (lit "FORMATTED_VALUE") value_render_option
           ++ lit "&dateTimeRenderOption=" ++ default (lit "SERIAL_NUMBER") date_time_render_option
           ++ lit "&ranges="
      /\ (lacks 0x3F spreadsheet_id = true ->
          opt_lacks 0x26 major_dimension = true ->
          opt_lacks 0x26 value_render_option = true ->
          opt_lacks 0x26 date_time_render_option = true ->
          Url.query_values (lit "ranges") (HttpRequest.path req) = [lit ""]))
  /\ (exists req,
        built_request
          (sheets_get_spreadsheet spreadsheet_id include_grid_data (Some (lit "")) fields)
        = Some req
        /\ HttpRequest.path req
           = lit "/v4/spreadsheets/" ++ spreadsheet_id ++ lit "?includeGridData="
             ++ (if default false include_grid_data then lit "true" else lit "false")
             ++ (if str_truthy (default (lit "") fields)
                 then lit "&fields=" ++ default (lit "") fields else lit "")
        /\ (lacks 0x3F spreadsheet_id = true -> opt_lacks 0x26 fields = true ->
            Url.query_values (lit "ranges") (HttpRequest.path req) = []
            /\ Url.query_pairs (HttpRequest.path req)
               = (lit "includeGridData",
                  if default false include_grid_data then lit "true" else lit "false")
                 :: (if str_truthy (default (lit "") fields)
                     then [(lit "fields", default (lit "") fields)] else []))).
Proof.
  split.
  - eexists. split; [apply batch_get_values_request|]. cbn [HttpRequest.path].
    split.
    + rewrite <- !app_assoc. reflexivity.
    + intros Hid Hmd Hvro Hdtro.
      apply (batch_get_ranges_read_back spreadsheet_id (lit "") _ _ _
               Hid Hmd Hvro Hdtro eq_refl).
  - pose (flag := if default false include_grid_data then lit "true" else lit "false").
    pose (tail := if str_truthy (default (lit "") fields)
                  then [lit "fields=" ++ default (lit "") fields] else []).
    assert (Eb : built_request
                   (sheets_get_spreadsheet spreadsheet_id include_grid_data
                      (Some (lit "")) fields)
                 = Some (HttpRequest.mk GET
                           (lit "/v4/spreadsheets/" ++ spreadsheet_id ++ lit "?"
                            ++ join (lit "&") ((lit "includeGridData=" ++ flag) :: tail))
                           JNull)).
    { unfold sheets_get_spreadsheet, _req, built_request, flag, tail.
      rewrite lower_str_of_bool.
      destruct fields as [[|c f]|]; reflexivity. }
    eexists. split; [exact Eb|]. cbn [HttpRequest.path]. split.
    { unfold tail, flag. destruct (str_truthy (default (lit "") fields));
        destruct (default false include_grid_data); reflexivity. }
    intros Hid Hf.
    assert (Hq : Url.query_pairs
                   (lit "/v4/spreadsheets/" ++ spreadsheet_id ++ lit "?"
                    ++ join (lit "&") ((lit "includeGridData=" ++ flag) :: tail))
                 = (lit "includeGridData", flag)
                   :: (if str_truthy (default (lit "") fields)
                       then [(lit "fields", default (lit "") fields)] else [])).
    { rewrite (app_assoc (lit "/v4/spreadsheets/")). rewrite query_pairs_built.
      - cbn [map]. f_equal.
        unfold tail. destruct (str_truthy (default (lit "") fields)); reflexivity.
      - rewrite lacks_app, Hid. reflexivity.
      - discriminate.
      - assert (Hd : lacks 0x26 (default (lit "") fields) = true)
          by (apply default_lacks; [reflexivity | exact Hf]).
        cbn [forallb]. rewrite lacks_app.
        replace (lacks 38 flag) with true
          by (unfold flag; destruct (default false include_grid_data); reflexivity).
        unfold tail. destruct (str_truthy (default (lit "") fields)); [|reflexivity].
        cbn [forallb]. rewrite lacks_app, Hd. reflexivity. }
    split; [|exact Hq].
    unfold Url.query_values. rewrite Hq.
    destruct (str_truthy (default (lit "") fields)); reflexivity.
Qed.

Lemma empty_ranges_witness :
  (exists req,
      built_request (sheets_batch_get_values (lit "abc123") (lit "") None None None)
      = Some req
      /\ HttpRequest.path req
         = lit "/v4/spreadsheets/abc123/values:batchGet?majorDimension=ROWS&valueRenderOption=FORMATTED_VALUE&dateTimeRenderOption=SERIAL_NUMBER&ranges="
      /\ Url.query_values (lit "ranges") (HttpRequest.path req) = [lit ""])
  /\ (exists req,
        built_request (sheets_get_spreadsheet (lit "abc123") None (Some (lit "")) None)
        = Some req
        /\ HttpRequest.path req = lit "/v4/spreadsheets/abc123?includeGridData=false"
        /\ Url.query_values (lit "ranges") (HttpRequest.path req) = []).
Proof.
  destruct (empty_ranges (lit "abc123") None None None None None)
    as [(r1 & E1 & P1 & Q1) (r2 & E2 & P2 & Q2)].
  split.
  - exists r1. split; [exact E1|]. split; [exact P1|].
    exact (Q1 eq_refl eq_refl eq_refl eq_refl).
  - exists r2. split; [exact E2|]. split; [exact P2|].
    exact (proj1 (Q2 eq_refl eq_refl)).
Defined.

(** ** [json.loads] after [json.dumps] *)

Section HexDigits.

Lemma hex_value_lower d : 0 <= d < 16 -> hex_value (hex_lower d) = Some d.
Proof.
  intros H.
  assert (E : d = 0 \/ d = 1 \/ d = 2 \/ d = 3 \/ d = 4 \/ d = 5 \/ d = 6 \/ d = 7
              \/ d = 8 \/ d = 9 \/ d = 10 \/ d = 11 \/ d = 12 \/ d = 13 \/ d = 14
              \/ d = 15) by lia.
  repeat (destruct E as [-> | E]; [reflexivity|]). subst. reflexivity.
Qed.

Lemma nibble_range x : 0 <= Z.land x 0xF < 16.
Proof.
  change 15 with (Z.ones 4). rewrite Z.land_ones by lia.
  apply Z.mod_pos_bound. reflexivity.
Qed.

Lemma decode_format_u04x n :
  0 <= n < 0x10000 ->
  decode_uXXXX (hex_lower (Z.land (Z.shiftr n 12) 0xF))
    (hex_lower (Z.land (Z.shiftr n 8) 0xF))
    (hex_lower (Z.land (Z.shiftr n 4) 0xF)) (hex_lower (Z.land n 0xF)) = Some n.
Proof.
  intros H. unfold decode_uXXXX.
  rewrite !hex_value_lower by apply nibble_range. f_equal.
  change 15 with (Z.ones 4). rewrite !Z.land_ones, !Z.shiftr_div_pow2 by lia.
  change (2 ^ 12) with 4096. change (2 ^ 8) with 256. change (2 ^ 4) with 16.
  Z.div_mod_to_equations. lia.
Qed.

Lemma lor_shiftl_add a b k :
  0 <= k -> 0 <= b < 2 ^ k -> Z.lor (Z.shiftl a k) b = a * 2 ^ k + b.
Proof.
  intros Hk Hb. rewrite <- Z.shiftl_mul_pow2 by assumption.
  assert (L : Z.land (Z.shiftl a k) b = 0); [|now rewrite Z.add_nocarry_lxor, Z.lxor_lor].
  apply Z.bits_inj'. intros i Hi. rewrite Z.land_spec, Z.bits_0.
  destruct (Z_lt_le_dec i k) as [Hlt|Hge].
  - rewrite Z.shiftl_spec_low by assumption. reflexivity.
  - assert (E : Z.testbit b i = false).
    { apply Z.testbit_false; [assumption|].
      rewrite Z.div_small; [reflexivity|]. split; [lia|].
      apply Z.lt_le_trans with (2 ^ k); [lia|]. apply Z.pow_le_mono_r; lia. }
    rewrite E. apply andb_false_r.
Qed.

End HexDigits.

Section StringTokens.

Lemma scanstring_plain c tail :
  (c =? 0x22) = false -> (c =? 0x5C) = false -> 0x20 <= c ->
  scanstring (c :: tail) = cons_fst c (scanstring tail).
Proof.
  intros H1 H2 H3. cbn [scanstring]. rewrite H1, H2.
  replace (c <? 32) with false by (symmetry; apply Z.ltb_ge; lia).
  now rewrite andb_false_r.
Qed.

Lemma scanstring_backslash esc ch tail :
  (esc =? 0x75) = false -> BACKSLASH esc = Some ch ->
  scanstring (0x5C :: esc :: tail) = cons_fst ch (scanstring tail).
Proof.
  intros H1 H2. cbn [scanstring].
  change (92 =? 34) with false. change (92 =? 92) with true. cbv iota.
  now rewrite H1, H2.
Qed.

Lemma scanstring_u h1 h2 h3 h4 uni tail :
  decode_uXXXX h1 h2 h3 h4 = Some uni ->
  (0xD800 <=? uni) && (uni <=? 0xDBFF) = false ->
  scanstring (0x5C :: 0x75 :: h1 :: h2 :: h3 :: h4 :: tail)
  = cons_fst uni (scanstring tail).
Proof.
  intros H1 H2. cbn [scanstring].
  change (92 =? 34) with false. change (92 =? 92) with true.
  change (117 =? 117) with true. cbv iota.
  rewrite H1, H2. reflexivity.
Qed.

Lemma scanstring_pair h1 h2 h3 h4 g1 g2 g3 g4 uni uni2 tail :
  decode_uXXXX h1 h2 h3 h4 = Some uni ->
  decode_uXXXX g1 g2 g3 g4 = Some uni2 ->
  (0xD800 <=? uni) && (uni <=? 0xDBFF) = true ->
  (0xDC00 <=? uni2) && (uni2 <=? 0xDFFF) = true ->
  scanstring (0x5C :: 0x75 :: h1 :: h2 :: h3 :: h4
                :: 0x5C :: 0x75 :: g1 :: g2 :: g3 :: g4 :: tail)
  = cons_fst (0x10000 + Z.lor (Z.shiftl (uni - 0xD800) 10) (uni2 - 0xDC00))
      (scanstring tail).
Proof.
  intros H1 H2 H3 H4. cbn [scanstring].
  change (92 =? 34) with false. change (92 =? 92) with true.
  change (117 =? 117) with true. cbv iota.
  rewrite H1, H3. cbn [andb]. rewrite H2, H4. reflexivity.
Qed.

Lemma surrogates_of n :
  0 <= n < 0x100000 ->
  let s1 := Z.lor 0xD800 (Z.land (Z.shiftr n 10) 0x3FF) in
  let s2 := Z.lor 0xDC00 (Z.land n 0x3FF) in
  (0xD800 <= s1 <= 0xDBFF) /\ (0xDC00 <= s2 <= 0xDFFF)
  /\ 0x10000 + Z.lor (Z.shiftl (s1 - 0xD800) 10) (s2 - 0xDC00) = n + 0x10000.
Proof.
  intros H s1 s2.
  assert (A : 0 <= Z.land (Z.shiftr n 10) 0x3FF < 1024 /\ Z.land (Z.shiftr n 10) 0x3FF = n / 1024).
  { change 1023 with (Z.ones 10). rewrite Z.land_ones, Z.shiftr_div_pow2 by lia.
    change (2 ^ 10) with 1024.
    assert (0 <= n / 1024 < 1024) by (Z.div_mod_to_equations; lia).
    rewrite Z.mod_small by assumption. lia. }
  assert (B : 0 <= Z.land n 0x3FF < 1024 /\ Z.land n 0x3FF = n mod 1024).
  { change 1023 with (Z.ones 10). rewrite Z.land_ones by lia.
    change (2 ^ 10) with 1024. split; [apply Z.mod_pos_bound; lia | reflexivity]. }
  destruct A as [A1 A2], B as [B1 B2]. rewrite A2 in A1. rewrite B2 in B1.
  assert (E1 : s1 = 0xD800 + n / 1024).
  { unfold s1. change 0xD800 with (Z.shiftl 54 10).
    rewrite lor_shiftl_add by (change (2 ^ 10) with 1024; lia).
    rewrite A2. reflexivity. }
  assert (E2 : s2 = 0xDC00 + n mod 1024).
  { unfold s2. change 0xDC00 with (Z.shiftl 55 10).
    rewrite lor_shiftl_add by (change (2 ^ 10) with 1024; lia).
    rewrite B2. reflexivity. }
  rewrite E1, E2. split; [lia|]. split; [lia|].
  replace (55296 + n / 1024 - 55296) with (n / 1024) by lia.
  replace (56320 + n mod 1024 - 56320) with (n mod 1024) by lia.
  rewrite lor_shiftl_add by (change (2 ^ 10) with 1024; lia).
  change (2 ^ 10) with 1024. Z.div_mod_to_equations. lia.
Qed.

Lemma is_scalar_range c :
  is_scalar c = true -> 0 <= c <= 0x10FFFF /\ (c < 0xD800 \/ 0xDFFF < c).
Proof.
  unfold is_scalar, is_surrogate. rewrite !andb_true_iff, negb_true_iff, andb_false_iff.
  rewrite !Z.leb_le, !Z.leb_gt. lia.
Qed.

(** One escaped character reads back as that character. *)
Lemma scanstring_escape c tail :
  is_scalar c = true ->
  scanstring (escape_char c ++ tail) = cons_fst c (scanstring tail).
Proof.
  intros Hs. destruct (is_scalar_range c Hs) as [Hr Hn].
  unfold escape_char.
  destruct (c =? 92) eqn:E1.
  { apply Z.eqb_eq in E1. subst. reflexivity. }
  destruct (c =? 34) eqn:E2.
  { apply Z.eqb_eq in E2. subst. reflexivity. }
  destruct ((32 <=? c) && (c <=? 126)) eqn:E3.
  { apply andb_true_iff in E3. destruct E3 as [E3 _]. apply Z.leb_le in E3.
    now apply scanstring_plain. }
  destruct (c =? 8) eqn:E4; [apply Z.eqb_eq in E4; subst; reflexivity|].
  destruct (c =? 12) eqn:E5; [apply Z.eqb_eq in E5; subst; reflexivity|].
  destruct (c =? 10) eqn:E6; [apply Z.eqb_eq in E6; subst; reflexivity|].
  destruct (c =? 13) eqn:E7; [apply Z.eqb_eq in E7; subst; reflexivity|].
  destruct (c =? 9) eqn:E8; [apply Z.eqb_eq in E8; subst; reflexivity|].
  destruct (c <? 65536) eqn:E9.
  - apply Z.ltb_lt in E9. unfold format_u04x. cbn [app].
    apply scanstring_u; [apply decode_format_u04x; lia|].
    apply andb_false_iff. rewrite Z.leb_gt, Z.leb_gt. lia.
  - apply Z.ltb_ge in E9.
    destruct (surrogates_of (c - 65536)) as (S1 & S2 & S3); [lia|].
    cbv zeta in S1, S2, S3 |- *.
    assert (D1 := decode_format_u04x
                    (Z.lor 55296 (Z.land (Z.shiftr (c - 65536) 10) 1023)) ltac:(lia)).
    assert (D2 := decode_format_u04x
                    (Z.lor 56320 (Z.land (c - 65536) 1023)) ltac:(lia)).
    unfold format_u04x. cbn [app].
    rewrite (scanstring_pair _ _ _ _ _ _ _ _ _ _ tail D1 D2).
    + rewrite S3. f_equal. lia.
    + apply andb_true_iff. rewrite !Z.leb_le. lia.
    + apply andb_true_iff. rewrite !Z.leb_le. lia.
Qed.

Lemma scanstring_escaped s rest :
  forallb is_scalar s = true ->
  scanstring (flat_map escape_char s ++ 0x22 :: rest) = Some (s, rest).
Proof.
  induction s as [|c s IH]; [reflexivity|].
  cbn [forallb flat_map]. rewrite andb_true_iff. intros [Hc Hs].
  rewrite <- app_assoc, (scanstring_escape c _ Hc), (IH Hs). reflexivity.
Qed.

End StringTokens.

Section NumberTokens.

(** The characters of a decimal number. *)
Let uint_chars (d : Decimal.uint) : str :=
  map (fun a => Z.of_N (N_of_ascii a))
    (list_ascii_of_string (NilEmpty.string_of_uint d)).

Lemma uint_chars_fold d acc :
  fold_left (fun acc c => acc * 10 + (c - 0x30)) (uint_chars d) acc = uint_val d acc.
Proof.
  revert acc. induction d; intros acc; [reflexivity | apply IHd ..].
Qed.

Lemma uint_val_acc d acc :
  uint_val d (Z.pos acc) = Z.pos (Pos.of_uint_acc d acc).
Proof.
  revert acc. induction d; intros acc; cbn [uint_val Pos.of_uint_acc];
    [reflexivity | rewrite <- IHd; f_equal; lia ..].
Qed.

Lemma uint_val_of_uint d : uint_val d 0 = Z.of_N (Pos.of_uint d).
Proof.
  induction d; cbn [uint_val Pos.of_uint]; try exact IHd;
    try (change (0 * 10 + _) with (Z.pos 1) || idtac); try reflexivity.
  all: cbn [Z.mul Z.add]; rewrite uint_val_acc; reflexivity.
Qed.

Lemma uint_chars_digits d : forallb is_digit (uint_chars d) = true.
Proof. induction d; [reflexivity | exact IHd ..]. Qed.

Lemma span_digits_app ds rest :
  forallb is_digit ds = true -> number_end rest = true ->
  span_digits (ds ++ rest) = (ds, rest).
Proof.
  intros Hd Hr. induction ds as [|c ds IH]; cbn [app].
  - destruct rest as [|c rest]; [reflexivity|]. cbn [span_digits].
    cbn [number_end] in Hr. destruct (is_digit c); [discriminate | reflexivity].
  - cbn [forallb] in Hd. apply andb_true_iff in Hd. destruct Hd as [Hc Hd].
    cbn [span_digits]. now rewrite Hc, (IH Hd).
Qed.

Lemma nzhead_not_D0 d d' : Decimal.nzhead d <> Decimal.D0 d'.
Proof. induction d; cbn [Decimal.nzhead]; try discriminate. exact IHd. Qed.

(** The decimal form of a positive number starts with a non-zero digit. *)
Lemma to_uint_head p :
  exists c ds, uint_chars (Pos.to_uint p) = c :: ds
    /\ is_digit c = true /\ (c =? 0x30) = false /\ (c =? 0x2D) = false.
Proof.
  pose proof (DecimalPos.Unsigned.to_of (Pos.to_uint p)) as E.
  rewrite DecimalPos.Unsigned.of_to in E. cbn [N.to_uint] in E.
  pose proof (DecimalPos.Unsigned.to_uint_nonzero p) as Hz.
  destruct (Pos.to_uint p) as [|d|d|d|d|d|d|d|d|d|d] eqn:Ep;
    try (do 2 eexists; split; [reflexivity | repeat split; reflexivity]).
  - unfold Decimal.unorm in E. cbn in E. discriminate.
  - exfalso. unfold Decimal.unorm in E. cbn [Decimal.nzhead] in E.
    destruct (Decimal.nzhead d) eqn:En;
      try (symmetry in E; rewrite <- En in E; now apply nzhead_not_D0 in E).
    apply Hz. exact E.
Qed.

Lemma int_repr_zero : int_repr 0 = [0x30].
Proof. reflexivity. Qed.

Lemma int_repr_pos p : int_repr (Z.pos p) = uint_chars (Pos.to_uint p).
Proof.
  unfold int_repr, uint_chars. cbn [Z.to_int NilZero.string_of_int].
  unfold NilZero.string_of_uint.
  destruct (Pos.to_uint p) eqn:E; try reflexivity.
  now apply DecimalPos.Unsigned.to_uint_nonnil in E.
Qed.

Lemma int_repr_neg p : int_repr (Z.neg p) = 0x2D :: uint_chars (Pos.to_uint p).
Proof.
  unfold int_repr, uint_chars. cbn [Z.to_int NilZero.string_of_int].
  unfold NilZero.string_of_uint.
  destruct (Pos.to_uint p) eqn:E; try reflexivity.
  now apply DecimalPos.Unsigned.to_uint_nonnil in E.
Qed.

Lemma uint_chars_value p :
  digits_value (uint_chars (Pos.to_uint p)) = Z.pos p.
Proof.
  unfold digits_value. rewrite uint_chars_fold, uint_val_of_uint, DecimalPos.Unsigned.of_to.
  reflexivity.
Qed.

(** The digits of a positive number are read back as that number. *)
Lemma match_digits p rest :
  number_end rest = true ->
  exists c ds, uint_chars (Pos.to_uint p) = c :: ds
    /\ (c =? 0x30) = false /\ (c =? 0x2D) = false /\ is_digit c = true
    /\ span_digits (ds ++ rest) = (ds, rest)
    /\ digits_value (c :: ds) = Z.pos p.
Proof.
  intros Hr. destruct (to_uint_head p) as (c & ds & E & Hc & H0 & Hm).
  exists c, ds. repeat split; try assumption.
  - apply span_digits_app; [|exact Hr].
    pose proof (uint_chars_digits (Pos.to_uint p)) as Hd. rewrite E in Hd.
    cbn [forallb] in Hd. now apply andb_true_iff in Hd.
  - rewrite <- E. apply uint_chars_value.
Qed.

Lemma match_integer_repr n rest :
  number_end rest = true -> match_integer (int_repr n ++ rest) = Some (n, rest).
Proof.
  intros Hr. destruct n as [|p|p].
  - reflexivity.
  - rewrite int_repr_pos.
    destruct (match_digits p rest Hr) as (c & ds & E & H0 & Hm & Hc & Hs & Hv).
    rewrite E. unfold match_integer. cbn [app]. rewrite Hm, H0, Hc, Hs, Hv. reflexivity.
  - rewrite int_repr_neg.
    destruct (match_digits p rest Hr) as (c & ds & E & H0 & Hm & Hc & Hs & Hv).
    rewrite E. unfold match_integer. cbn [app].
    change (45 =? 45) with true. cbv iota. rewrite H0, Hc, Hs, Hv. reflexivity.
Qed.

(** The first character of a number: a digit or the minus sign. *)
Lemma int_repr_head n :
  exists c t, int_repr n = c :: t /\ (is_digit c = true \/ c = 0x2D).
Proof.
  destruct n as [|p|p].
  - exists 0x30, []. split; [reflexivity | now left].
  - rewrite int_repr_pos. destruct (to_uint_head p) as (c & ds & E & Hc & _).
    exists c, ds. split; [exact E | now left].
  - rewrite int_repr_neg. do 2 eexists. split; [reflexivity | now right].
Qed.

Lemma number_end_flags rest :
  number_end rest = true -> has_frac rest || has_exp rest = false.
Proof.
  destruct rest as [|c [|d rest]]; try reflexivity.
  cbn [number_end has_frac has_exp]. rewrite !andb_true_iff, !negb_true_iff.
  intros [[[_ H1] H2] H3]. now rewrite H1, H2, H3.
Qed.

End NumberTokens.

Section Unfolding.

Lemma value_induction (P : value -> Prop) :
  P JNull -> (forall b, P (JBool b)) -> (forall n, P (JInt n)) ->
  (forall s, P (JStr s)) ->
  (forall l, Forall P l -> P (JList l)) ->
  (forall d, Forall (fun kv => P (snd kv)) d -> P (JDict d)) ->
  forall v, P v.
Proof.
  intros Hnull Hbool Hint Hstr Hlist Hdict.
  fix IH 1. intros [|b|n|s|l|d].
  - exact Hnull.
  - apply Hbool.
  - apply Hint.
  - apply Hstr.
  - apply Hlist. induction l as [|w l IHl]; constructor; [apply IH | exact IHl].
  - apply Hdict. induction d as [|[k w] d IHd]; constructor; [apply IH | exact IHd].
Qed.

Lemma iterencode_list indent level v lst :
  iterencode indent level (JList (v :: lst))
  = 0x5B :: newline_indent indent (S level)
    ++ iterencode indent (S level) v
    ++ list_tail indent level lst ++ newline_indent indent level ++ [0x5D].
Proof.
  change (iterencode indent level (JList (v :: lst)))
    with (([0x5B] ++ newline_indent indent (S level))
          ++ iterencode indent (S level) v
          ++ list_tail indent level lst ++ newline_indent indent level ++ [0x5D]).
  now rewrite <- app_assoc.
Qed.

Lemma iterencode_dict indent level k v dct :
  iterencode indent level (JDict ((k, v) :: dct))
  = 0x7B :: newline_indent indent (S level)
    ++ encode_basestring_ascii k ++ lit ": "
    ++ iterencode indent (S level) v
    ++ dict_tail indent level dct ++ newline_indent indent level ++ [0x7D].
Proof.
  change (iterencode indent level (JDict ((k, v) :: dct)))
    with (([0x7B] ++ newline_indent indent (S level))
          ++ encode_basestring_ascii k ++ lit ": "
          ++ iterencode indent (S level) v
          ++ dict_tail indent level dct ++ newline_indent indent level ++ [0x7D]).
  now rewrite <- app_assoc.
Qed.

Lemma fuel_of_list l : fuel_of (JList l) = S (items_fuel l).
Proof.
  reflexivity.
Qed.

Lemma fuel_of_dict d : fuel_of (JDict d) = S (pairs_fuel d).
Proof.
  reflexivity.
Qed.

Lemma wellformed_list l : wellformed (JList l) = forallb wellformed l.
Proof.
  cbn [wellformed]. induction l as [|w l IH]; [reflexivity|].
  cbn [forallb]. now rewrite <- IH.
Qed.

Lemma wellformed_dict d :
  wellformed (JDict d)
  = forallb (fun kv => forallb is_scalar (fst kv) && wellformed (snd kv)) d
    && distinct (map fst d).
Proof.
  cbn [wellformed]. f_equal. induction d as [|[k w] d IH]; [reflexivity|].
  cbn [forallb fst snd]. now rewrite <- IH.
Qed.

End Unfolding.

Section Layout.

Variable indent : nat.

Lemma skip_ws_head c t : is_ws c = false -> skip_ws (c :: t) = c :: t.
Proof. intros H. unfold skip_ws. cbn [dropwhile]. now rewrite H. Qed.

Lemma skip_ws_spaces n x : skip_ws (spaces n ++ x) = skip_ws x.
Proof. induction n as [|n IH]; [reflexivity | exact IH]. Qed.

Lemma skip_ws_newline level x :
  skip_ws (newline_indent indent level ++ x) = skip_ws x.
Proof.
  unfold newline_indent. rewrite <- app_assoc. cbn [app].
  unfold skip_ws at 1. cbn [dropwhile]. change (is_ws 10) with true. cbv iota.
  apply skip_ws_spaces.
Qed.

Lemma is_digit_range c : is_digit c = true -> 0x30 <= c <= 0x39.
Proof.
  unfold is_digit. rewrite andb_true_iff, !Z.leb_le. trivial.
Qed.

(** A serialised object starts with a character that is neither
    whitespace nor a closing bracket. *)
Lemma iterencode_head level v :
  exists c t, iterencode indent level v = c :: t
    /\ is_ws c = false /\ (c =? 0x5D) = false.
Proof.
  destruct v as [|[|]|n|s|[|w l]|[|[k w] d]];
    try (do 2 eexists; split; [reflexivity | split; reflexivity]).
  destruct (int_repr_head n) as (c & t & E & [Hc | ->]).
  - exists c, t. split; [exact E|]. apply is_digit_range in Hc.
    unfold is_ws. split.
    + repeat (apply orb_false_iff; split); apply Z.eqb_neq; lia.
    + apply Z.eqb_neq; lia.
  - exists 0x2D, t. split; [exact E | split; reflexivity].
Qed.

Lemma skip_ws_value level v x :
  skip_ws (iterencode indent level v ++ x) = iterencode indent level v ++ x.
Proof.
  destruct (iterencode_head level v) as (c & t & E & Hc & _).
  rewrite E. now apply skip_ws_head.
Qed.

Lemma str_eqb_eq a b : str_eqb a b = true <-> a = b.
Proof.
  revert b. induction a as [|x a IH]; intros [|y b]; cbn [str_eqb];
    try (split; [discriminate | congruence]); [tauto|].
  rewrite andb_true_iff, Z.eqb_eq, IH. split; [intros [-> ->]; reflexivity|].
  intros E. injection E as -> ->. tauto.
Qed.

Lemma existsb_str_eqb k ks : existsb (str_eqb k) ks = true <-> In k ks.
Proof.
  rewrite existsb_exists. split.
  - intros (x & Hx & E). apply str_eqb_eq in E. now subst.
  - intros H. exists k. split; [assumption | now apply str_eqb_eq].
Qed.

Lemma distinct_NoDup ks : distinct ks = true <-> NoDup ks.
Proof.
  induction ks as [|k ks IH]; cbn [distinct].
  - split; [constructor | reflexivity].
  - rewrite andb_true_iff, negb_true_iff, IH. split.
    + intros [H1 H2]. constructor; [|exact H2]. intros Hin.
      apply existsb_str_eqb in Hin. congruence.
    + intros H. inversion H as [|? ? Hn Hd]; subst. split; [|exact Hd].
      destruct (existsb (str_eqb k) ks) eqn:E; [|reflexivity].
      apply existsb_str_eqb in E. contradiction.
Qed.

Lemma dict_set_fresh k v d :
  ~ In k (map fst d) -> dict_set k v d = d ++ [(k, v)].
Proof.
  induction d as [|[k' v'] d IH]; cbn [dict_set map fst app]; [reflexivity|].
  intros Hn. destruct (str_eqb k k') eqn:E.
  - apply str_eqb_eq in E. subst. exfalso. apply Hn. now left.
  - rewrite IH; [reflexivity|]. intros Hin. apply Hn. now right.
Qed.

Lemma dict_of_pairs_acc pairs acc :
  NoDup (map fst (acc ++ pairs)) ->
  fold_left (fun d kv => dict_set (fst kv) (snd kv) d) pairs acc = acc ++ pairs.
Proof.
  revert acc. induction pairs as [|[k v] pairs IH]; intros acc Hd; cbn [fold_left].
  - now rewrite app_nil_r.
  - cbn [fst snd]. rewrite dict_set_fresh.
    + rewrite IH; rewrite <- app_assoc; [reflexivity | exact Hd].
    + rewrite map_app in Hd. cbn [map fst] in Hd.
      apply NoDup_remove_2 in Hd. intros Hin. apply Hd. apply in_or_app. now left.
Qed.

(** A dict without repeated keys is the dict of its items. *)
Lemma dict_of_pairs_distinct d :
  distinct (map fst d) = true -> dict_of_pairs d = d.
Proof.
  intros H. apply distinct_NoDup in H. unfold dict_of_pairs.
  now rewrite (dict_of_pairs_acc d []).
Qed.

End Layout.

Section Scanner.

Lemma array_items_S f s :
  array_items (S f) s
  = match scan_once f s with
    | None => None
    | Some (v, r) =>
        match skip_ws r with
        | c :: r1 =>
            if c =? 0x5D then Some ([v], r1)
            else if c =? 0x2C then
              match array_items f (skip_ws r1) with
              | Some (values, r2) => Some (v :: values, r2)
              | None => None
              end
            else None
        | [] => None
        end
    end.
Proof. reflexivity. Qed.

Lemma object_items_S f s :
  object_items (S f) s
  = match scanstring s with
    | None => None
    | Some (key, r) =>
        match skip_ws r with
        | c :: r1 =>
            if c =? 0x3A then
              match scan_once f (skip_ws r1) with
              | None => None
              | Some (v, r2) =>
                  match skip_ws r2 with
                  | d :: r3 =>
                      if d =? 0x7D then Some ([(key, v)], r3)
                      else if d =? 0x2C then
                        match skip_ws r3 with
                        | q :: r4 =>
                            if q =? 0x22 then
                              match object_items f r4 with
                              | Some (pairs, r5) => Some ((key, v) :: pairs, r5)
                              | None => None
                              end
                            else None
                        | [] => None
                        end
                      else None
                  | [] => None
                  end
              end
            else None
        | [] => None
        end
    end.
Proof. reflexivity. Qed.

Lemma scan_once_string f s :
  scan_once (S f) (0x22 :: s)
  = match scanstring s with
    | Some (content, r) => Some (JStr content, r)
    | None => None
    end.
Proof. reflexivity. Qed.

Lemma scan_once_array f s :
  scan_once (S f) (0x5B :: s)
  = match skip_ws s with
    | q :: r =>
        if q =? 0x5D then Some (JList [], r)
        else
          match array_items f (q :: r) with
          | Some (values, r') => Some (JList values, r')
          | None => None
          end
    | [] => None
    end.
Proof. reflexivity. Qed.

Lemma scan_once_object f s :
  scan_once (S f) (0x7B :: s)
  = match skip_ws s with
    | q :: r =>
        if q =? 0x22 then
          match object_items f r with
          | Some (pairs, r') => Some (JDict (dict_of_pairs pairs), r')
          | None => None
          end
        else if q =? 0x7D then Some (JDict [], r)
        else None
    | [] => None
    end.
Proof. reflexivity. Qed.

Lemma scan_once_number f c s :
  is_digit c = true \/ c = 0x2D ->
  scan_once (S f) (c :: s)
  = match match_integer (c :: s) with
    | Some (n, r) => if has_frac r || has_exp r then None else Some (JInt n, r)
    | None => None
    end.
Proof.
  intros H.
  assert (E : (c =? 0x22) = false /\ (c =? 0x7B) = false /\ (c =? 0x5B) = false
              /\ (c =? 0x6E) = false /\ (c =? 0x74) = false /\ (c =? 0x66) = false).
  { destruct H as [H | ->]; [|repeat split; reflexivity].
    apply is_digit_range in H. repeat split; apply Z.eqb_neq; lia. }
  destruct E as (E1 & E2 & E3 & E4 & E5 & E6).
  cbn [scan_once]. rewrite E1, E2, E3, E4, E5, E6. reflexivity.
Qed.

End Scanner.

Section Reading.

Variable indent : nat.

Lemma array_items_reads level lst :
  forall v fuel rest,
    reads_back indent v -> Forall (reads_back indent) lst ->
    wellformed v = true -> forallb wellformed lst = true ->
    (items_fuel (v :: lst) <= fuel)%nat ->
    array_items fuel
      (iterencode indent (S level) v
       ++ list_tail indent level lst ++ newline_indent indent level ++ 0x5D :: rest)
    = Some (v :: lst, rest).
Proof.
  induction lst as [|w lst IH]; intros v fuel rest Hv Hl Wv Wl Hf;
    (destruct fuel as [|f]; [cbn [items_fuel] in Hf; lia|]);
    cbn [items_fuel] in Hf; rewrite array_items_S.
  - cbn [list_tail app]. rewrite (Hv (S level) f); [|exact Wv|lia|reflexivity].
    rewrite skip_ws_newline, skip_ws_head by reflexivity. reflexivity.
  - cbn [list_tail]. rewrite <- !app_assoc. cbn [app].
    rewrite (Hv (S level) f); [|exact Wv|lia|reflexivity].
    rewrite skip_ws_head by reflexivity.
    change (44 =? 93) with false. change (44 =? 44) with true. cbv iota.
    rewrite skip_ws_newline, skip_ws_value.
    cbn [forallb] in Wl. apply andb_true_iff in Wl. destruct Wl as [Ww Wl].
    inversion Hl as [|? ? Hw Hl']; subst.
    rewrite (IH w f rest Hw Hl' Ww Wl); [reflexivity|].
    cbn [items_fuel]. lia.
Qed.

Lemma object_items_reads level dct :
  forall k v fuel rest,
    reads_back indent v -> Forall (fun kv => reads_back indent (snd kv)) dct ->
    forallb is_scalar k = true -> wellformed v = true ->
    forallb (fun kv => forallb is_scalar (fst kv) && wellformed (snd kv)) dct = true ->
    (pairs_fuel ((k, v) :: dct) <= fuel)%nat ->
    object_items fuel
      (flat_map escape_char k ++ [0x22] ++ lit ": "
       ++ iterencode indent (S level) v
       ++ dict_tail indent level dct ++ newline_indent indent level ++ 0x7D :: rest)
    = Some ((k, v) :: dct, rest).
Proof.
  induction dct as [|[k' w] dct IH]; intros k v fuel rest Hv Hl Wk Wv Wl Hf;
    (destruct fuel as [|f]; [cbn [pairs_fuel] in Hf; lia|]);
    cbn [pairs_fuel] in Hf; rewrite object_items_S;
    cbn [app]; rewrite (scanstring_escaped k _ Wk);
    cbn [lit list_ascii_of_string map app];
    rewrite skip_ws_head by reflexivity;
    change (Z.of_N (N_of_ascii ":") =? 58) with true; cbv iota;
    change (Z.of_N (N_of_ascii " ") :: ?x) with (spaces 1 ++ x);
    rewrite skip_ws_spaces, skip_ws_value.
  - cbn [dict_tail app]. rewrite (Hv (S level) f); [|exact Wv|lia|reflexivity].
    rewrite skip_ws_newline, skip_ws_head by reflexivity. reflexivity.
  - cbn [dict_tail]. rewrite <- !app_assoc. cbn [app].
    rewrite (Hv (S level) f); [|exact Wv|lia|reflexivity].
    rewrite skip_ws_head by reflexivity.
    change (44 =? 125) with false. change (44 =? 44) with true. cbv iota.
    rewrite skip_ws_newline.
    unfold encode_basestring_ascii. cbn [app].
    rewrite skip_ws_head by reflexivity. change (34 =? 34) with true. cbv iota.
    cbn [forallb fst snd] in Wl. apply andb_true_iff in Wl.
    destruct Wl as [Ww Wl]. apply andb_true_iff in Ww. destruct Ww as [Wk' Ww].
    inversion Hl as [|? ? Hw Hl']; subst. cbn [snd] in Hw.
    rewrite <- !app_assoc.
    rewrite (IH k' w f rest Hw Hl' Wk' Ww Wl); [reflexivity|].
    cbn [pairs_fuel]. lia.
Qed.

(** Every well-formed object is read back from its serialisation. *)
Lemma scan_once_iterencode v : reads_back indent v.
Proof.
  induction v as [|b|n|s|l IHl|d IHd] using value_induction;
    intros level fuel rest W Hf Hr;
    (destruct fuel as [|f]; [cbn [fuel_of] in Hf; try lia|]).
  - reflexivity.
  - destruct b; reflexivity.
  - cbn [iterencode]. destruct (int_repr_head n) as (c & t & E & Hc).
    rewrite E. cbn [app]. rewrite (scan_once_number f c _ Hc).
    change (c :: t ++ rest) with ((c :: t) ++ rest). rewrite <- E.
    rewrite (match_integer_repr n rest Hr), (number_end_flags rest Hr). reflexivity.
  - cbn [iterencode wellformed] in *. unfold encode_basestring_ascii.
    rewrite <- !app_assoc. cbn [app]. rewrite scan_once_string.
    now rewrite (scanstring_escaped s rest W).
  - destruct l as [|v lst]; [reflexivity|].
    rewrite iterencode_list. cbn [app]. rewrite scan_once_array.
    rewrite <- !app_assoc, skip_ws_newline, skip_ws_value.
    destruct (iterencode_head indent (S level) v) as (c & t & E & _ & Hc).
    rewrite E. cbn [app]. rewrite Hc.
    change (c :: t ++ ?x) with ((c :: t) ++ x). rewrite <- E.
    rewrite wellformed_list in W. cbn [forallb] in W.
    apply andb_true_iff in W. destruct W as [Wv Wl].
    inversion IHl as [|? ? Hv Hl]; subst.
    rewrite fuel_of_list in Hf. cbn [app].
    rewrite (array_items_reads level lst v f rest Hv Hl Wv Wl); [reflexivity | lia].
  - destruct d as [|[k v] dct]; [reflexivity|].
    rewrite iterencode_dict. cbn [app]. rewrite scan_once_object.
    rewrite <- !app_assoc, skip_ws_newline.
    unfold encode_basestring_ascii. rewrite <- !app_assoc. cbn [app].
    rewrite skip_ws_head by reflexivity. change (34 =? 34) with true. cbv iota.
    rewrite wellformed_dict in W. apply andb_true_iff in W. destruct W as [W Wd].
    cbn [forallb fst snd] in W. apply andb_true_iff in W. destruct W as [W Wl].
    apply andb_true_iff in W. destruct W as [Wk Wv].
    inversion IHd as [|? ? Hv Hl]; subst. cbn [snd] in Hv.
    rewrite fuel_of_dict in Hf.
    pose proof (object_items_reads level dct k v f rest Hv Hl Wk Wv Wl) as R.
    cbn [app] in R. rewrite R by exact (le_S_n _ _ Hf).
    rewrite dict_of_pairs_distinct by exact Wd. reflexivity.
Qed.

End Reading.

Section LoadsDumps.

Variable indent : nat.

Lemma list_tail_length level lst :
  Forall (fun v => forall level, (fuel_of v <= length (iterencode indent level v))%nat) lst ->
  (items_fuel lst <= length (list_tail indent level lst))%nat.
Proof.
  induction 1 as [|w lst Hw _ IH]; cbn [items_fuel list_tail]; [lia|].
  rewrite !length_app. cbn [length]. specialize (Hw (S level)). lia.
Qed.

Lemma dict_tail_length level dct :
  Forall (fun kv => forall level,
            (fuel_of (snd kv) <= length (iterencode indent level (snd kv)))%nat) dct ->
  (pairs_fuel dct <= length (dict_tail indent level dct))%nat.
Proof.
  induction 1 as [|[k w] dct Hw _ IH]; cbn [pairs_fuel dict_tail]; [lia|].
  rewrite !length_app. cbn [length]. specialize (Hw (S level)). cbn [snd] in Hw. lia.
Qed.

(** The scanner never needs more calls than the text has characters. *)
Lemma fuel_of_length v :
  forall level, (fuel_of v <= length (iterencode indent level v))%nat.
Proof.
  induction v as [|b|n|s|l IHl|d IHd] using value_induction; intros level.
  - cbn. lia.
  - destruct b; cbn; lia.
  - cbn [fuel_of iterencode]. destruct (int_repr_head n) as (c & t & E & _).
    rewrite E. cbn [length]. lia.
  - cbn [fuel_of iterencode]. unfold encode_basestring_ascii.
    rewrite !length_app. cbn [length]. lia.
  - destruct l as [|v lst]; [cbn; lia|].
    rewrite iterencode_list, fuel_of_list. cbn [items_fuel length].
    rewrite !length_app. cbn [length]. inversion IHl as [|? ? Hv Hl]; subst.
    pose proof (list_tail_length level lst Hl). specialize (Hv (S level)). lia.
  - destruct d as [|[k v] dct]; [cbn; lia|].
    rewrite iterencode_dict, fuel_of_dict. cbn [pairs_fuel length].
    rewrite !length_app. cbn [length]. inversion IHd as [|? ? Hv Hl]; subst. cbn [snd] in Hv.
    pose proof (dict_tail_length level dct Hl). specialize (Hv (S level)). lia.
Qed.

(** [json.loads(json.dumps(v, indent=n))] is [v], for every well-formed
    [v] and every [n]. *)
Lemma loads_dumps v :
  wellformed v = true -> loads (dumps v indent) = Some v.
Proof.
  intros W. unfold loads, decode, dumps.
  pose proof (skip_ws_value indent 0 v []) as E. rewrite app_nil_r in E.
  rewrite E.
  pose proof (scan_once_iterencode indent v 0%nat
                (2 * length (iterencode indent 0 v) + 2)%nat [] W) as R.
  rewrite app_nil_r in R. rewrite R; [reflexivity| |reflexivity].
  pose proof (fuel_of_length v 0%nat). lia.
Qed.

End LoadsDumps.

(** ** The result normaliser *)

Section Normaliser.

Variable dispatch : Dispatcher.
Variables (method : HttpMethod) (path : str) (body : value).

Let resp : DispatchResponse :=
  dispatch (lit "google-sheets-mcp") (HttpRequest.mk method path body).


Lemma req_success r :
  success resp = true -> response resp = Some r ->
  run dispatch (_req method path body)
  = Ok [ {| type := lit "text";
            text := dumps (py_or (HttpResponse.body r) (JDict [])) 2 |} ].
Proof.
  intros Hs Hr. unfold _req. cbn [run]. fold resp. now rewrite Hs, Hr.
Qed.

Lemma req_success_no_response :
  success resp = true -> response resp = None ->
  run dispatch (_req method path body) = Err AttributeError.
Proof.
  intros Hs Hr. unfold _req. cbn [run]. fold resp. now rewrite Hs, Hr.
Qed.

Lemma req_failure :
  success resp = false ->
  run dispatch (_req method path body)
  = Ok [ {| type := lit "text";
            text := dumps (JDict [(lit "error",
                                   match error resp with
                                   | Some e => JStr (message e)
                                   | None => JStr (lit "Request failed")
                                   end)]) 2 |} ].
Proof.
  intros Hs. unfold _req. cbn [run]. fold resp. now rewrite Hs.
Qed.

End Normaliser.

(** A failure that carries a message yields [{"error": message}], which
    parses back when the message is text of Unicode scalar values. *)
Lemma req_failure_message (dispatch : Dispatcher) (method : HttpMethod)
  (path : str) (body : value) (e : DispatchError) :
  success (dispatch (lit "google-sheets-mcp") (HttpRequest.mk method path body)) = false ->
  error (dispatch (lit "google-sheets-mcp") (HttpRequest.mk method path body)) = Some e ->
  forallb is_scalar (message e) = true ->
  exists t,
    run dispatch (_req method path body) = Ok [ {| type := lit "text"; text := t |} ]
    /\ loads t = Some (JDict [(lit "error", JStr (message e))]).
Proof.
  intros Hs He Hm. rewrite (req_failure _ _ _ _ Hs), He.
  eexists. split; [reflexivity|]. apply loads_dumps.
  cbn [wellformed map fst distinct existsb negb andb forallb].
  rewrite Hm. reflexivity.
Qed.

(** What a falsy object other than [None] and [{}] serialises to is not
    [{}]. *)
Lemma falsy_dumps b :
  truthy b = false -> b <> JNull -> b <> JDict [] -> dumps b 2 <> lit "{}".
Proof.
  intros Ht Hn Hd. destruct b as [|[|]|n|s|l|d].
  - congruence.
  - discriminate.
  - discriminate.
  - simpl in Ht. apply negb_false_iff, Z.eqb_eq in Ht. subst. discriminate.
  - destruct s; discriminate.
  - destruct l; discriminate.
  - destruct d; [congruence | discriminate].
Qed.

(** C3.  When the dispatcher reports failure and supplies no error, the
    result is one text item whose text parses to exactly
    [{"error": "Request failed"}]. *)
Theorem req_failure_fallback (dispatch : Dispatcher) (method : HttpMethod)
  (path : str) (body : value) :
  success (dispatch (lit "google-sheets-mcp") (HttpRequest.mk method path body)) = false ->
  error (dispatch (lit "google-sheets-mcp") (HttpRequest.mk method path body)) = None ->
  exists t,
    run dispatch (_req method path body) = Ok [ {| type := lit "text"; text := t |} ]
    /\ t = request_failed_text
    /\ loads t = Some (JDict [(lit "error", JStr (lit "Request failed"))]).
Proof.
  intros Hs He. rewrite (req_failure _ _ _ _ Hs), He.
  eexists. split; [reflexivity|]. split; vm_compute; reflexivity.
Qed.

Lemma req_failure_fallback_witness :
  exists t,
    run (fun _ _ => {| success := false; response := None; error := None |})
      (_req GET (lit "/v4/spreadsheets/abc123") JNull)
    = Ok [ {| type := lit "text"; text := t |} ]
    /\ t = request_failed_text
    /\ loads t = Some (JDict [(lit "error", JStr (lit "Request failed"))]).
Proof.
  apply (req_failure_fallback
           (fun _ _ => {| success := false; response := None; error := None |})
           GET (lit "/v4/spreadsheets/abc123") JNull); reflexivity.
Defined.

(** C10.  On a success whose response body is falsy ([None], [false], [0],
    the empty string, list or dict) the text is exactly [{}], which for a
    body that is present and not the empty dict is not its serialisation;
    a truthy body is serialised as it is. *)
Theorem req_falsy_body (dispatch : Dispatcher) (method : HttpMethod)
  (path : str) (body : value) (r : HttpResponse.t) :
  success (dispatch (lit "google-sheets-mcp") (HttpRequest.mk method path body)) = true ->
  response (dispatch (lit "google-sheets-mcp") (HttpRequest.mk method path body)) = Some r ->
  (truthy (HttpResponse.body r) = false ->
   run dispatch (_req method path body)
   = Ok [ {| type := lit "text"; text := lit "{}" |} ]
   /\ (HttpResponse.body r <> JNull -> HttpResponse.body r <> JDict [] ->
       dumps (HttpResponse.body r) 2 <> lit "{}"))
  /\ (truthy (HttpResponse.body r) = true ->
      run dispatch (_req method path body)
      = Ok [ {| type := lit "text"; text := dumps (HttpResponse.body r) 2 |} ]).
Proof.
  intros Hs Hr. rewrite (req_success _ _ _ _ r Hs Hr). unfold py_or.
  split; intros Ht; rewrite Ht; [|reflexivity].
  split; [reflexivity|]. now apply falsy_dumps.
Qed.

Lemma req_falsy_body_witness :
  run (fun _ _ => {| success := true;
                     response := Some (HttpResponse.mk (JList []));
                     error := None |})
    (_req GET (lit "/v4/spreadsheets/abc123") JNull)
  = Ok [ {| type := lit "text"; text := lit "{}" |} ]
  /\ dumps (JList []) 2 <> lit "{}".
Proof.
  destruct (req_falsy_body
              (fun _ _ => {| success := true;
                             response := Some (HttpResponse.mk (JList []));
                             error := None |})
              GET (lit "/v4/spreadsheets/abc123") JNull (HttpResponse.mk (JList []))
              eq_refl eq_refl) as [H _].
  destruct (H eq_refl) as [H1 H2]. split; [exact H1|].
  apply H2; discriminate.
Defined.

(** C4 (amended).  On a success the text is the two-space-indented
    serialisation of the response body when the body is truthy, and of the
    empty object when it is absent or falsy.  The text of a truthy body
    parses back to that body (for text of Unicode scalar values and dicts
    without repeated keys); for the body [{"values": [["x"]]}] the text is
    exactly the seven lines of the spec and parses back to that body. *)
Theorem req_success_envelope (dispatch : Dispatcher) (method : HttpMethod)
  (path : str) (body : value) (r : HttpResponse.t) :
  success (dispatch (lit "google-sheets-mcp") (HttpRequest.mk method path body)) = true ->
  response (dispatch (lit "google-sheets-mcp") (HttpRequest.mk method path body)) = Some r ->
  exists t,
    run dispatch (_req method path body) = Ok [ {| type := lit "text"; text := t |} ]
    /\ t = dumps (if truthy (HttpResponse.body r) then HttpResponse.body r else JDict []) 2
    /\ (HttpResponse.body r = JNull -> t = lit "{}" /\ loads t = Some (JDict []))
    /\ (truthy (HttpResponse.body r) = true -> wellformed (HttpResponse.body r) = true ->
        loads t = Some (HttpResponse.body r))
    /\ (HttpResponse.body r = values_x ->
        t = values_x_text /\ loads t = Some (HttpResponse.body r)).
Proof.
  intros Hs Hr. rewrite (req_success _ _ _ _ r Hs Hr). unfold py_or.
  eexists. split; [reflexivity|]. split; [reflexivity|].
  split; [|split].
  - intros ->. split; vm_compute; reflexivity.
  - intros Ht W. rewrite Ht. now apply loads_dumps.
  - intros ->. split; vm_compute; reflexivity.
Qed.

Lemma req_success_envelope_witness :
  exists t,
    run (fun _ _ => {| success := true;
                       response := Some (HttpResponse.mk values_x);
                       error := None |})
      (_req GET (lit "/v4/spreadsheets/abc123/values/A1") JNull)
    = Ok [ {| type := lit "text"; text := t |} ]
    /\ t = values_x_text /\ loads t = Some values_x.
Proof.
  destruct (req_success_envelope
              (fun _ _ => {| success := true;
                             response := Some (HttpResponse.mk values_x);
                             error := None |})
              GET (lit "/v4/spreadsheets/abc123/values/A1") JNull
              (HttpResponse.mk values_x) eq_refl eq_refl) as (t & E & _ & _ & _ & H).
  exists t. split; [exact E | exact (H eq_refl)].
Defined.

(** C4 as stated fails on a body that is present and falsy: for the empty
    list the text is [{}], not the serialisation [[]] of the body, and it
    parses to the empty object, not to the body. *)
Lemma req_success_empty_list_body :
  let dispatch : Dispatcher :=
    fun _ _ => {| success := true;
                  response := Some (HttpResponse.mk (JList []));
                  error := None |} in
  run dispatch (_req GET (lit "/v4/spreadsheets/abc123/values/A1") JNull)
  = Ok [ {| type := lit "text"; text := lit "{}" |} ]
  /\ dumps (JList []) 2 = lit "[]"
  /\ lit "{}" <> dumps (JList []) 2
  /\ loads (lit "{}") = Some (JDict [])
  /\ loads (lit "{}") <> Some (JList []).
Proof.
  cbv zeta. split; [reflexivity|]. split; [reflexivity|].
  split; [discriminate|]. split; [vm_compute; reflexivity|].
  vm_compute. discriminate.
Qed.

(** * Further properties *)

(** ** The encoder, character by character *)

Section EncoderChars.

Lemma encoded_char_unencoded c : unencoded c = true -> encoded_char c = [c].
Proof.
  intros H. pose proof (unencoded_ascii c H) as Hr. unfold encoded_char, utf8_char.
  replace (is_scalar c) with true.
  2:{ symmetry. unfold is_scalar, is_surrogate. rewrite !andb_true_iff, negb_true_iff.
      rewrite andb_false_iff, !Z.leb_le, Z.leb_gt. lia. }
  cbn [negb]. replace (c <? 128) with true by (symmetry; apply Z.ltb_lt; lia).
  cbn [flat_map app]. unfold Urllib.quoter. unfold unencoded in H. now rewrite H.
Qed.

(** On strings of scalar values the encoder works character by
    character. *)
Lemma encode_range_chars s :
  forallb is_scalar s = true -> _encode_range s = Ok (flat_map encoded_char s).
Proof.
  intros Hs. destruct (forallb unencoded s) eqn:Hu.
  - rewrite (encode_range_unencoded s Hu). f_equal.
    clear Hs. induction s as [|c s IH]; [reflexivity|].
    cbn [forallb] in Hu. apply andb_true_iff in Hu. destruct Hu as [Hc Hu].
    cbn [flat_map]. rewrite (encoded_char_unencoded c Hc), <- (IH Hu). reflexivity.
  - exact (encode_range_quoted s Hs Hu).
Qed.

Lemma encode_range_ok_scalar s out :
  _encode_range s = Ok out -> forallb is_scalar s = true.
Proof.
  intros E. destruct (forallb is_scalar s) eqn:Hs; [reflexivity|].
  rewrite (encode_range_not_scalar s Hs) in E. discriminate.
Qed.

Lemma encode_range_ok_chars s out :
  _encode_range s = Ok out -> out = flat_map encoded_char s.
Proof.
  intros E. pose proof (encode_range_chars s (encode_range_ok_scalar s out E)) as E'.
  congruence.
Qed.

End EncoderChars.

(** ** UTF-8 and percent-decoding read the encoding back *)

Section Utf8.

(** The bit operations of the codec, as arithmetic. *)
Lemma lor_base m k x :
  0 <= k -> 0 <= x < 2 ^ k -> Z.lor (m * 2 ^ k) x = m * 2 ^ k + x.
Proof.
  intros Hk Hx. rewrite <- (Z.shiftl_mul_pow2 m k Hk).
  now rewrite lor_shiftl_add, Z.shiftl_mul_pow2.
Qed.

Lemma land_low x k : 0 <= k -> Z.land x (2 ^ k - 1) = x mod 2 ^ k.
Proof.
  intros Hk. rewrite <- Z.land_ones by assumption. f_equal.
  rewrite Z.ones_equiv. lia.
Qed.

(** The bytes of a scalar value, by range. *)
Lemma utf8_char_bytes c :
  is_scalar c = true ->
  utf8_char c
  = Some (if c <? 128 then [c]
          else if c <? 2048 then [192 + c / 64; 128 + c mod 64]
          else if c <? 65536 then
            [224 + c / 4096; 128 + (c / 64) mod 64; 128 + c mod 64]
          else [240 + c / 262144; 128 + (c / 4096) mod 64;
                128 + (c / 64) mod 64; 128 + c mod 64]).
Proof.
  intros Hs. destruct (is_scalar_range c Hs) as [Hr _].
  unfold utf8_char. rewrite Hs. cbn [negb].
  rewrite !Z.shiftr_div_pow2 by lia.
  change 63 with (2 ^ 6 - 1). rewrite !land_low by lia.
  change (2 ^ 6) with 64. change (2 ^ 12) with 4096. change (2 ^ 18) with 262144.
  destruct (c <? 128) eqn:E1; [reflexivity|]. apply Z.ltb_ge in E1.
  destruct (c <? 2048) eqn:E2; [apply Z.ltb_lt in E2|apply Z.ltb_ge in E2].
  { change 192 with (6 * 2 ^ 5). change 128 with (2 * 2 ^ 6).
    rewrite !lor_base; [reflexivity| | | |]; try lia;
      change (2 ^ 6) with 64; change (2 ^ 5) with 32; Z.div_mod_to_equations; lia. }
  destruct (c <? 65536) eqn:E3; [apply Z.ltb_lt in E3|apply Z.ltb_ge in E3].
  { change 224 with (14 * 2 ^ 4). change 128 with (2 * 2 ^ 6).
    rewrite !lor_base; [reflexivity| | | | | |]; try lia;
      change (2 ^ 6) with 64; change (2 ^ 4) with 16; Z.div_mod_to_equations; lia. }
  change 240 with (30 * 2 ^ 3). change 128 with (2 * 2 ^ 6).
  rewrite !lor_base; [reflexivity| | | | | | | |]; try lia;
    change (2 ^ 6) with 64; change (2 ^ 3) with 8; Z.div_mod_to_equations; lia.
Qed.

Lemma shiftl_lor_low a b k :
  0 <= k -> 0 <= b < 2 ^ k -> Z.lor (Z.shiftl a k) b = a * 2 ^ k + b.
Proof. intros. now apply lor_shiftl_add. Qed.

(** Decoding the bytes of one scalar value gives it back. *)
Lemma utf8_decode_char c rest :
  is_scalar c = true ->
  exists bs, utf8_char c = Some bs
    /\ utf8_decode (bs ++ rest) = option_map (cons c) (utf8_decode rest)
    /\ Forall (fun b => 0 <= b < 256) bs
    /\ (1 <= length bs <= 4)%nat.
Proof.
  intros Hs. destruct (is_scalar_range c Hs) as [Hr Hn].
  eexists. split; [apply (utf8_char_bytes c Hs)|].
  destruct (c <? 128) eqn:E1; [apply Z.ltb_lt in E1|apply Z.ltb_ge in E1].
  { split; [|split; [repeat constructor; lia | cbn; lia]].
    cbn [app utf8_decode].
    replace (0 <=? c) with true by (symmetry; apply Z.leb_le; lia).
    replace (c <? 128) with true by (symmetry; apply Z.ltb_lt; lia).
    reflexivity. }
  destruct (c <? 2048) eqn:E2; [apply Z.ltb_lt in E2|apply Z.ltb_ge in E2].
  { assert (B0 : 194 <= 192 + c / 64 < 224) by (Z.div_mod_to_equations; lia).
    assert (B1 : 128 <= 128 + c mod 64 <= 191) by (Z.div_mod_to_equations; lia).
    split; [|split; [repeat constructor; lia | cbn; lia]].
    cbn [app utf8_decode].
    replace (192 + c / 64 <? 128) with false by (symmetry; apply Z.ltb_ge; lia).
    rewrite andb_false_r.
    replace (194 <=? 192 + c / 64) with true by (symmetry; apply Z.leb_le; lia).
    replace (192 + c / 64 <? 224) with true by (symmetry; apply Z.ltb_lt; lia).
    cbn [andb]. unfold is_cont.
    replace (128 <=? 128 + c mod 64) with true by (symmetry; apply Z.leb_le; lia).
    replace (128 + c mod 64 <=? 191) with true by (symmetry; apply Z.leb_le; lia).
    cbn [andb].
    replace (Z.lor (Z.shiftl (Z.land (192 + c / 64) 31) 6) (Z.land (128 + c mod 64) 63))
      with c; [reflexivity|].
    change 31 with (2 ^ 5 - 1). change 63 with (2 ^ 6 - 1). rewrite !land_low by lia.
    change (2 ^ 5) with 32. change (2 ^ 6) with 64.
    rewrite shiftl_lor_low by (change (2 ^ 6) with 64; try lia; Z.div_mod_to_equations; lia).
    change (2 ^ 6) with 64. Z.div_mod_to_equations; lia. }
  destruct (c <? 65536) eqn:E3; [apply Z.ltb_lt in E3|apply Z.ltb_ge in E3].
  { assert (B0 : 224 <= 224 + c / 4096 < 240) by (Z.div_mod_to_equations; lia).
    assert (B1 : 128 <= 128 + (c / 64) mod 64 <= 191) by (Z.div_mod_to_equations; lia).
    assert (B2 : 128 <= 128 + c mod 64 <= 191) by (Z.div_mod_to_equations; lia).
    split; [|split; [repeat constructor; lia | cbn; lia]].
    cbn [app utf8_decode].
    replace (224 + c / 4096 <? 128) with false by (symmetry; apply Z.ltb_ge; lia).
    rewrite andb_false_r.
    replace (224 + c / 4096 <? 224) with false by (symmetry; apply Z.ltb_ge; lia).
    rewrite andb_false_r.
    replace (224 <=? 224 + c / 4096) with true by (symmetry; apply Z.leb_le; lia).
    replace (224 + c / 4096 <? 240) with true by (symmetry; apply Z.ltb_lt; lia).
    cbn [andb]. unfold is_cont.
    replace (128 <=? 128 + (c / 64) mod 64) with true by (symmetry; apply Z.leb_le; lia).
    replace (128 + (c / 64) mod 64 <=? 191) with true by (symmetry; apply Z.leb_le; lia).
    replace (128 <=? 128 + c mod 64) with true by (symmetry; apply Z.leb_le; lia).
    replace (128 + c mod 64 <=? 191) with true by (symmetry; apply Z.leb_le; lia).
    cbn [andb].
    replace (Z.lor (Z.shiftl (Z.land (224 + c / 4096) 15) 12)
               (Z.lor (Z.shiftl (Z.land (128 + (c / 64) mod 64) 63) 6)
                  (Z.land (128 + c mod 64) 63))) with c.
    - replace (2048 <=? c) with true by (symmetry; apply Z.leb_le; lia).
      unfold is_scalar in Hs. apply andb_true_iff in Hs. destruct Hs as [_ Hs].
      rewrite Hs. reflexivity.
    - change 15 with (2 ^ 4 - 1). change 63 with (2 ^ 6 - 1). rewrite !land_low by lia.
      change (2 ^ 4) with 16. change (2 ^ 6) with 64.
      rewrite (shiftl_lor_low _ _ 6)
        by (change (2 ^ 6) with 64; try lia; Z.div_mod_to_equations; lia).
      rewrite (shiftl_lor_low _ _ 12)
        by (change (2 ^ 6) with 64; change (2 ^ 12) with 4096; try lia;
            Z.div_mod_to_equations; lia).
      change (2 ^ 6) with 64. change (2 ^ 12) with 4096. Z.div_mod_to_equations; lia. }
  assert (B0 : 240 <= 240 + c / 262144 < 245) by (Z.div_mod_to_equations; lia).
  assert (B1 : 128 <= 128 + (c / 4096) mod 64 <= 191) by (Z.div_mod_to_equations; lia).
  assert (B2 : 128 <= 128 + (c / 64) mod 64 <= 191) by (Z.div_mod_to_equations; lia).
  assert (B3 : 128 <= 128 + c mod 64 <= 191) by (Z.div_mod_to_equations; lia).
  split; [|split; [repeat constructor; lia | cbn; lia]].
  cbn [app utf8_decode].
  replace (240 + c / 262144 <? 128) with false by (symmetry; apply Z.ltb_ge; lia).
  rewrite andb_false_r.
  replace (240 + c / 262144 <? 224) with false by (symmetry; apply Z.ltb_ge; lia).
  rewrite andb_false_r.
  replace (240 + c / 262144 <? 240) with false by (symmetry; apply Z.ltb_ge; lia).
  rewrite andb_false_r.
  replace (240 <=? 240 + c / 262144) with true by (symmetry; apply Z.leb_le; lia).
  replace (240 + c / 262144 <? 245) with true by (symmetry; apply Z.ltb_lt; lia).
  cbn [andb]. unfold is_cont.
  replace (128 <=? 128 + (c / 4096) mod 64) with true by (symmetry; apply Z.leb_le; lia).
  replace (128 + (c / 4096) mod 64 <=? 191) with true by (symmetry; apply Z.leb_le; lia).
  replace (128 <=? 128 + (c / 64) mod 64) with true by (symmetry; apply Z.leb_le; lia).
  replace (128 + (c / 64) mod 64 <=? 191) with true by (symmetry; apply Z.leb_le; lia).
  replace (128 <=? 128 + c mod 64) with true by (symmetry; apply Z.leb_le; lia).
  replace (128 + c mod 64 <=? 191) with true by (symmetry; apply Z.leb_le; lia).
  cbn [andb].
  replace (Z.lor (Z.shiftl (Z.land (240 + c / 262144) 7) 18)
             (Z.lor (Z.shiftl (Z.land (128 + (c / 4096) mod 64) 63) 12)
                (Z.lor (Z.shiftl (Z.land (128 + (c / 64) mod 64) 63) 6)
                   (Z.land (128 + c mod 64) 63)))) with c.
  - replace (65536 <=? c) with true by (symmetry; apply Z.leb_le; lia).
    replace (c <=? 1114111) with true by (symmetry; apply Z.leb_le; lia).
    reflexivity.
  - change 7 with (2 ^ 3 - 1). change 63 with (2 ^ 6 - 1). rewrite !land_low by lia.
    change (2 ^ 3) with 8. change (2 ^ 6) with 64.
    rewrite (shiftl_lor_low _ _ 6)
      by (change (2 ^ 6) with 64; try lia; Z.div_mod_to_equations; lia).
    rewrite (shiftl_lor_low _ _ 12)
      by (change (2 ^ 6) with 64; change (2 ^ 12) with 4096; try lia;
          Z.div_mod_to_equations; lia).
    rewrite (shiftl_lor_low _ _ 18)
      by (change (2 ^ 6) with 64; change (2 ^ 12) with 4096;
          change (2 ^ 18) with 262144; try lia; Z.div_mod_to_equations; lia).
    change (2 ^ 6) with 64. change (2 ^ 12) with 4096. change (2 ^ 18) with 262144.
    Z.div_mod_to_equations; lia.
Qed.

End Utf8.

Section PercentDecoding.

Let safe : str := lit "!:$'(),-._~".
Let utf8_of (c : Z) : bytes := match utf8_char c with Some bs => bs | None => [] end.

Lemma hex_value_upper d : 0 <= d < 16 -> hex_value (Urllib.hex_upper d) = Some d.
Proof.
  intros H.
  assert (E : d = 0 \/ d = 1 \/ d = 2 \/ d = 3 \/ d = 4 \/ d = 5 \/ d = 6 \/ d = 7
              \/ d = 8 \/ d = 9 \/ d = 10 \/ d = 11 \/ d = 12 \/ d = 13 \/ d = 14
              \/ d = 15) by lia.
  repeat (destruct E as [-> | E]; [reflexivity|]). subst. reflexivity.
Qed.

Lemma percent_decode_quoter b rest :
  0 <= b < 256 ->
  percent_decode (Urllib.quoter safe b ++ rest) = b :: percent_decode rest.
Proof.
  intros Hb. unfold Urllib.quoter.
  destruct (memb b (Urllib._ALWAYS_SAFE ++ safe)) eqn:E.
  - cbn [app percent_decode].
    destruct (b =? 37) eqn:E'; [|reflexivity].
    apply Z.eqb_eq in E'. subst. discriminate.
  - unfold Urllib.format_02X. cbn [app percent_decode].
    change (37 =? 37) with true. cbv iota.
    assert (H4 : 0 <= Z.shiftr b 4 < 16).
    { rewrite Z.shiftr_div_pow2 by lia. change (2 ^ 4) with 16.
      Z.div_mod_to_equations; lia. }
    assert (H0 : 0 <= Z.land b 15 < 16) by apply nibble_range.
    rewrite (hex_value_upper _ H4), (hex_value_upper _ H0). f_equal.
    rewrite Z.shiftr_div_pow2 by lia. change 15 with (Z.ones 4).
    rewrite Z.land_ones by lia. change (2 ^ 4) with 16.
    Z.div_mod_to_equations; lia.
Qed.

Lemma percent_decode_quoted bs :
  Forall (fun b => 0 <= b < 256) bs ->
  percent_decode (flat_map (Urllib.quoter safe) bs) = bs.
Proof.
  induction 1 as [|b bs Hb _ IH]; [reflexivity|].
  cbn [flat_map]. now rewrite (percent_decode_quoter b _ Hb), IH.
Qed.

Lemma utf8_of_bytes s :
  forallb is_scalar s = true ->
  Forall (fun b => 0 <= b < 256) (flat_map utf8_of s)
  /\ utf8_decode (flat_map utf8_of s) = Some s
  /\ (length s <= length (flat_map utf8_of s) <= 4 * length s)%nat.
Proof.
  induction s as [|c s IH].
  { intros _. split; [constructor|]. split; [reflexivity | cbn [flat_map length]; lia]. }
  cbn [forallb]. rewrite andb_true_iff. intros [Hc Hs].
  destruct (IH Hs) as (IH1 & IH2 & IH3).
  destruct (utf8_decode_char c (flat_map utf8_of s) Hc) as (bs & E & D & B & L).
  assert (Ec : utf8_of c = bs) by (unfold utf8_of; now rewrite E).
  cbn [flat_map]. rewrite Ec. split; [|split].
  - apply Forall_app. now split.
  - rewrite D, IH2. reflexivity.
  - rewrite length_app. cbn [length]. lia.
Qed.

Lemma encoded_chars_quoted s :
  flat_map encoded_char s = flat_map (Urllib.quoter safe) (flat_map utf8_of s).
Proof.
  induction s as [|c s IH]; [reflexivity|].
  cbn [flat_map]. rewrite flat_map_app, IH. reflexivity.
Qed.

(** Percent-decoding and UTF-8 decoding undo the encoder. *)
Lemma encode_range_decoded s out :
  _encode_range s = Ok out -> utf8_decode (percent_decode out) = Some s.
Proof.
  intros E. pose proof (encode_range_ok_scalar s out E) as Hs.
  rewrite (encode_range_ok_chars s out E), encoded_chars_quoted.
  destruct (utf8_of_bytes s Hs) as (B & D & _).
  now rewrite (percent_decode_quoted _ B).
Qed.

Lemma quoter_length_3 b : (1 <= length (Urllib.quoter safe b) <= 3)%nat.
Proof. unfold Urllib.quoter. destruct (memb _ _); cbn; lia. Qed.

Lemma quoted_length_3 bs :
  (length bs <= length (flat_map (Urllib.quoter safe) bs) <= 3 * length bs)%nat.
Proof.
  induction bs as [|b bs IH]; [cbn; lia|].
  cbn [flat_map length]. rewrite length_app. pose proof (quoter_length_3 b). lia.
Qed.

(** The output is never shorter than the input and at most twelve times as
    long: four bytes per character, three characters per byte. *)
Lemma encode_range_length s out :
  _encode_range s = Ok out -> (length s <= length out <= 12 * length s)%nat.
Proof.
  intros E. pose proof (encode_range_ok_scalar s out E) as Hs.
  rewrite (encode_range_ok_chars s out E), encoded_chars_quoted.
  destruct (utf8_of_bytes s Hs) as (_ & _ & L).
  pose proof (quoted_length_3 (flat_map utf8_of s)). lia.
Qed.

Lemma unencoded_visible d : unencoded d = true -> 0x21 <= d <= 0x7E.
Proof.
  unfold unencoded. rewrite memb_In.
  assert (H : Forall (fun c => 0x21 <= c <= 0x7E)
                (Urllib._ALWAYS_SAFE ++ lit "!:$'(),-._~")).
  { vm_compute app. repeat constructor; lia. }
  rewrite Forall_forall in H. apply H.
Qed.

Lemma encode_range_visible s out :
  _encode_range s = Ok out -> Forall (fun d => 0x21 <= d <= 0x7E) out.
Proof.
  intros E. rewrite (encode_range_ok_chars s out E).
  pose proof (quoted_chars s) as H. unfold encoded_char.
  eapply Forall_impl; [|exact H]. intros d [-> | Hd]; [lia|].
  now apply unencoded_visible.
Qed.

(** When something has to be encoded, the output holds a percent sign. *)
Lemma encode_range_percent s out :
  _encode_range s = Ok out -> forallb unencoded s = false -> In 0x25 out.
Proof.
  intros E Hu. pose proof (encode_range_ok_scalar s out E) as Hs.
  rewrite (encode_range_ok_chars s out E), encoded_chars_quoted.
  pose proof (bytes_not_all_unencoded s Hs Hu) as Hb. fold utf8_of in Hb.
  induction (flat_map utf8_of s) as [|b bs IH]; [discriminate|].
  cbn [forallb] in Hb. cbn [flat_map]. apply in_or_app.
  destruct (memb b (Urllib._ALWAYS_SAFE ++ lit "!:$'(),-._~")) eqn:Eb.
  - right. apply IH. exact Hb.
  - left. unfold Urllib.quoter, safe. rewrite Eb. now left.
Qed.

End PercentDecoding.

(** ** What the encoder guarantees *)

(** X1.  Nothing is lost in the encoding: percent-decoding the output and
    reading the bytes as UTF-8 gives the input back, so two different
    ranges never have the same encoding. *)
Theorem encode_range_round_trip (s out : str) :
  _encode_range s = Ok out ->
  utf8_decode (percent_decode out) = Some s
  /\ forall s', _encode_range s' = Ok out -> s' = s.
Proof.
  intros E. split; [now apply encode_range_decoded|].
  intros s' E'. apply encode_range_decoded in E, E'. congruence.
Qed.

Lemma encode_range_round_trip_witness :
  utf8_decode (percent_decode (lit "My%20Sheet%C3%A9!A1")) = Some (lit "My Sheet" ++ [0xE9] ++ lit "!A1")
  /\ forall s', _encode_range s' = Ok (lit "My%20Sheet%C3%A9!A1") ->
       s' = lit "My Sheet" ++ [0xE9] ++ lit "!A1".
Proof.
  apply (encode_range_round_trip (lit "My Sheet" ++ [0xE9] ++ lit "!A1")).
  vm_compute. reflexivity.
Defined.

(** X2.  The encoder distributes over concatenation: encoding two strings
    and joining the results is encoding the joined string. *)
Theorem encode_range_concat (a b oa ob : str) :
  _encode_range a = Ok oa -> _encode_range b = Ok ob ->
  _encode_range (a ++ b) = Ok (oa ++ ob).
Proof.
  intros Ea Eb.
  rewrite (encode_range_ok_chars a oa Ea), (encode_range_ok_chars b ob Eb).
  rewrite <- flat_map_app. apply encode_range_chars.
  rewrite forallb_app, (encode_range_ok_scalar a oa Ea), (encode_range_ok_scalar b ob Eb).
  reflexivity.
Qed.

Lemma encode_range_concat_witness :
  _encode_range (lit "My Sheet" ++ lit "!A1:B2") = Ok (lit "My%20Sheet" ++ lit "!A1:B2").
Proof.
  apply (encode_range_concat (lit "My Sheet") (lit "!A1:B2")); vm_compute; reflexivity.
Defined.

(** X3.  What the encoder returns is made of visible ASCII characters only
    (no space, no control character, nothing above [~]); it is never shorter
    than the input and at most twelve times as long. *)
Theorem encode_range_size (s out : str) :
  _encode_range s = Ok out ->
  Forall (fun d => 0x21 <= d <= 0x7E) out
  /\ (length s <= length out <= 12 * length s)%nat.
Proof.
  intros E. split; [now apply (encode_range_visible s) | now apply encode_range_length].
Qed.

Lemma encode_range_size_witness :
  Forall (fun d => 0x21 <= d <= 0x7E) (lit "%F0%9F%98%80")
  /\ (length ([0x1F600]%Z : str) <= length (lit "%F0%9F%98%80")
      <= 12 * length ([0x1F600]%Z : str))%nat.
Proof.
  apply (encode_range_size [0x1F600]). vm_compute. reflexivity.
Defined.

(** X4.  The encoder raises exactly on the strings that hold something
    other than a Unicode scalar value (a lone surrogate), and then it raises
    [UnicodeEncodeError]; it raises nothing else. *)
Theorem encode_range_raises (s : str) :
  (forallb is_scalar s = false <-> _encode_range s = Err UnicodeEncodeError)
  /\ (forallb is_scalar s = true <-> exists out, _encode_range s = Ok out)
  /\ forall e, _encode_range s = Err e -> e = UnicodeEncodeError.
Proof.
  destruct (forallb is_scalar s) eqn:Hs.
  - rewrite (encode_range_chars s Hs). split; [|split].
    + split; discriminate.
    + split; [intros _; eexists; reflexivity | reflexivity].
    + discriminate.
  - rewrite (encode_range_not_scalar s Hs). split; [|split].
    + split; reflexivity.
    + split; [discriminate | intros [out E]; discriminate].
    + intros e E. congruence.
Qed.

Lemma encode_range_raises_witness :
  _encode_range (lit "A1:" ++ [0xDFFF]) = Err UnicodeEncodeError.
Proof.
  apply (proj1 (proj1 (encode_range_raises (lit "A1:" ++ [0xDFFF])))). reflexivity.
Defined.

(** X5.  Encoding is not idempotent: encoding an output again returns it
    unchanged only when the first encoding had nothing to encode; otherwise
    the percent signs are encoded in turn and the text grows. *)
Theorem encode_range_twice (s out : str) :
  _encode_range s = Ok out ->
  exists out2, _encode_range out = Ok out2
    /\ (out2 = out <-> forallb unencoded s = true)
    /\ (forallb unencoded s = false -> (length out < length out2)%nat).
Proof.
  intros E.
  assert (Hs : forallb is_scalar out = true).
  { apply forallb_forall. intros d Hd.
    pose proof (encode_range_visible s out E) as V. rewrite Forall_forall in V.
    specialize (V d Hd). unfold is_scalar, is_surrogate.
    rewrite !andb_true_iff, negb_true_iff, andb_false_iff, !Z.leb_le, Z.leb_gt. lia. }
  destruct (encode_range_scalar out Hs) as (out2 & E2 & _ & L2).
  exists out2. split; [exact E2|].
  destruct (forallb unencoded s) eqn:Hu.
  - rewrite (encode_range_unencoded s Hu) in E. injection E as <-.
    rewrite (encode_range_unencoded s Hu) in E2. injection E2 as <-.
    split; [tauto | discriminate].
  - assert (Hp : forallb unencoded out = false).
    { pose proof (encode_range_percent s out E Hu) as Hp.
      destruct (forallb unencoded out) eqn:Ho; [|reflexivity].
      rewrite forallb_forall in Ho. specialize (Ho _ Hp). discriminate. }
    specialize (L2 Hp). split; [|intros _; exact L2].
    split; [intros ->; lia | discriminate].
Qed.

Lemma encode_range_twice_witness :
  exists out2, _encode_range (lit "Sheet%201") = Ok out2
    /\ (out2 = lit "Sheet%201" <-> forallb unencoded (lit "Sheet 1") = true)
    /\ (forallb unencoded (lit "Sheet 1") = false ->
        (length (lit "Sheet%201") < length out2)%nat).
Proof.
  apply (encode_range_twice (lit "Sheet 1")). vm_compute. reflexivity.
Defined.

(** ** The tools that take one range *)

Section RangeTools.

Variables (spreadsheet_id range encoded_range : str).
Hypothesis Hrange : _encode_range range = Ok encoded_range.
Hypothesis Hid : lacks 0x3F spreadsheet_id = true.

(** The path of a range, before any query string, has no [?]: the encoder
    leaves none. *)
Lemma range_path_lacks suffix :
  lacks 0x3F suffix = true ->
  lacks 0x3F (lit "/v4/spreadsheets/" ++ spreadsheet_id ++ lit "/values/"
              ++ encoded_range ++ suffix) = true.
Proof.
  intros Hs.
  rewrite !lacks_app, Hid, Hs, (encoded_lacks 0x3F range encoded_range Hrange)
    by (reflexivity || discriminate).
  reflexivity.
Qed.

Lemma range_path_query suffix q :
  lit "/v4/spreadsheets/" ++ spreadsheet_id ++ lit "/values/" ++ encoded_range
    ++ (suffix ++ lit "?") ++ q
  = (lit "/v4/spreadsheets/" ++ spreadsheet_id ++ lit "/values/" ++ encoded_range ++ suffix)
    ++ lit "?" ++ q.
Proof.
  now rewrite <- !app_assoc.
Qed.

End RangeTools.

Lemma field_lacks sep (k : string) v :
  lacks sep (lit k) = true -> lacks sep v = true -> lacks sep (lit k ++ v) = true.
Proof.
  intros Hk Hv. now rewrite lacks_app, Hk, Hv.
Qed.

(** X6.  A single-range read sends a GET without body whose path, before
    the query, is the spreadsheet id and the encoded range, and whose query
    is exactly the three options, whatever the range contains: a [?], [&],
    [=] or [#] of the range never reaches the query. *)
Theorem get_values_query (spreadsheet_id range encoded_range : str)
  (major_dimension value_render_option date_time_render_option : option str) :
  _encode_range range = Ok encoded_range ->
  lacks 0x3F spreadsheet_id = true ->
  opt_lacks 0x26 major_dimension = true ->
  opt_lacks 0x26 value_render_option = true ->
  opt_lacks 0x26 date_time_render_option = true ->
  exists req,
    built_request
      (sheets_get_values spreadsheet_id range major_dimension value_render_option
         date_time_render_option) = Some req
    /\ HttpRequest.method req = GET
    /\ HttpRequest.body req = JNull
    /\ Url.path_part (HttpRequest.path req)
       = lit "/v4/spreadsheets/" ++ spreadsheet_id ++ lit "/values/" ++ encoded_range
    /\ Url.query_pairs (HttpRequest.path req)
       = [(lit "majorDimension", default (lit "ROWS") major_dimension);
          (lit "valueRenderOption", default (lit "FORMATTED_VALUE") value_render_option);
          (lit "dateTimeRenderOption",
           default (lit "SERIAL_NUMBER") date_time_render_option)].
Proof.
  intros E Hid Hm Hv Hd. unfold sheets_get_values. rewrite E.
  cbn [await_result _req built_request].
  eexists. split; [reflexivity|].
  cbn [HttpRequest.method HttpRequest.path HttpRequest.body].
  split; [reflexivity|]. split; [reflexivity|].
  pose proof (range_path_lacks _ _ _ E Hid [] eq_refl) as Hp.
  pose proof (range_path_query spreadsheet_id encoded_range [] ) as Hq.
  cbn [app] in Hq. rewrite !app_nil_r in Hp, Hq. rewrite Hq.
  split.
  - now apply path_part_built.
  - rewrite query_pairs_built; [reflexivity | exact Hp | discriminate |].
    cbn [forallb]. rewrite !field_lacks; try reflexivity.
    all: now apply default_lacks.
Qed.

Lemma get_values_query_witness :
  exists req,
    built_request
      (sheets_get_values (lit "abc123") (lit "Q&A?x=1#top") (Some (lit "COLUMNS"))
         None None) = Some req
    /\ HttpRequest.method req = GET
    /\ HttpRequest.body req = JNull
    /\ Url.path_part (HttpRequest.path req)
       = lit "/v4/spreadsheets/" ++ lit "abc123" ++ lit "/values/" ++ lit "Q%26A%3Fx%3D1%23top"
    /\ Url.query_pairs (HttpRequest.path req)
       = [(lit "majorDimension", default (lit "ROWS") (Some (lit "COLUMNS")));
          (lit "valueRenderOption", default (lit "FORMATTED_VALUE") None);
          (lit "dateTimeRenderOption", default (lit "SERIAL_NUMBER") None)].
Proof.
  apply (get_values_query (lit "abc123") (lit "Q&A?x=1#top") (lit "Q%26A%3Fx%3D1%23top")
           (Some (lit "COLUMNS")) None None); vm_compute; reflexivity.
Defined.

(** X7.  A single-range write sends a PUT whose body is [{"values": values}]
    with the values as given, to the path of the encoded range; its query is
    exactly [valueInputOption] and [includeValuesInResponse], the latter as
    [true] or [false] in lower case. *)
Theorem update_values_query (spreadsheet_id range encoded_range : str)
  (values : list (list value))
  (value_input_option : option str) (include_values_in_response : option bool) :
  _encode_range range = Ok encoded_range ->
  lacks 0x3F spreadsheet_id = true ->
  opt_lacks 0x26 value_input_option = true ->
  exists req,
    built_request
      (sheets_update_values spreadsheet_id range values value_input_option
         include_values_in_response) = Some req
    /\ HttpRequest.method req = PUT
    /\ HttpRequest.body req = JDict [(lit "values", JList (map JList values))]
    /\ Url.path_part (HttpRequest.path req)
       = lit "/v4/spreadsheets/" ++ spreadsheet_id ++ lit "/values/" ++ encoded_range
    /\ Url.query_pairs (HttpRequest.path req)
       = [(lit "valueInputOption", default (lit "USER_ENTERED") value_input_option);
          (lit "includeValuesInResponse",
           if default false include_values_in_response then lit "true" else lit "false")].
Proof.
  intros E Hid Hv. unfold sheets_update_values. rewrite E.
  cbn [await_result _req built_request].
  eexists. split; [reflexivity|].
  cbn [HttpRequest.method HttpRequest.path HttpRequest.body].
  split; [reflexivity|]. split; [reflexivity|].
  pose proof (range_path_lacks _ _ _ E Hid [] eq_refl) as Hp.
  pose proof (range_path_query spreadsheet_id encoded_range [] ) as Hq.
  cbn [app] in Hq. rewrite !app_nil_r in Hp, Hq. rewrite Hq.
  split.
  - now apply path_part_built.
  - rewrite query_pairs_built; [| exact Hp | discriminate |].
    + rewrite lower_str_of_bool. reflexivity.
    + cbn [forallb]. rewrite !field_lacks; try reflexivity.
      * apply lower_str_of_bool_lacks. now left.
      * now apply default_lacks.
Qed.

Lemma update_values_query_witness :
  exists req,
    built_request
      (sheets_update_values (lit "abc123") (lit "Sheet 1!A1") [[JInt 1; JStr (lit "a&b")]]
         None (Some true)) = Some req
    /\ HttpRequest.method req = PUT
    /\ HttpRequest.body req
       = JDict [(lit "values", JList (map JList [[JInt 1; JStr (lit "a&b")]]))]
    /\ Url.path_part (HttpRequest.path req)
       = lit "/v4/spreadsheets/" ++ lit "abc123" ++ lit "/values/" ++ lit "Sheet%201!A1"
    /\ Url.query_pairs (HttpRequest.path req)
       = [(lit "valueInputOption", default (lit "USER_ENTERED") None);
          (lit "includeValuesInResponse",
           if default false (Some true) then lit "true" else lit "false")].
Proof.
  apply (update_values_query (lit "abc123") (lit "Sheet 1!A1") (lit "Sheet%201!A1")
           [[JInt 1; JStr (lit "a&b")]] None (Some true)); vm_compute; reflexivity.
Defined.

(** X8.  An append sends a POST with the body [{"values": values}] to the
    path of the encoded range followed by [:append]; its query is exactly
    [valueInputOption], [insertDataOption] and [includeValuesInResponse], in
    that order. *)
Theorem append_values_query (spreadsheet_id range encoded_range : str)
  (values : list (list value))
  (value_input_option insert_data_option : option str)
  (include_values_in_response : option bool) :
  _encode_range range = Ok encoded_range ->
  lacks 0x3F spreadsheet_id = true ->
  opt_lacks 0x26 value_input_option = true ->
  opt_lacks 0x26 insert_data_option = true ->
  exists req,
    built_request
      (sheets_append_values spreadsheet_id range values value_input_option
         insert_data_option include_values_in_response) = Some req
    /\ HttpRequest.method req = POST
    /\ HttpRequest.body req = JDict [(lit "values", JList (map JList values))]
    /\ Url.path_part (HttpRequest.path req)
       = lit "/v4/spreadsheets/" ++ spreadsheet_id ++ lit "/values/" ++ encoded_range
         ++ lit ":append"
    /\ Url.query_pairs (HttpRequest.path req)
       = [(lit "valueInputOption", default (lit "USER_ENTERED") value_input_option);
          (lit "insertDataOption", default (lit "INSERT_ROWS") insert_data_option);
          (lit "includeValuesInResponse",
           if default false include_values_in_response then lit "true" else lit "false")].
Proof.
  intros E Hid Hv Hi. unfold sheets_append_values. rewrite E.
  cbn [await_result _req built_request].
  eexists. split; [reflexivity|].
  cbn [HttpRequest.method HttpRequest.path HttpRequest.body].
  split; [reflexivity|]. split; [reflexivity|].
  pose proof (range_path_lacks _ _ _ E Hid (lit ":append") eq_refl) as Hp.
  change (lit ":append?") with (lit ":append" ++ lit "?").
  rewrite range_path_query.
  split.
  - now apply path_part_built.
  - rewrite query_pairs_built; [| exact Hp | discriminate |].
    + rewrite lower_str_of_bool. reflexivity.
    + cbn [forallb]. rewrite !field_lacks; try reflexivity.
      * apply lower_str_of_bool_lacks. now left.
      * now apply default_lacks.
      * now apply default_lacks.
Qed.

Lemma append_values_query_witness :
  exists req,
    built_request
      (sheets_append_values (lit "abc123") (lit "Log!A:C") [[JStr (lit "x")]]
         (Some (lit "RAW")) None None) = Some req
    /\ HttpRequest.method req = POST
    /\ HttpRequest.body req = JDict [(lit "values", JList (map JList [[JStr (lit "x")]]))]
    /\ Url.path_part (HttpRequest.path req)
       = lit "/v4/spreadsheets/" ++ lit "abc123" ++ lit "/values/" ++ lit "Log!A:C"
         ++ lit ":append"
    /\ Url.query_pairs (HttpRequest.path req)
       = [(lit "valueInputOption", default (lit "USER_ENTERED") (Some (lit "RAW")));
          (lit "insertDataOption", default (lit "INSERT_ROWS") None);
          (lit "includeValuesInResponse",
           if default false None then lit "true" else lit "false")].
Proof.
  apply (append_values_query (lit "abc123") (lit "Log!A:C") (lit "Log!A:C")
           [[JStr (lit "x")]] (Some (lit "RAW")) None None); vm_compute; reflexivity.
Defined.

(** X9.  A clear sends a POST with the empty object as body to the path of
    the encoded range followed by [:clear], and no query at all. *)
Theorem clear_values_request (spreadsheet_id range encoded_range : str) :
  _encode_range range = Ok encoded_range ->
  exists req,
    built_request (sheets_clear_values spreadsheet_id range) = Some req
    /\ HttpRequest.method req = POST
    /\ HttpRequest.body req = JDict []
    /\ HttpRequest.path req
       = lit "/v4/spreadsheets/" ++ spreadsheet_id ++ lit "/values/" ++ encoded_range
         ++ lit ":clear"
    /\ (lacks 0x3F spreadsheet_id = true ->
        Url.path_part (HttpRequest.path req) = HttpRequest.path req
        /\ Url.query_pairs (HttpRequest.path req) = []).
Proof.
  intros E. unfold sheets_clear_values. rewrite E.
  cbn [await_result _req built_request].
  eexists. split; [reflexivity|].
  cbn [HttpRequest.method HttpRequest.path HttpRequest.body].
  split; [reflexivity|]. split; [reflexivity|]. split; [reflexivity|].
  intros Hid.
  pose proof (range_path_lacks _ _ _ E Hid (lit ":clear") eq_refl) as Hp.
  unfold Url.path_part, Url.query_pairs. now rewrite (partition_none _ _ Hp).
Qed.

Lemma clear_values_request_witness :
  exists req,
    built_request (sheets_clear_values (lit "abc123") (lit "What?!A1")) = Some req
    /\ HttpRequest.method req = POST
    /\ HttpRequest.body req = JDict []
    /\ HttpRequest.path req
       = lit "/v4/spreadsheets/" ++ lit "abc123" ++ lit "/values/" ++ lit "What%3F!A1"
         ++ lit ":clear"
    /\ (lacks 0x3F (lit "abc123") = true ->
        Url.path_part (HttpRequest.path req) = HttpRequest.path req
        /\ Url.query_pairs (HttpRequest.path req) = []).
Proof.
  apply (clear_values_request (lit "abc123") (lit "What?!A1") (lit "What%3F!A1")).
  vm_compute. reflexivity.
Defined.

(** ** Counting separators *)

Section Counting.

Lemma count_app c a b : count c (a ++ b) = (count c a + count c b)%nat.
Proof.
  unfold count. now rewrite filter_app, length_app.
Qed.

Lemma count_lacks c s : lacks c s = true -> count c s = 0%nat.
Proof.
  unfold lacks, memb, count. induction s as [|d s IH]; [reflexivity|].
  cbn [existsb filter]. destruct (c =? d); [discriminate|]. exact IH.
Qed.

Lemma count_rev c s : count c (rev s) = count c s.
Proof.
  induction s as [|d s IH]; [reflexivity|].
  cbn [rev]. rewrite count_app, IH. unfold count. cbn [filter].
  destruct (c =? d); cbn [length]; lia.
Qed.

Lemma count_dropwhile c p s : p c = false -> count c (dropwhile p s) = count c s.
Proof.
  intros Hp. induction s as [|d s IH]; [reflexivity|].
  cbn [dropwhile]. destruct (p d) eqn:Hd; [|reflexivity].
  rewrite IH. unfold count. cbn [filter].
  destruct (c =? d) eqn:E; [|reflexivity].
  apply Z.eqb_eq in E. congruence.
Qed.

(** Stripping removes whitespace only. *)
Lemma count_strip c s : isspace c = false -> count c (strip s) = count c s.
Proof.
  intros Hc. unfold strip, rstrip, lstrip.
  now rewrite count_rev, count_dropwhile, count_rev, count_dropwhile.
Qed.

(** The separators of a joined list: those of its parts, and one between
    two parts when the separator is the character counted. *)
Lemma count_join c sep parts :
  count c (join [sep] parts)
  = (fold_right (fun p n => count c p + n) 0 parts
     + (if (c =? sep)%Z then pred (length parts) else 0))%nat.
Proof.
  induction parts as [|p parts IH]; [cbn; now destruct (c =? sep)|].
  destruct parts as [|q parts].
  - cbn [join fold_right length pred]. destruct (c =? sep); lia.
  - change (join [sep] (p :: q :: parts)) with (p ++ [sep] ++ join [sep] (q :: parts)).
    rewrite !count_app, IH. cbn [fold_right length pred].
    unfold count at 2. cbn [filter]. destruct (c =? sep); cbn [length]; lia.
Qed.

(** Splitting at [sep] loses no other character. *)
Lemma count_split c sep s :
  c <> sep ->
  fold_right (fun p n => count c p + n)%nat 0%nat (split sep s) = count c s.
Proof.
  intros Hc. induction s as [|d s IH]; [reflexivity|].
  cbn [split]. destruct (d =? sep) eqn:E.
  - apply Z.eqb_eq in E. subst d. cbn [fold_right]. rewrite IH.
    unfold count. cbn [filter]. destruct (c =? sep) eqn:E; [|reflexivity].
    apply Z.eqb_eq in E. contradiction.
  - destruct (split sep s) as [|seg segs] eqn:Es.
    + now apply split_nonempty in Es.
    + cbn [fold_right] in IH |- *. unfold count in IH |- *. cbn [filter].
      destruct (c =? d); cbn [length]; lia.
Qed.

Lemma count_ranges_fields segs :
  fold_right (fun p n => count 0x26 p + n)%nat 0%nat
    (map (fun r => lit "ranges=" ++ strip r) segs)
  = fold_right (fun p n => count 0x26 p + n)%nat 0%nat segs.
Proof.
  induction segs as [|r segs IH]; [reflexivity|].
  cbn [map fold_right]. rewrite IH, count_app, (count_strip 0x26 r eq_refl).
  reflexivity.
Qed.

End Counting.

Section BatchGetCount.

Lemma option_field_count (k : string) d arg :
  lacks 0x26 (lit k) = true -> lacks 0x26 d = true -> opt_lacks 0x26 arg = true ->
  count 0x26 (lit k ++ default d arg) = 0%nat.
Proof.
  intros Hk Hd Ha. apply count_lacks. rewrite lacks_app, Hk.
  now apply default_lacks.
Qed.

End BatchGetCount.

(** X10.  The ranges of a batch read are not percent-encoded: the query has
    the three options and one [ranges] parameter for each comma-separated
    piece, and each ampersand inside [ranges] adds a parameter of its own. *)
Theorem batch_get_values_pair_count (spreadsheet_id ranges : str)
  (major_dimension value_render_option date_time_render_option : option str) :
  lacks 0x3F spreadsheet_id = true ->
  opt_lacks 0x26 major_dimension = true ->
  opt_lacks 0x26 value_render_option = true ->
  opt_lacks 0x26 date_time_render_option = true ->
  exists req,
    built_request
      (sheets_batch_get_values spreadsheet_id ranges major_dimension
         value_render_option date_time_render_option) = Some req
    /\ length (Url.query_pairs (HttpRequest.path req))
       = (3 + S (count 0x2C ranges) + count 0x26 ranges)%nat.
Proof.
  intros Hid Hm Hv Hd. unfold sheets_batch_get_values.
  cbn [_req built_request]. eexists. split; [reflexivity|].
  cbn [HttpRequest.path]. rewrite append_ranges_map.
  set (params := _ ++ map _ (split 0x2C ranges)).
  change (lit "/v4/spreadsheets/" ++ spreadsheet_id ++ lit "/values:batchGet?"
          ++ join (lit "&") params)
    with (lit "/v4/spreadsheets/"
          ++ (spreadsheet_id ++ lit "/values:batchGet" ++ 0x3F :: join [0x26] params)).
  rewrite (app_assoc spreadsheet_id), app_assoc.
  unfold Url.query_pairs. rewrite partition_app.
  - rewrite length_map, split_length. fold (count 0x26 (join [0x26] params)).
    rewrite count_join, Z.eqb_refl. subst params.
    rewrite length_app, length_map, split_length.
    fold (count 0x2C ranges).
    rewrite fold_right_app. cbn [fold_right length].
    rewrite !option_field_count by (reflexivity || assumption).
    rewrite count_ranges_fields, count_split by discriminate.
    cbn [Nat.add pred]. lia.
  - rewrite !lacks_app, Hid. reflexivity.
Qed.

Lemma batch_get_values_pair_count_witness :
  exists req,
    built_request
      (sheets_batch_get_values (lit "abc123") (lit "A1:B2, C3&majorDimension=COLUMNS")
         None None None) = Some req
    /\ length (Url.query_pairs (HttpRequest.path req))
       = (3 + S (count 0x2C (lit "A1:B2, C3&majorDimension=COLUMNS"))
          + count 0x26 (lit "A1:B2, C3&majorDimension=COLUMNS"))%nat.
Proof.
  apply (batch_get_values_pair_count (lit "abc123")
           (lit "A1:B2, C3&majorDimension=COLUMNS") None None None); reflexivity.
Defined.

(** ** The metadata read, the listing and the create *)

Section Metadata.

Lemma ranges_fields_amp segs :
  forallb (lacks 0x26) segs = true ->
  forallb (lacks 0x26) (map (fun r => lit "ranges=" ++ strip r) segs) = true.
Proof.
  induction segs as [|r segs IH]; [reflexivity|].
  cbn [forallb map]. rewrite andb_true_iff. intros [Hr Hs].
  rewrite lacks_app, (lacks_strip _ _ Hr), (IH Hs). reflexivity.
Qed.

Lemma ranges_fields_key_value segs :
  map Url.key_value (map (fun r => lit "ranges=" ++ strip r) segs)
  = map (fun r => (lit "ranges", strip r)) segs.
Proof.
  rewrite map_map. apply map_ext. intros r. reflexivity.
Qed.

(** Whitespace only: nothing is left after stripping. *)
Lemma strip_blank s : forallb isspace s = true -> strip s = [].
Proof.
  intros H. unfold strip, lstrip.
  now rewrite (proj2 (dropwhile_nil isspace s) H).
Qed.

End Metadata.

(** X11.  The metadata read sends a GET without body whose query is
    [includeGridData] (as [true] or [false]), then one [ranges] parameter
    for each comma-separated piece of a non-empty [ranges], stripped, then
    [fields] when it is not empty; empty arguments add nothing. *)
Theorem get_spreadsheet_query (spreadsheet_id : str)
  (include_grid_data : option bool) (ranges fields : option str) :
  lacks 0x3F spreadsheet_id = true ->
  opt_lacks 0x26 ranges = true -> opt_lacks 0x26 fields = true ->
  exists req,
    built_request (sheets_get_spreadsheet spreadsheet_id include_grid_data ranges fields)
    = Some req
    /\ HttpRequest.method req = GET
    /\ HttpRequest.body req = JNull
    /\ Url.path_part (HttpRequest.path req) = lit "/v4/spreadsheets/" ++ spreadsheet_id
    /\ Url.query_pairs (HttpRequest.path req)
       = [(lit "includeGridData",
           if default false include_grid_data then lit "true" else lit "false")]
         ++ (if str_truthy (default (lit "") ranges)
             then map (fun r => (lit "ranges", strip r))
                    (split 0x2C (default (lit "") ranges))
             else [])
         ++ (if str_truthy (default (lit "") fields)
             then [(lit "fields", default (lit "") fields)]
             else []).
Proof.
  intros Hid Hr Hf. unfold sheets_get_spreadsheet.
  cbn [_req built_request]. eexists. split; [reflexivity|].
  cbn [HttpRequest.method HttpRequest.path HttpRequest.body].
  split; [reflexivity|]. split; [reflexivity|].
  assert (Hr' : lacks 0x26 (default (lit "") ranges) = true)
    by now apply default_lacks.
  assert (Hf' : lacks 0x26 (default (lit "") fields) = true)
    by now apply default_lacks.
  set (rs := default (lit "") ranges) in *.
  set (fs := default (lit "") fields) in *.
  rewrite lower_str_of_bool.
  set (g := if default false include_grid_data then lit "true" else lit "false").
  assert (Hg : lacks 0x26 g = true) by (subst g; now destruct (default false _)).
  assert (Hp : lacks 0x3F (lit "/v4/spreadsheets/" ++ spreadsheet_id) = true)
    by now rewrite lacks_app, Hid.
  assert (Hs : forallb (lacks 0x26)
                 (map (fun r => lit "ranges=" ++ strip r) (split 0x2C rs)) = true)
    by (apply ranges_fields_amp; now apply segments_lack).
  assert (Hi : lacks 0x26 (lit "includeGridData=" ++ g) = true)
    by now rewrite lacks_app, Hg.
  assert (Hfs : lacks 0x26 (lit "fields=" ++ fs) = true)
    by now rewrite lacks_app, Hf'.
  rewrite (app_assoc (lit "/v4/spreadsheets/")).
  split; [now apply path_part_built|].
  destruct (str_truthy rs), (str_truthy fs);
    rewrite ?append_ranges_map;
    (rewrite query_pairs_built;
     [ rewrite ?map_app, ?ranges_fields_key_value, ?app_nil_r; reflexivity
     | exact Hp
     | discriminate
     | rewrite ?forallb_app; cbn [forallb]; rewrite ?Hs, ?Hi, ?Hfs; reflexivity ]).
Qed.

Lemma get_spreadsheet_query_witness :
  exists req,
    built_request
      (sheets_get_spreadsheet (lit "abc123") (Some true) (Some (lit " A1 ,B2:C3"))
         (Some (lit "sheets.properties"))) = Some req
    /\ HttpRequest.method req = GET
    /\ HttpRequest.body req = JNull
    /\ Url.path_part (HttpRequest.path req) = lit "/v4/spreadsheets/" ++ lit "abc123"
    /\ Url.query_pairs (HttpRequest.path req)
       = [(lit "includeGridData", lit "true");
          (lit "ranges", lit "A1"); (lit "ranges", lit "B2:C3");
          (lit "fields",  lit "sheets.properties")].
Proof.
  apply (get_spreadsheet_query (lit "abc123") (Some true) (Some (lit " A1 ,B2:C3"))
           (Some (lit "sheets.properties"))); reflexivity.
Defined.

(** X12.  Listing the sheets sends a GET without body whose query is the
    single parameter [fields] with the fixed mask of the source, not
    percent-encoded; it is the metadata read for that mask without the
    [includeGridData] parameter. *)
Theorem list_sheets_query (spreadsheet_id : str) :
  lacks 0x3F spreadsheet_id = true ->
  let mask :=
    lit "spreadsheetId,properties(title),sheets(properties(sheetId,title,index,gridProperties))" in
  exists req,
    built_request (sheets_list_sheets spreadsheet_id) = Some req
    /\ HttpRequest.method req = GET
    /\ HttpRequest.body req = JNull
    /\ Url.path_part (HttpRequest.path req) = lit "/v4/spreadsheets/" ++ spreadsheet_id
    /\ Url.query_pairs (HttpRequest.path req) = [(lit "fields", mask)]
    /\ exists req',
        built_request (sheets_get_spreadsheet spreadsheet_id None None (Some mask))
        = Some req'
        /\ Url.path_part (HttpRequest.path req') = Url.path_part (HttpRequest.path req)
        /\ Url.query_pairs (HttpRequest.path req')
           = (lit "includeGridData", lit "false")
             :: Url.query_pairs (HttpRequest.path req).
Proof.
  intros Hid mask. unfold sheets_list_sheets.
  cbn [_req built_request]. eexists. split; [reflexivity|].
  cbn [HttpRequest.method HttpRequest.path HttpRequest.body].
  split; [reflexivity|]. split; [reflexivity|].
  assert (Hp : lacks 0x3F (lit "/v4/spreadsheets/" ++ spreadsheet_id) = true)
    by now rewrite lacks_app, Hid.
  assert (P1 : Url.path_part
                 (lit "/v4/spreadsheets/" ++ spreadsheet_id ++ lit "?fields=" ++ mask)
               = lit "/v4/spreadsheets/" ++ spreadsheet_id).
  { change (lit "?fields=" ++ mask) with (lit "?" ++ (lit "fields=" ++ mask)).
    rewrite (app_assoc (lit "/v4/spreadsheets/")). now apply path_part_built. }
  assert (Q1 : Url.query_pairs
                 (lit "/v4/spreadsheets/" ++ spreadsheet_id ++ lit "?fields=" ++ mask)
               = [(lit "fields", mask)]).
  { change (lit "?fields=" ++ mask)
      with (lit "?" ++ join (lit "&") [lit "fields=" ++ mask]).
    rewrite (app_assoc (lit "/v4/spreadsheets/")).
    rewrite query_pairs_built; [reflexivity | exact Hp | discriminate | reflexivity]. }
  split; [exact P1|]. split; [exact Q1|].
  set (fields := [lit "includeGridData=false"; lit "fields=" ++ mask]).
  assert (P2 : Url.path_part
                 ((lit "/v4/spreadsheets/" ++ spreadsheet_id) ++ lit "?"
                  ++ join (lit "&") fields)
               = lit "/v4/spreadsheets/" ++ spreadsheet_id)
    by now apply path_part_built.
  assert (Q2 : Url.query_pairs
                 ((lit "/v4/spreadsheets/" ++ spreadsheet_id) ++ lit "?"
                  ++ join (lit "&") fields)
               = [(lit "includeGridData", lit "false"); (lit "fields", mask)])
    by (rewrite query_pairs_built;
        [reflexivity | exact Hp | discriminate | reflexivity]).
  rewrite <- app_assoc in P2, Q2.
  eexists. split; [reflexivity|]. split.
  - exact (eq_trans P2 (eq_sym P1)).
  - exact (eq_trans Q2 (f_equal (cons _) (eq_sym Q1))).
Qed.

Lemma list_sheets_query_witness :
  let mask :=
    lit "spreadsheetId,properties(title),sheets(properties(sheetId,title,index,gridProperties))" in
  exists req,
    built_request (sheets_list_sheets (lit "abc123")) = Some req
    /\ HttpRequest.method req = GET
    /\ HttpRequest.body req = JNull
    /\ Url.path_part (HttpRequest.path req) = lit "/v4/spreadsheets/" ++ lit "abc123"
    /\ Url.query_pairs (HttpRequest.path req) = [(lit "fields", mask)]
    /\ exists req',
        built_request (sheets_get_spreadsheet (lit "abc123") None None (Some mask))
        = Some req'
        /\ Url.path_part (HttpRequest.path req') = Url.path_part (HttpRequest.path req)
        /\ Url.query_pairs (HttpRequest.path req')
           = (lit "includeGridData", lit "false")
             :: Url.query_pairs (HttpRequest.path req).
Proof.
  apply (list_sheets_query (lit "abc123")). reflexivity.
Defined.

(** X13.  The body of a create has the key [sheets] exactly when
    [sheet_titles] is given and not empty; it then holds one sheet for each
    comma-separated piece, one more than there are commas, so that text of
    whitespace only gives one sheet with the empty title.  The spreadsheet
    title is sent as given. *)
Theorem create_sheets_key (title : str) (sheet_titles : option str) :
  exists body,
    built_request (sheets_create title sheet_titles)
    = Some (HttpRequest.mk POST (lit "/v4/spreadsheets") (JDict body))
    /\ dict_get (lit "properties") body = Some (JDict [(lit "title", JStr title)])
    /\ (default (lit "") sheet_titles = [] ->
        body = [(lit "properties", JDict [(lit "title", JStr title)])]
        /\ dict_get (lit "sheets") body = None)
    /\ (default (lit "") sheet_titles <> [] ->
        exists sheets,
          dict_get (lit "sheets") body = Some (JList sheets)
          /\ sheets = map sheet_properties (split 0x2C (default (lit "") sheet_titles))
          /\ length sheets = S (count 0x2C (default (lit "") sheet_titles))
          /\ (forallb isspace (default (lit "") sheet_titles) = true ->
              sheets = [JDict [(lit "properties", JDict [(lit "title", JStr (lit ""))])]])).
Proof.
  unfold sheets_create. set (ts := default (lit "") sheet_titles).
  cbn [_req built_request]. eexists. split; [reflexivity|].
  destruct ts as [|c ts'] eqn:E; cbn [str_truthy].
  - split; [reflexivity|]. split; [intros _; split; reflexivity | congruence].
  - split; [reflexivity|]. split; [discriminate|]. intros _.
    eexists. split; [reflexivity|]. split; [reflexivity|].
    split; [now rewrite length_map, split_length|].
    intros Hw.
    assert (Hc : lacks 0x2C (c :: ts') = true).
    { unfold lacks. apply negb_true_iff, memb_false_In. intros Hin.
      rewrite forallb_forall in Hw. specialize (Hw _ Hin). discriminate. }
    rewrite (split_lacks _ _ Hc). cbn [map]. unfold sheet_properties.
    now rewrite (strip_blank _ Hw).
Qed.

Lemma create_sheets_key_witness :
  exists sheets,
    built_request (sheets_create (lit " Budget ") (Some (lit "  ")))
    = Some (HttpRequest.mk POST (lit "/v4/spreadsheets")
              (JDict [(lit "properties", JDict [(lit "title", JStr (lit " Budget "))]);
                      (lit "sheets", JList sheets)]))
    /\ sheets = [JDict [(lit "properties", JDict [(lit "title", JStr (lit ""))])]].
Proof.
  destruct (create_sheets_key (lit " Budget ") (Some (lit "  ")))
    as (body & E & _ & _ & H).
  destruct (H ltac:(discriminate)) as (sheets & G & _ & _ & W).
  exists sheets. rewrite (W eq_refl) in *. split; [|reflexivity].
  rewrite E. vm_compute in E. injection E as <-. reflexivity.
Defined.

(** ** The characters of a serialised object *)

Section AsciiText.

Let printable (c : Z) : bool := (0x20 <=? c) && (c <=? 0x7E).

Lemma printable_ascii_text s : forallb printable s = true -> Forall ascii_text s.
Proof.
  intros H. apply Forall_forall. intros c Hc.
  rewrite forallb_forall in H. specialize (H c Hc). unfold printable in H.
  apply andb_true_iff in H. destruct H as [H1 H2].
  apply Z.leb_le in H1, H2. right. lia.
Qed.

Lemma hex_lower_ascii d : 0 <= d < 16 -> ascii_text (hex_lower d).
Proof.
  intros Hd. unfold hex_lower.
  assert (F : Forall ascii_text (lit "0123456789abcdef"))
    by (apply printable_ascii_text; reflexivity).
  rewrite Forall_forall in F. apply F, nth_In.
  change (length (lit "0123456789abcdef")) with 16%nat. lia.
Qed.

Lemma format_u04x_ascii n : Forall ascii_text (format_u04x n).
Proof.
  unfold format_u04x.
  repeat (apply Forall_cons; [first [right; lia | apply hex_lower_ascii, nibble_range]|]).
  constructor.
Qed.

Lemma escape_char_ascii c : Forall ascii_text (escape_char c).
Proof.
  unfold escape_char.
  repeat match goal with
         | |- context [if ?b then _ else _] => destruct b eqn:?
         end;
    try (apply printable_ascii_text; reflexivity);
    try apply format_u04x_ascii.
  - apply andb_true_iff in Heqb1. destruct Heqb1 as [H1 H2].
    apply Z.leb_le in H1, H2. constructor; [right; lia | constructor].
  - cbv zeta. apply Forall_app. split; apply format_u04x_ascii.
Qed.

Lemma encode_basestring_ascii_text s : Forall ascii_text (encode_basestring_ascii s).
Proof.
  unfold encode_basestring_ascii. rewrite !Forall_app. split; [|split].
  - constructor; [right; lia | constructor].
  - induction s as [|c s IH]; [constructor|].
    cbn [flat_map]. apply Forall_app. split; [apply escape_char_ascii | exact IH].
  - constructor; [right; lia | constructor].
Qed.

Lemma digits_ascii s : forallb is_digit s = true -> Forall ascii_text s.
Proof.
  intros H. apply Forall_forall. intros c Hc.
  rewrite forallb_forall in H. pose proof (is_digit_range c (H c Hc)).
  right. lia.
Qed.

Lemma int_repr_ascii n : Forall ascii_text (int_repr n).
Proof.
  destruct n as [|p|p].
  - rewrite int_repr_zero. constructor; [right; lia | constructor].
  - rewrite int_repr_pos. apply digits_ascii, uint_chars_digits.
  - rewrite int_repr_neg. constructor; [right; lia|].
    apply digits_ascii, uint_chars_digits.
Qed.

Lemma newline_indent_ascii indent level : Forall ascii_text (newline_indent indent level).
Proof.
  unfold newline_indent, spaces. apply Forall_app. split.
  - constructor; [now left | constructor].
  - apply Forall_forall. intros c Hc. apply repeat_spec in Hc. subst. right. lia.
Qed.

Variable indent : nat.

Lemma list_tail_ascii level lst :
  Forall (fun v => forall level, Forall ascii_text (iterencode indent level v)) lst ->
  Forall ascii_text (list_tail indent level lst).
Proof.
  induction 1 as [|w lst Hw _ IH]; cbn [list_tail]; [constructor|].
  rewrite !Forall_app. repeat split.
  - constructor; [right; lia | constructor].
  - apply newline_indent_ascii.
  - apply Hw.
  - exact IH.
Qed.

Lemma dict_tail_ascii level dct :
  Forall (fun kv => forall level, Forall ascii_text (iterencode indent level (snd kv))) dct ->
  Forall ascii_text (dict_tail indent level dct).
Proof.
  induction 1 as [|[k w] dct Hw _ IH]; cbn [dict_tail]; [constructor|].
  rewrite !Forall_app. repeat split.
  - constructor; [right; lia | constructor].
  - apply newline_indent_ascii.
  - apply encode_basestring_ascii_text.
  - apply printable_ascii_text. reflexivity.
  - apply Hw.
  - exact IH.
Qed.

(** [json.dumps] escapes everything that is not printable ASCII. *)
Lemma iterencode_ascii v : forall level, Forall ascii_text (iterencode indent level v).
Proof.
  induction v as [|b|n|s|l IHl|d IHd] using value_induction; intros level.
  - apply printable_ascii_text. reflexivity.
  - destruct b; apply printable_ascii_text; reflexivity.
  - apply int_repr_ascii.
  - apply encode_basestring_ascii_text.
  - destruct l as [|v lst]; [apply printable_ascii_text; reflexivity|].
    rewrite iterencode_list. inversion IHl as [|? ? Hv Hl]; subst.
    constructor; [right; lia|]. rewrite !Forall_app. repeat split.
    + apply newline_indent_ascii.
    + apply Hv.
    + now apply list_tail_ascii.
    + apply newline_indent_ascii.
    + constructor; [right; lia | constructor].
  - destruct d as [|[k v] dct]; [apply printable_ascii_text; reflexivity|].
    rewrite iterencode_dict. inversion IHd as [|? ? Hv Hl]; subst. cbn [snd] in Hv.
    constructor; [right; lia|]. rewrite !Forall_app. repeat split.
    + apply newline_indent_ascii.
    + apply encode_basestring_ascii_text.
    + apply printable_ascii_text. reflexivity.
    + apply Hv.
    + now apply dict_tail_ascii.
    + apply newline_indent_ascii.
    + constructor; [right; lia | constructor].
Qed.

Lemma dumps_ascii v : Forall ascii_text (dumps v indent).
Proof.
  apply iterencode_ascii.
Qed.

End AsciiText.

(** ** The outcomes of [_req] *)

(** X14.  Whatever the dispatcher answers, [_req] either returns exactly one
    item of type [text], whose text is printable ASCII and newlines only
    (everything else is escaped), or raises [AttributeError], which happens
    exactly when success is reported without a response. *)
Theorem req_outcome (dispatch : Dispatcher) (method : HttpMethod)
  (path : str) (body : value) :
  let resp := dispatch (lit "google-sheets-mcp") (HttpRequest.mk method path body) in
  match run dispatch (_req method path body) with
  | Ok items =>
      (exists t, items = [ {| type := lit "text"; text := t |} ] /\ Forall ascii_text t)
      /\ (success resp = false \/ response resp <> None)
  | Err e => e = AttributeError /\ success resp = true /\ response resp = None
  end.
Proof.
  intros resp. unfold _req. cbn [run]. fold resp.
  destruct (success resp); [destruct (response resp)|].
  - split; [eexists; split; [reflexivity | apply dumps_ascii] | right; discriminate].
  - cbn [run]. auto.
  - split; [eexists; split; [reflexivity | apply dumps_ascii] | now left].
Qed.

(** X15.  On a reported failure the response, if any, is ignored: the
    result is one text item that parses to the object with the single key
    [error], holding the dispatcher's message when there is an error object
    and [Request failed] otherwise. *)
Theorem req_failure_envelope (dispatch : Dispatcher) (method : HttpMethod)
  (path : str) (body : value) (m : str) :
  success (dispatch (lit "google-sheets-mcp") (HttpRequest.mk method path body)) = false ->
  m = match error (dispatch (lit "google-sheets-mcp") (HttpRequest.mk method path body)) with
      | Some e => message e
      | None => lit "Request failed"
      end ->
  forallb is_scalar m = true ->
  exists t,
    run dispatch (_req method path body) = Ok [ {| type := lit "text"; text := t |} ]
    /\ t = dumps (JDict [(lit "error", JStr m)]) 2
    /\ loads t = Some (JDict [(lit "error", JStr m)]).
Proof.
  intros Hs Hm Hsc. rewrite (req_failure _ _ _ _ Hs).
  eexists. split; [reflexivity|].
  assert (E : match error (dispatch (lit "google-sheets-mcp")
                             (HttpRequest.mk method path body)) with
              | Some e => JStr (message e)
              | None => JStr (lit "Request failed")
              end = JStr m).
  { subst m. now destruct (error _). }
  rewrite E. split; [reflexivity|]. apply loads_dumps.
  cbn [wellformed map fst distinct existsb negb andb forallb].
  rewrite Hsc. reflexivity.
Qed.

Lemma req_failure_envelope_witness :
  exists t,
    run (fun _ _ => {| success := false;
                       response := Some (HttpResponse.mk (JInt 7));
                       error := Some {| message := lit "quota" ++ [0xE9] |} |})
      (_req GET (lit "/v4/spreadsheets/abc123") JNull)
    = Ok [ {| type := lit "text"; text := t |} ]
    /\ t = dumps (JDict [(lit "error", JStr (lit "quota" ++ [0xE9]))]) 2
    /\ loads t = Some (JDict [(lit "error", JStr (lit "quota" ++ [0xE9]))]).
Proof.
  apply (req_failure_envelope
           (fun _ _ => {| success := false;
                          response := Some (HttpResponse.mk (JInt 7));
                          error := Some {| message := lit "quota" ++ [0xE9] |} |})
           GET (lit "/v4/spreadsheets/abc123") JNull (lit "quota" ++ [0xE9]));
    reflexivity.
Defined.

(** X16.  The result does not tell a failure from a success: a success
    whose body is the object [{"error": m}] gives the very result of a
    failure with the message [m]. *)
Theorem req_error_shaped_success (dispatch1 dispatch2 : Dispatcher)
  (method1 method2 : HttpMethod) (path1 path2 : str) (body1 body2 : value)
  (m : str) :
  dispatch1 (lit "google-sheets-mcp") (HttpRequest.mk method1 path1 body1)
  = {| success := true;
       response := Some (HttpResponse.mk (JDict [(lit "error", JStr m)]));
       error := None |} ->
  success (dispatch2 (lit "google-sheets-mcp") (HttpRequest.mk method2 path2 body2)) = false ->
  error (dispatch2 (lit "google-sheets-mcp") (HttpRequest.mk method2 path2 body2))
  = Some {| message := m |} ->
  run dispatch1 (_req method1 path1 body1) = run dispatch2 (_req method2 path2 body2).
Proof.
  intros H1 Hs He. rewrite (req_failure _ _ _ _ Hs), He.
  unfold _req. cbn [run]. rewrite H1. reflexivity.
Qed.

Lemma req_error_shaped_success_witness :
  run (fun _ _ => {| success := true;
                     response := Some (HttpResponse.mk
                                         (JDict [(lit "error", JStr (lit "not found"))]));
                     error := None |})
    (_req GET (lit "/v4/spreadsheets/abc123") JNull)
  = run (fun _ _ => {| success := false; response := None;
                       error := Some {| message := lit "not found" |} |})
      (_req GET (lit "/v4/spreadsheets/nope") JNull).
Proof.
  apply (req_error_shaped_success
           (fun _ _ => {| success := true;
                          response := Some (HttpResponse.mk
                                              (JDict [(lit "error", JStr (lit "not found"))]));
                          error := None |})
           (fun _ _ => {| success := false; response := None;
                          error := Some {| message := lit "not found" |} |})
           GET GET (lit "/v4/spreadsheets/abc123") (lit "/v4/spreadsheets/nope")
           JNull JNull (lit "not found")); reflexivity.
Defined.

(** ** Every tool *)

Section Calls.

Lemma req_built method path body :
  built_request (_req method path body) = Some (HttpRequest.mk method path body).
Proof.
  reflexivity.
Qed.

Lemma await_ok range (k : str -> Async SheetsResult) :
  forallb is_scalar range = true ->
  await_result (_encode_range range) k = k (flat_map encoded_char range).
Proof.
  intros H. now rewrite (encode_range_chars range H).
Qed.

Lemma await_err range (k : str -> Async SheetsResult) :
  forallb is_scalar range = false ->
  await_result (_encode_range range) k = Raise UnicodeEncodeError.
Proof.
  intros H. now rewrite (encode_range_not_scalar range H).
Qed.

(** Every invocation is one call of [_req], unless the encoder raises. *)
Lemma call_req c :
  if encodable c
  then exists method path body,
         call c = _req method path body
         /\ starts_with (lit "/v4/spreadsheets") path = true
         /\ (readOnlyHint (tool_of c) = true -> method = GET /\ body = JNull)
         /\ (readOnlyHint (tool_of c) = false ->
             method <> GET /\ exists items, body = JDict items)
  else call c = Raise UnicodeEncodeError.
Proof.
  destruct c; unfold encodable; cbn [range_of call tool_of];
    try destruct (forallb is_scalar range) eqn:Hr;
    unfold sheets_get_spreadsheet, sheets_list_sheets, sheets_create, sheets_batch_update,
      sheets_get_values, sheets_batch_get_values, sheets_update_values,
      sheets_batch_update_values, sheets_append_values, sheets_clear_values;
    rewrite ?(await_ok _ _ Hr), ?(await_err _ _ Hr); try reflexivity;
    (do 3 eexists; split; [reflexivity|]; split; [reflexivity|];
     split; cbn [readOnlyHint sheets_get_spreadsheet_tool sheets_list_sheets_tool
                   sheets_create_tool sheets_batch_update_tool sheets_get_values_tool
                   sheets_batch_get_values_tool sheets_update_values_tool
                   sheets_batch_update_values_tool sheets_append_values_tool
                   sheets_clear_values_tool];
     intros H; try discriminate H;
     split; [reflexivity || discriminate | try (eexists; reflexivity)]).
Qed.

End Calls.



(** X18.  The annotations agree with the requests: a tool declared
    read-only only ever sends a GET without body, and a tool declared
    writing only ever sends a POST or PUT whose body is an object.  Every
    tool that can be invoked is in the exported list, under the tag [read]
    or [write] that matches its annotation. *)
Theorem call_annotations (c : ToolCall) (req : HttpRequest.t) :
  built_request (call c) = Some req ->
  (readOnlyHint (tool_of c) = true
   <-> HttpRequest.method req = GET)
  /\ (HttpRequest.method req = GET <-> HttpRequest.body req = JNull)
  /\ (HttpRequest.method req <> GET -> exists items, HttpRequest.body req = JDict items)
  /\ In (tool_of c) sheets_tools
  /\ existsb (str_eqb (lit "read")) (tags (tool_of c)) = readOnlyHint (tool_of c)
  /\ existsb (str_eqb (lit "write")) (tags (tool_of c)) = negb (readOnlyHint (tool_of c)).
Proof.
  intros E. pose proof (call_req c) as H. destruct (encodable c).
  - destruct H as (method & path & body & Ec & _ & Hro & Hrw).
    rewrite Ec, req_built in E. injection E as <-.
    cbn [HttpRequest.method HttpRequest.body].
    assert (Hin : In (tool_of c) sheets_tools).
    { destruct c; cbn [tool_of]; unfold sheets_tools; cbn [In]; tauto. }
    assert (Htags :
      existsb (str_eqb (lit "read")) (tags (tool_of c)) = readOnlyHint (tool_of c)
      /\ existsb (str_eqb (lit "write")) (tags (tool_of c)) = negb (readOnlyHint (tool_of c)))
      by (destruct c; split; reflexivity).
    destruct (readOnlyHint (tool_of c)).
    + destruct (Hro eq_refl) as [-> ->].
      repeat split; trivial; try apply Htags. intros X. now elim X.
    + destruct (Hrw eq_refl) as [Hm [items ->]].
      repeat split; trivial; try apply Htags; try discriminate;
        try (intros X; now elim Hm).
      intros _. now exists items.
  - rewrite H in E. discriminate.
Qed.

Lemma call_annotations_witness :
  let c := CallListSheets (lit "abc123") in
  let req :=
    HttpRequest.mk GET
      (lit "/v4/spreadsheets/abc123?fields=spreadsheetId,properties(title),sheets(properties(sheetId,title,index,gridProperties))")
      JNull in
  (readOnlyHint (tool_of c) = true <-> HttpRequest.method req = GET)
  /\ (HttpRequest.method req = GET <-> HttpRequest.body req = JNull)
  /\ (HttpRequest.method req <> GET -> exists items, HttpRequest.body req = JDict items)
  /\ In (tool_of c) sheets_tools
  /\ existsb (str_eqb (lit "read")) (tags (tool_of c)) = readOnlyHint (tool_of c)
  /\ existsb (str_eqb (lit "write")) (tags (tool_of c)) = negb (readOnlyHint (tool_of c)).
Proof.
  apply (call_annotations (CallListSheets (lit "abc123"))
           (HttpRequest.mk GET
              (lit "/v4/spreadsheets/abc123?fields=spreadsheetId,properties(title),sheets(properties(sheetId,title,index,gridProperties))")
              JNull)).
  reflexivity.
Defined.


(** ** The spreadsheet id *)

Section Identifiers.

Lemma partition_some sep s a b :
  Url.partition sep s = Some (a, b) -> s = a ++ sep :: b /\ lacks sep a = true.
Proof.
  revert a. induction s as [|c s IH]; intros a; cbn [Url.partition]; [discriminate|].
  destruct (c =? sep) eqn:E.
  - intros [= <- <-]. apply Z.eqb_eq in E. subst. split; reflexivity.
  - destruct (Url.partition sep s) as [[a' b']|]; [|discriminate].
    intros [= <- <-]. destruct (IH a' eq_refl) as [-> Hl]. split; [reflexivity|].
    unfold lacks, memb in *. cbn [existsb]. rewrite Z.eqb_sym, E. exact Hl.
Qed.

(** The path of every request is [/v4/spreadsheets/], the spreadsheet id as
    given, and what the tool adds. *)
Lemma call_path c spreadsheet_id req :
  spreadsheet_id_of c = Some spreadsheet_id ->
  built_request (call c) = Some req ->
  exists rest, HttpRequest.path req = lit "/v4/spreadsheets/" ++ spreadsheet_id ++ rest.
Proof.
  destruct c; cbn [spreadsheet_id_of call]; intros [= <-];
    unfold sheets_get_spreadsheet, sheets_list_sheets, sheets_batch_update,
      sheets_get_values, sheets_batch_get_values, sheets_update_values,
      sheets_batch_update_values, sheets_append_values, sheets_clear_values;
    try (destruct (_encode_range range) as [out|e]; cbn [await_result]);
    cbn [_req built_request]; intros [= <-]; cbn [HttpRequest.path];
    eexists; reflexivity.
Qed.

End Identifiers.

(** X20.  The spreadsheet id is put into the path as it is, by every tool:
    when it holds a [?], the path of the request ends inside the id, and the
    rest of the id is read as the beginning of the query. *)
Theorem call_id_not_encoded (c : ToolCall) (spreadsheet_id before after : str)
  (req : HttpRequest.t) :
  spreadsheet_id_of c = Some spreadsheet_id ->
  built_request (call c) = Some req ->
  Url.partition 0x3F spreadsheet_id = Some (before, after) ->
  Url.path_part (HttpRequest.path req) = lit "/v4/spreadsheets/" ++ before
  /\ exists rest,
      Url.query_pairs (HttpRequest.path req)
      = map Url.key_value (split 0x26 (after ++ rest)).
Proof.
  intros Hc Hreq Hp.
  destruct (call_path c spreadsheet_id req Hc Hreq) as [rest ->].
  destruct (partition_some _ _ _ _ Hp) as [-> Hl].
  assert (Hpre : lacks 0x3F (lit "/v4/spreadsheets/" ++ before) = true)
    by now rewrite lacks_app, Hl.
  rewrite <- app_assoc. cbn [app]. rewrite (app_assoc (lit "/v4/spreadsheets/")).
  unfold Url.path_part, Url.query_pairs.
  change (0x3F :: after ++ rest) with (0x3F :: (after ++ rest)).
  rewrite (partition_app _ _ _ Hpre). split; [reflexivity|]. now exists rest.
Qed.

Lemma call_id_not_encoded_witness :
  let req :=
    HttpRequest.mk POST (lit "/v4/spreadsheets/abc?alt=media&x=/values/A1:clear") (JDict []) in
  Url.path_part (HttpRequest.path req) = lit "/v4/spreadsheets/" ++ lit "abc"
  /\ exists rest,
      Url.query_pairs (HttpRequest.path req)
      = map Url.key_value (split 0x26 (lit "alt=media&x=" ++ rest)).
Proof.
  apply (call_id_not_encoded (CallClearValues (lit "abc?alt=media&x=") (lit "A1"))
           (lit "abc?alt=media&x=") (lit "abc") (lit "alt=media&x=")); reflexivity.
Defined.
